(** * Wake event and NuttX WiFi driver: a shallow embedding

    This development embeds two translation units of the connectedhomeip
    port:

    - [src/system/WakeEvent.cpp]: the primitive that wakes a thread blocked
      in the socket multiplexer, in its four build-time variants (anonymous
      pipe, named FIFO, eventfd, Zephyr eventfd);
    - [src/platform/Linux/NetworkCommissioningWiFiDriverNuttx.cpp]: the
      single-network WiFi commissioning driver.

    The C++ methods are written as computations in a small state monad
    over a _world_: the object's own fields, the state of the operating
    system, the state of the system layer, and the chronological trace of
    the calls the code has issued.  The operating system and the system
    layer are interfaces (type classes); the code is embedded once, for
    every implementation of them, and a reference kernel is supplied as
    one instance. *)

From Stdlib Require Import ZArith List Bool Lia.
From Stdlib.Strings Require Byte.
From stdpp Require Import gmap strings list fin_maps.

Local Open Scope Z_scope.

Abbreviation byte := Byte.byte.

(** ** Error numbers and CHIP errors *)

(** The values of [errno] that the code and the reference kernel name.
    [EAGAIN] and [EWOULDBLOCK] are kept apart, as the source tests both. *)
Inductive Errno : Set :=
| EAGAIN | EWOULDBLOCK | EBADF | EEXIST | EINTR | EINVAL
| EIO | EMFILE | ENOENT | ENXIO | EPIPE.

#[global] Instance Errno_eq_dec : EqDecision Errno.
Proof. solve_decision. Defined.

Inductive CHIP_ERROR : Set :=
| CHIP_NO_ERROR
| CHIP_ERROR_POSIX (e : Errno)
| CHIP_ERROR_OPEN_FAILED
| CHIP_ERROR_INVALID_ARGUMENT
| CHIP_ERROR_INCORRECT_STATE
| CHIP_ERROR_ENDPOINT_POOL_FULL
| CHIP_ERROR_PERSISTED_STORAGE_FAILED
| CHIP_ERROR_NOT_FOUND.

#[global] Instance CHIP_ERROR_eq_dec : EqDecision CHIP_ERROR.
Proof. solve_decision. Defined.

(** ** Constants of the C library (Linux ABI values; only the fact that
    the bits are distinct matters below) *)

Definition O_RDONLY : Z := 0.
Definition O_WRONLY : Z := 1.
Definition O_NONBLOCK : Z := 2048.
Definition F_GETFL : Z := 3.
Definition F_SETFL : Z := 4.

Definition kChipEventFifoPath : string := "/var/wake_event_fifo".

(** [char byte = 1;] *)
Definition byte_one : byte := Byte.x01.

(** The object representation of a [uint64_t] on a little-endian target. *)
Fixpoint le_bytes (n : nat) (v : Z) : list byte :=
  match n with
  | O => []
  | S n' =>
      default Byte.x00 (Byte.of_N (Z.to_N (v mod 256))) :: le_bytes n' (v / 256)
  end.

Fixpoint le_value (bs : list byte) : Z :=
  match bs with
  | [] => 0
  | b :: bs' => Z.of_N (Byte.to_N b) + 256 * le_value bs'
  end.

Definition uint64_bytes (v : Z) : list byte := le_bytes 8 (v mod 2 ^ 64).

(** ** The calls the code issues, and the trace *)

Inductive Call : Type :=
| c_pipe
| c_fcntl (fd cmd arg : Z)
| c_mkfifo (path : string) (mode : Z)
| c_open (path : string) (flags : Z)
| c_close (fd : Z)
| c_read (fd : Z) (count : Z)
| c_write (fd : Z) (buf : list byte)
| c_eventfd (initval flags : Z)
| c_eventfd_read (fd : Z)
| c_eventfd_write (fd : Z) (v : Z).

(** A system call either returns an integer or does not return because
    the caller is suspended ([None]). *)
Inductive Event : Type :=
| EvSys (c : Call) (r : option Z)
| EvStartWatching (fd : Z) (token : Z) (err : CHIP_ERROR)
| EvSetCallback (token : Z) (err : CHIP_ERROR)
| EvRequestCallbackOnPendingRead (token : Z) (err : CHIP_ERROR)
| EvStopWatching (token : Z)
| EvLog (msg : string)
| EvDie.

(** ** Interfaces *)

(** The operating system, as far as [WakeEvent.cpp] uses it.  Each call
    takes the kernel state and returns the value of the call ([None] when
    the caller blocks) and the new state; [errno] is read from the
    state. *)
Class Posix (K : Type) := {
  errno : K -> Errno;
  (* return value, then [fds[0]] and [fds[1]] *)
  posix_pipe : K -> option Z * (Z * Z) * K;
  posix_fcntl : Z -> Z -> Z -> K -> option Z * K;
  posix_mkfifo : string -> Z -> K -> option Z * K;
  posix_open : string -> Z -> K -> option Z * K;
  posix_close : Z -> K -> option Z * K;
  posix_read : Z -> Z -> K -> option Z * K;
  posix_write : Z -> list byte -> K -> option Z * K;
  posix_eventfd : Z -> Z -> K -> option Z * K;
  posix_eventfd_read : Z -> K -> option Z * K;
  posix_eventfd_write : Z -> Z -> K -> option Z * K;
}.

(** The callback registered by [Open]: the static [Confirm] trampoline. *)
Inductive Callback : Set := ConfirmCallback.

(** [System::LayerSockets], the socket multiplexer.  The watch token is an
    in-out parameter of [StartWatchingSocket] and [StopWatchingSocket]. *)
Class LayerSockets (L : Type) := {
  StartWatchingSocket : Z -> Z -> L -> CHIP_ERROR * Z * L;
  SetCallback : Z -> Callback -> L -> CHIP_ERROR * L;
  RequestCallbackOnPendingRead : Z -> L -> CHIP_ERROR * L;
  StopWatchingSocket : Z -> L -> CHIP_ERROR * Z * L;
}.

(** ** The object and the world *)

Record WakeEvent : Set := mkWakeEvent {
  mReadFD : Z;
  mWriteFD : Z;
  mReadWatch : Z;
}.

(** Build-time configuration: the three macros that select the variant. *)
Record Config : Set := mkConfig {
  CHIP_SYSTEM_CONFIG_USE_POSIX_PIPE : bool;
  CHIP_SYSTEM_CONFIG_WAKE_EVENT_USE_FIFO : bool;
  CHIP_SYSTEM_CONFIG_USE_ZEPHYR_EVENTFD : bool;
}.

Record World (K L : Type) : Type := mkWorld {
  self : WakeEvent;
  os : K;
  layer : L;
  trace : list Event;
}.
Arguments mkWorld {K L} _ _ _ _.
Arguments self {K L} _.
Arguments os {K L} _.
Arguments layer {K L} _.
Arguments trace {K L} _.

(** Why a computation stops without returning to its caller. *)
Inductive Halt : Set := Died | Blocked | OutOfFuel.

Inductive outcome (A : Type) : Type :=
| Ret (a : A)
| Halted (h : Halt).
Arguments Ret {A} a.
Arguments Halted {A} h.

Section Embedding.
Context {K L : Type} `{OSK : Posix K} `{LSL : LayerSockets L}.

Definition M (A : Type) : Type := World K L -> outcome A * World K L.

Definition ret {A} (a : A) : M A := fun w => (Ret a, w).

Definition bind {A B} (m : M A) (f : A -> M B) : M B :=
  fun w =>
    match m w with
    | (Ret a, w') => f a w'
    | (Halted h, w') => (Halted h, w')
    end.

Definition emit (e : Event) (w : World K L) : World K L :=
  mkWorld (self w) (os w) (layer w) (trace w ++ [e]).

Definition set_os (k : K) (w : World K L) : World K L :=
  mkWorld (self w) k (layer w) (trace w).

Definition set_layer (l : L) (w : World K L) : World K L :=
  mkWorld (self w) (os w) l (trace w).

Definition set_self (s : WakeEvent) (w : World K L) : World K L :=
  mkWorld s (os w) (layer w) (trace w).

Definition this : M WakeEvent := fun w => (Ret (self w), w).

Definition get_errno : M Errno := fun w => (Ret (errno (os w)), w).

Definition assign_mReadFD (fd : Z) : M unit :=
  fun w => (Ret tt, set_self (mkWakeEvent fd (mWriteFD (self w)) (mReadWatch (self w))) w).

Definition assign_mWriteFD (fd : Z) : M unit :=
  fun w => (Ret tt, set_self (mkWakeEvent (mReadFD (self w)) fd (mReadWatch (self w))) w).

(** Issue one system call: run it on the kernel state, record it. *)
Definition syscall (c : Call) (f : K -> option Z * K) : M Z :=
  fun w =>
    let '(r, k) := f (os w) in
    let w' := emit (EvSys c r) (set_os k w) in
    match r with
    | Some v => (Ret v, w')
    | None => (Halted Blocked, w')
    end.

Definition sys_pipe : M (Z * (Z * Z)) :=
  fun w =>
    let '(r, fds, k) := posix_pipe (os w) in
    let w' := emit (EvSys c_pipe r) (set_os k w) in
    match r with
    | Some v => (Ret (v, fds), w')
    | None => (Halted Blocked, w')
    end.

Definition sys_fcntl fd cmd arg := syscall (c_fcntl fd cmd arg) (posix_fcntl fd cmd arg).
Definition sys_mkfifo path mode := syscall (c_mkfifo path mode) (posix_mkfifo path mode).
Definition sys_open path flags := syscall (c_open path flags) (posix_open path flags).
Definition sys_close fd := syscall (c_close fd) (posix_close fd).
Definition sys_read fd count := syscall (c_read fd count) (posix_read fd count).
Definition sys_write fd buf := syscall (c_write fd buf) (posix_write fd buf).
Definition sys_eventfd initval flags := syscall (c_eventfd initval flags) (posix_eventfd initval flags).
Definition sys_eventfd_read fd := syscall (c_eventfd_read fd) (posix_eventfd_read fd).
Definition sys_eventfd_write fd v := syscall (c_eventfd_write fd v) (posix_eventfd_write fd v).

(** [ChipLogError]: recorded in the trace, no other effect. *)
Definition ChipLogError (msg : string) : M unit :=
  fun w => (Ret tt, emit (EvLog msg) w).

(** [VerifyOrDie(cond)]: abort the process unless [cond]. *)
Definition VerifyOrDie (cond : bool) : M unit :=
  fun w => if cond then (Ret tt, w) else (Halted Died, emit EvDie w).

(** Calls on [systemLayer]. *)
Definition layer_StartWatchingSocket (fd : Z) : M CHIP_ERROR :=
  fun w =>
    let '(err, tok, l) := StartWatchingSocket fd (mReadWatch (self w)) (layer w) in
    (Ret err,
     set_self (mkWakeEvent (mReadFD (self w)) (mWriteFD (self w)) tok)
       (emit (EvStartWatching fd tok err) (set_layer l w))).

Definition layer_SetCallback (tok : Z) (cb : Callback) : M CHIP_ERROR :=
  fun w =>
    let '(err, l) := SetCallback tok cb (layer w) in
    (Ret err, emit (EvSetCallback tok err) (set_layer l w)).

Definition layer_RequestCallbackOnPendingRead (tok : Z) : M CHIP_ERROR :=
  fun w =>
    let '(err, l) := RequestCallbackOnPendingRead tok (layer w) in
    (Ret err, emit (EvRequestCallbackOnPendingRead tok err) (set_layer l w)).

Definition layer_StopWatchingSocket : M CHIP_ERROR :=
  fun w =>
    let '(err, tok, l) := StopWatchingSocket (mReadWatch (self w)) (layer w) in
    (Ret err,
     set_self (mkWakeEvent (mReadFD (self w)) (mWriteFD (self w)) tok)
       (emit (EvStopWatching (mReadWatch (self w))) (set_layer l w))).

Notation "x <- m ;; k" := (bind m (fun x => k))
  (at level 100, m at next level, right associativity).
Notation "m ;;; k" := (bind m (fun _ => k))
  (at level 100, right associativity).

(** [ReturnErrorOnFailure(expr)]: return [expr]'s error from the
    enclosing function, otherwise go on with [k]. *)
Definition ReturnErrorOnFailure (expr : M CHIP_ERROR) (k : M CHIP_ERROR) : M CHIP_ERROR :=
  err <- expr ;;
  if bool_decide (err = CHIP_NO_ERROR) then k else ret err.

(** [errno != EAGAIN && errno != EWOULDBLOCK] *)
Definition not_would_block (e : Errno) : bool :=
  negb (bool_decide (e = EAGAIN)) && negb (bool_decide (e = EWOULDBLOCK)).

(** *** Variant with CHIP_SYSTEM_CONFIG_USE_POSIX_PIPE *)

(** [SetNonBlockingMode], lines 55-59. *)
Definition SetNonBlockingMode (fd : Z) : M Z :=
  flags <- sys_fcntl fd F_GETFL 0 ;;
  sys_fcntl fd F_SETFL (Z.lor flags O_NONBLOCK).

(** The common tail of [Open], lines 103-110 and 216-220. *)
Definition Open_register : M CHIP_ERROR :=
  s <- this ;;
  ReturnErrorOnFailure (layer_StartWatchingSocket (mReadFD s)) (
  s <- this ;;
  ReturnErrorOnFailure (layer_SetCallback (mReadWatch s) ConfirmCallback) (
  s <- this ;;
  ReturnErrorOnFailure (layer_RequestCallbackOnPendingRead (mReadWatch s)) (
  ret CHIP_NO_ERROR))).

(** [WakeEvent::Open], lines 64-111.  [fifo] is
    CHIP_SYSTEM_CONFIG_WAKE_EVENT_USE_FIFO. *)
Definition Open_pipe (fifo : bool) : M CHIP_ERROR :=
  if fifo then
    r <- sys_mkfifo kChipEventFifoPath 438 ;;
    e <- get_errno ;;
    if negb ((r =? 0) || bool_decide (e = EEXIST)) then ret CHIP_ERROR_OPEN_FAILED
    else
      fd_read <- sys_open kChipEventFifoPath (Z.lor O_RDONLY O_NONBLOCK) ;;
      if fd_read =? -1 then
        ChipLogError "System wake event failed to open fifo" ;;;
        e <- get_errno ;;
        ret (CHIP_ERROR_POSIX e)
      else
        fd_write <- sys_open kChipEventFifoPath (Z.lor O_WRONLY O_NONBLOCK) ;;
        if fd_write =? -1 then
          ChipLogError "System wake event failed to open fifo" ;;;
          e <- get_errno ;;
          ret (CHIP_ERROR_POSIX e)
        else
          assign_mReadFD fd_read ;;;
          assign_mWriteFD fd_write ;;;
          Open_register
  else
    p <- sys_pipe ;;
    let '(r, (fd_read, fd_write)) := p in
    if r <? 0 then e <- get_errno ;; ret (CHIP_ERROR_POSIX e)
    else
      r <- SetNonBlockingMode fd_read ;;
      if r <? 0 then e <- get_errno ;; ret (CHIP_ERROR_POSIX e)
      else
        r <- SetNonBlockingMode fd_write ;;
        if r <? 0 then e <- get_errno ;; ret (CHIP_ERROR_POSIX e)
        else
          assign_mReadFD fd_read ;;;
          assign_mWriteFD fd_write ;;;
          Open_register.

(** [WakeEvent::Close], lines 113-120. *)
Definition Close_pipe : M unit :=
  layer_StopWatchingSocket ;;;
  s <- this ;;
  r <- sys_close (mReadFD s) ;;
  VerifyOrDie (r =? 0) ;;;
  s <- this ;;
  r <- sys_close (mWriteFD s) ;;
  VerifyOrDie (r =? 0) ;;;
  assign_mReadFD (-1) ;;;
  assign_mWriteFD (-1).

(** [sizeof(buffer)] for [uint8_t buffer[128]]. *)
Definition sizeof_buffer : Z := 128.

(** [WakeEvent::Confirm], lines 122-137.  The [do ... while] loop is
    unrolled by [fuel]; [res == sizeof(buffer)] compares after
    conversion to [size_t], under which no negative [res] equals 128. *)
Fixpoint Confirm_pipe (fuel : nat) : M unit :=
  match fuel with
  | O => fun w => (Halted OutOfFuel, w)
  | S fuel' =>
      s <- this ;;
      res <- sys_read (mReadFD s) sizeof_buffer ;;
      e <- get_errno ;;
      if (res <? 0) && not_would_block e then
        ChipLogError "System wake event confirm failed" ;;;
        ret tt
      else if res =? sizeof_buffer then Confirm_pipe fuel'
      else ret tt
  end.

(** [WakeEvent::Notify], lines 139-168. *)
Definition Notify_pipe (fifo : bool) : M CHIP_ERROR :=
  s <- this ;;
  r <- sys_write (mWriteFD s) [byte_one] ;;
  e <- get_errno ;;
  if (r <? 0) && not_would_block e then
    if fifo then
      WriteFD <- sys_open kChipEventFifoPath O_WRONLY ;;
      if WriteFD =? -1 then
        ChipLogError "Notify event failed to open fifo" ;;;
        e <- get_errno ;;
        ret (CHIP_ERROR_POSIX e)
      else
        r <- sys_write WriteFD [byte_one] ;;
        if r <? 0 then
          sys_close WriteFD ;;;
          ChipLogError "Failed to notify event by fifo" ;;;
          e <- get_errno ;;
          ret (CHIP_ERROR_POSIX e)
        else
          sys_close WriteFD ;;;
          ret CHIP_NO_ERROR
    else ret (CHIP_ERROR_POSIX e)
  else ret CHIP_NO_ERROR.

(** *** Variant without CHIP_SYSTEM_CONFIG_USE_POSIX_PIPE *)

(** [ReadEvent] and [WriteEvent], lines 176-202.  [zephyr] is
    CHIP_SYSTEM_CONFIG_USE_ZEPHYR_EVENTFD. *)
Definition ReadEvent (zephyr : bool) (eventFd : Z) : M Z :=
  if zephyr then sys_eventfd_read eventFd
  else sys_read eventFd 8.

Definition WriteEvent (zephyr : bool) (eventFd : Z) : M Z :=
  if zephyr then sys_eventfd_write eventFd 1
  else sys_write eventFd (uint64_bytes 1).

(** [WakeEvent::Open], lines 208-221. *)
Definition Open_eventfd : M CHIP_ERROR :=
  fd <- sys_eventfd 0 0 ;;
  assign_mReadFD fd ;;;
  s <- this ;;
  if mReadFD s =? -1 then e <- get_errno ;; ret (CHIP_ERROR_POSIX e)
  else Open_register.

(** [WakeEvent::Close], lines 223-228. *)
Definition Close_eventfd : M unit :=
  layer_StopWatchingSocket ;;;
  s <- this ;;
  r <- sys_close (mReadFD s) ;;
  VerifyOrDie (r =? 0) ;;;
  assign_mReadFD (-1).

(** [WakeEvent::Confirm], lines 230-236. *)
Definition Confirm_eventfd (zephyr : bool) : M unit :=
  s <- this ;;
  r <- ReadEvent zephyr (mReadFD s) ;;
  e <- get_errno ;;
  if (r <? 0) && not_would_block e then
    ChipLogError "System wake event confirm failed"
  else ret tt.

(** [WakeEvent::Notify], lines 238-246. *)
Definition Notify_eventfd (zephyr : bool) : M CHIP_ERROR :=
  s <- this ;;
  r <- WriteEvent zephyr (mReadFD s) ;;
  e <- get_errno ;;
  if (r <? 0) && not_would_block e then ret (CHIP_ERROR_POSIX e)
  else ret CHIP_NO_ERROR.

(** *** The four operations, by configuration *)

Definition Open (cfg : Config) : M CHIP_ERROR :=
  if CHIP_SYSTEM_CONFIG_USE_POSIX_PIPE cfg
  then Open_pipe (CHIP_SYSTEM_CONFIG_WAKE_EVENT_USE_FIFO cfg)
  else Open_eventfd.

Definition Close (cfg : Config) : M unit :=
  if CHIP_SYSTEM_CONFIG_USE_POSIX_PIPE cfg then Close_pipe else Close_eventfd.

Definition Confirm (cfg : Config) (fuel : nat) : M unit :=
  if CHIP_SYSTEM_CONFIG_USE_POSIX_PIPE cfg then Confirm_pipe fuel
  else Confirm_eventfd (CHIP_SYSTEM_CONFIG_USE_ZEPHYR_EVENTFD cfg).

Definition Notify (cfg : Config) : M CHIP_ERROR :=
  if CHIP_SYSTEM_CONFIG_USE_POSIX_PIPE cfg
  then Notify_pipe (CHIP_SYSTEM_CONFIG_WAKE_EVENT_USE_FIFO cfg)
  else Notify_eventfd (CHIP_SYSTEM_CONFIG_USE_ZEPHYR_EVENTFD cfg).

(** The descriptors the object holds in a configuration: [mWriteFD] is
    a member only of the pipe variants. *)
Definition descriptors (cfg : Config) (s : WakeEvent) : list Z :=
  if CHIP_SYSTEM_CONFIG_USE_POSIX_PIPE cfg then [mReadFD s; mWriteFD s]
  else [mReadFD s].

End Embedding.

(** ** A reference kernel

    The environment the code runs in, written down from the POSIX and
    Linux manual pages of the calls in [Posix] (pipe(2), fifo(7),
    eventfd(2), fcntl(2), read(2), write(2), close(2)).  Descriptor tables
    are per task; pipes, FIFOs and event counters are kernel objects
    shared by the descriptors that refer to them.  A call on a descriptor
    that is not in non-blocking mode suspends the caller where the manual
    says it does. *)

Inductive Endpoint : Set :=
| PipeReader (p : nat)
| PipeWriter (p : nat)
| EventCounter (c : nat).

#[global] Instance Endpoint_eq_dec : EqDecision Endpoint.
Proof. solve_decision. Defined.

Record OpenFile : Set := mkOpenFile {
  of_end : Endpoint;
  of_nonblock : bool;
}.

Record Kernel : Type := mkKernel {
  k_task : nat;                        (* the task making the calls *)
  k_files : gmap (nat * Z) OpenFile;   (* descriptor tables, by task *)
  k_pipes : gmap nat Z;                (* bytes buffered in each pipe *)
  k_counters : gmap nat Z;             (* value of each event counter *)
  k_fifos : gmap string nat;           (* FIFO nodes of the file system *)
  k_errno : Errno;
  k_next_fd : Z;                       (* descriptors are not reused *)
  k_next_obj : nat;
  k_fd_limit : Z;
  k_pipe_size : Z;                     (* capacity of a pipe buffer *)
}.

Definition set_errno (e : Errno) (k : Kernel) : Kernel :=
  mkKernel (k_task k) (k_files k) (k_pipes k) (k_counters k) (k_fifos k) e
    (k_next_fd k) (k_next_obj k) (k_fd_limit k) (k_pipe_size k).

Definition set_files (f : gmap (nat * Z) OpenFile) (k : Kernel) : Kernel :=
  mkKernel (k_task k) f (k_pipes k) (k_counters k) (k_fifos k) (k_errno k)
    (k_next_fd k) (k_next_obj k) (k_fd_limit k) (k_pipe_size k).

Definition set_pipes (p : gmap nat Z) (k : Kernel) : Kernel :=
  mkKernel (k_task k) (k_files k) p (k_counters k) (k_fifos k) (k_errno k)
    (k_next_fd k) (k_next_obj k) (k_fd_limit k) (k_pipe_size k).

Definition set_counters (c : gmap nat Z) (k : Kernel) : Kernel :=
  mkKernel (k_task k) (k_files k) (k_pipes k) c (k_fifos k) (k_errno k)
    (k_next_fd k) (k_next_obj k) (k_fd_limit k) (k_pipe_size k).

Definition set_fifos (f : gmap string nat) (k : Kernel) : Kernel :=
  mkKernel (k_task k) (k_files k) (k_pipes k) (k_counters k) f (k_errno k)
    (k_next_fd k) (k_next_obj k) (k_fd_limit k) (k_pipe_size k).

Definition set_next_fd (n : Z) (k : Kernel) : Kernel :=
  mkKernel (k_task k) (k_files k) (k_pipes k) (k_counters k) (k_fifos k) (k_errno k)
    n (k_next_obj k) (k_fd_limit k) (k_pipe_size k).

Definition set_next_obj (n : nat) (k : Kernel) : Kernel :=
  mkKernel (k_task k) (k_files k) (k_pipes k) (k_counters k) (k_fifos k) (k_errno k)
    (k_next_fd k) n (k_fd_limit k) (k_pipe_size k).

(** Another task becomes the caller (a producer in another process). *)
Definition switch_task (t : nat) (k : Kernel) : Kernel :=
  mkKernel t (k_files k) (k_pipes k) (k_counters k) (k_fifos k) (k_errno k)
    (k_next_fd k) (k_next_obj k) (k_fd_limit k) (k_pipe_size k).

Definition fails (e : Errno) (k : Kernel) : option Z * Kernel :=
  (Some (-1), set_errno e k).

Definition file_of (fd : Z) (k : Kernel) : option OpenFile :=
  k_files k !! (k_task k, fd).

Definition pipe_bytes (p : nat) (k : Kernel) : Z := default 0 (k_pipes k !! p).

Definition counter_value (c : nat) (k : Kernel) : Z := default 0 (k_counters k !! c).

(** Some descriptor of some task refers to this end. *)
Definition has_end (e : Endpoint) (k : Kernel) : bool :=
  existsb (fun kv => bool_decide (of_end kv.2 = e)) (map_to_list (k_files k)).

(** The largest value an event counter holds: 2^64 - 2. *)
Definition counter_max : Z := 2 ^ 64 - 2.

(** Install a new descriptor in the caller's table. *)
Definition install (f : OpenFile) (k : Kernel) : Z * Kernel :=
  (k_next_fd k,
   set_next_fd (k_next_fd k + 1) (set_files (<[(k_task k, k_next_fd k) := f]> (k_files k)) k)).

Definition kernel_pipe (k : Kernel) : option Z * (Z * Z) * Kernel :=
  if k_fd_limit k <? k_next_fd k + 2 then
    (Some (-1), (0, 0), set_errno EMFILE k)
  else
    let p := k_next_obj k in
    let k1 := set_next_obj (S p) (set_pipes (<[p := 0]> (k_pipes k)) k) in
    let '(r, k2) := install (mkOpenFile (PipeReader p) false) k1 in
    let '(w, k3) := install (mkOpenFile (PipeWriter p) false) k2 in
    (Some 0, (r, w), k3).

Definition access_mode (e : Endpoint) : Z :=
  match e with
  | PipeReader _ => 0
  | PipeWriter _ => 1
  | EventCounter _ => 2
  end.

Definition kernel_fcntl (fd cmd arg : Z) (k : Kernel) : option Z * Kernel :=
  match file_of fd k with
  | None => fails EBADF k
  | Some f =>
      if cmd =? F_GETFL then
        (Some (Z.lor (access_mode (of_end f)) (if of_nonblock f then O_NONBLOCK else 0)), k)
      else if cmd =? F_SETFL then
        (Some 0,
         set_files (<[(k_task k, fd) := mkOpenFile (of_end f) (Z.testbit arg 11)]> (k_files k)) k)
      else fails EINVAL k
  end.

Definition kernel_mkfifo (path : string) (mode : Z) (k : Kernel) : option Z * Kernel :=
  match k_fifos k !! path with
  | Some _ => fails EEXIST k
  | None =>
      let p := k_next_obj k in
      (Some 0,
       set_next_obj (S p)
         (set_fifos (<[path := p]> (k_fifos k)) (set_pipes (<[p := 0]> (k_pipes k)) k)))
  end.

(** Opening a FIFO: a non-blocking reader opens at once; a non-blocking
    writer fails with ENXIO when nobody reads; a blocking open waits for
    the other end. *)
Definition kernel_open (path : string) (flags : Z) (k : Kernel) : option Z * Kernel :=
  match k_fifos k !! path with
  | None => fails ENOENT k
  | Some p =>
      let nonblock := Z.testbit flags 11 in
      let mode := Z.land flags 3 in
      if k_fd_limit k <? k_next_fd k + 1 then fails EMFILE k
      else if mode =? O_RDONLY then
        if nonblock || has_end (PipeWriter p) k then
          let '(fd, k') := install (mkOpenFile (PipeReader p) nonblock) k in (Some fd, k')
        else (None, k)
      else if mode =? O_WRONLY then
        if has_end (PipeReader p) k then
          let '(fd, k') := install (mkOpenFile (PipeWriter p) nonblock) k in (Some fd, k')
        else if nonblock then fails ENXIO k
        else (None, k)
      else fails EINVAL k
  end.

Definition kernel_close (fd : Z) (k : Kernel) : option Z * Kernel :=
  match file_of fd k with
  | None => fails EBADF k
  | Some _ => (Some 0, set_files (delete (k_task k, fd) (k_files k)) k)
  end.

(** Reading the event counter: fetch and reset, or wait for a non-zero
    value.  [ok] is the value a successful call returns. *)
Definition counter_read (ok : Z) (c : nat) (nonblock : bool) (k : Kernel) : option Z * Kernel :=
  if counter_value c k =? 0 then
    if nonblock then fails EAGAIN k else (None, k)
  else (Some ok, set_counters (<[c := 0]> (k_counters k)) k).

(** Adding to the event counter, or waiting until the sum fits. *)
Definition counter_add (ok : Z) (c : nat) (v : Z) (nonblock : bool) (k : Kernel) : option Z * Kernel :=
  if v =? 2 ^ 64 - 1 then fails EINVAL k
  else if counter_max <? counter_value c k + v then
    if nonblock then fails EAGAIN k else (None, k)
  else (Some ok, set_counters (<[c := counter_value c k + v]> (k_counters k)) k).

Definition kernel_read (fd count : Z) (k : Kernel) : option Z * Kernel :=
  match file_of fd k with
  | None => fails EBADF k
  | Some f =>
      match of_end f with
      | PipeReader p =>
          if 0 <? pipe_bytes p k then
            let n := Z.min (pipe_bytes p k) count in
            (Some n, set_pipes (<[p := pipe_bytes p k - n]> (k_pipes k)) k)
          else if has_end (PipeWriter p) k then
            if of_nonblock f then fails EAGAIN k else (None, k)
          else (Some 0, k)
      | PipeWriter _ => fails EBADF k
      | EventCounter c =>
          if count <? 8 then fails EINVAL k
          else counter_read 8 c (of_nonblock f) k
      end
  end.

(** Writes of at most a pipe buffer are atomic: all the bytes or none. *)
Definition kernel_write (fd : Z) (buf : list byte) (k : Kernel) : option Z * Kernel :=
  match file_of fd k with
  | None => fails EBADF k
  | Some f =>
      match of_end f with
      | PipeReader _ => fails EBADF k
      | PipeWriter p =>
          let n := Z.of_nat (length buf) in
          if negb (has_end (PipeReader p) k) then fails EPIPE k
          else if pipe_bytes p k + n <=? k_pipe_size k then
            (Some n, set_pipes (<[p := pipe_bytes p k + n]> (k_pipes k)) k)
          else if of_nonblock f then fails EAGAIN k
          else (None, k)
      | EventCounter c =>
          if Z.of_nat (length buf) <? 8 then fails EINVAL k
          else counter_add 8 c (le_value (take 8 buf)) (of_nonblock f) k
      end
  end.

Definition kernel_eventfd (initval flags : Z) (k : Kernel) : option Z * Kernel :=
  if k_fd_limit k <? k_next_fd k + 1 then fails EMFILE k
  else
    let c := k_next_obj k in
    let k1 := set_next_obj (S c) (set_counters (<[c := initval mod 2 ^ 32]> (k_counters k)) k) in
    let '(fd, k2) := install (mkOpenFile (EventCounter c) (Z.testbit flags 11)) k1 in
    (Some fd, k2).

Definition kernel_eventfd_read (fd : Z) (k : Kernel) : option Z * Kernel :=
  match file_of fd k with
  | None => fails EBADF k
  | Some f =>
      match of_end f with
      | EventCounter c => counter_read 0 c (of_nonblock f) k
      | _ => fails EINVAL k
      end
  end.

Definition kernel_eventfd_write (fd v : Z) (k : Kernel) : option Z * Kernel :=
  match file_of fd k with
  | None => fails EBADF k
  | Some f =>
      match of_end f with
      | EventCounter c => counter_add 0 c (v mod 2 ^ 64) (of_nonblock f) k
      | _ => fails EINVAL k
      end
  end.

#[global] Instance Kernel_Posix : Posix Kernel := {
  errno := k_errno;
  posix_pipe := kernel_pipe;
  posix_fcntl := kernel_fcntl;
  posix_mkfifo := kernel_mkfifo;
  posix_open := kernel_open;
  posix_close := kernel_close;
  posix_read := kernel_read;
  posix_write := kernel_write;
  posix_eventfd := kernel_eventfd;
  posix_eventfd_read := kernel_eventfd_read;
  posix_eventfd_write := kernel_eventfd_write;
}.

(** A zero-timeout poll for input on a descriptor of the caller:
    level-triggered, ready exactly while unread signal data remains. *)
Definition poll_in (fd : Z) (k : Kernel) : bool :=
  match file_of fd k with
  | Some f =>
      match of_end f with
      | PipeReader p => 0 <? pipe_bytes p k
      | EventCounter c => 0 <? counter_value c k
      | PipeWriter _ => false
      end
  | None => false
  end.

(** The amount of unread signal data behind a descriptor: buffered bytes
    of a pipe, value of an event counter. *)
Definition pending (fd : Z) (k : Kernel) : Z :=
  match file_of fd k with
  | Some f =>
      match of_end f with
      | PipeReader p => pipe_bytes p k
      | EventCounter c => counter_value c k
      | PipeWriter _ => 0
      end
  | None => 0
  end.

(** ** A reference system layer *)

Record SocketWatch : Set := mkSocketWatch {
  sw_fd : Z;
  sw_callback : option Callback;
  sw_pending_read : bool;
}.

Record Layer : Type := mkLayer {
  l_pool : gmap Z SocketWatch;   (* the watches in use, by token *)
  l_next_token : Z;
  l_pool_size : nat;
}.

(** The invalid token, [InvalidSocketWatchToken()]. *)
Definition InvalidSocketWatchToken : Z := 0.

(** Modelled from the spec: the multiplexer's [StartWatchingSocket(fd) ->
    watch handle] of section 6, whose implementation is not among the
    sources; registration fails when the pool of watches is exhausted. *)
Definition layer_start (fd tok : Z) (l : Layer) : CHIP_ERROR * Z * Layer :=
  if (l_pool_size l <=? size (l_pool l))%nat then (CHIP_ERROR_ENDPOINT_POOL_FULL, tok, l)
  else
    (CHIP_NO_ERROR, l_next_token l,
     mkLayer (<[l_next_token l := mkSocketWatch fd None false]> (l_pool l))
       (l_next_token l + 1) (l_pool_size l)).

(** Modelled from the spec: [SetCallback(watch, callback, context)] of
    section 6. *)
Definition layer_set_callback (tok : Z) (cb : Callback) (l : Layer) : CHIP_ERROR * Layer :=
  match l_pool l !! tok with
  | None => (CHIP_ERROR_INVALID_ARGUMENT, l)
  | Some sw =>
      (CHIP_NO_ERROR,
       mkLayer (<[tok := mkSocketWatch (sw_fd sw) (Some cb) (sw_pending_read sw)]> (l_pool l))
         (l_next_token l) (l_pool_size l))
  end.

(** Modelled from the spec: [RequestCallbackOnPendingRead(watch)] of
    section 6. *)
Definition layer_request_read (tok : Z) (l : Layer) : CHIP_ERROR * Layer :=
  match l_pool l !! tok with
  | None => (CHIP_ERROR_INVALID_ARGUMENT, l)
  | Some sw =>
      (CHIP_NO_ERROR,
       mkLayer (<[tok := mkSocketWatch (sw_fd sw) (sw_callback sw) true]> (l_pool l))
         (l_next_token l) (l_pool_size l))
  end.

(** Modelled from the spec: [StopWatchingSocket(&watch)] of section 6:
    the registration is released and the caller's token invalidated. *)
Definition layer_stop (tok : Z) (l : Layer) : CHIP_ERROR * Z * Layer :=
  match l_pool l !! tok with
  | None => (CHIP_ERROR_INVALID_ARGUMENT, InvalidSocketWatchToken, l)
  | Some _ =>
      (CHIP_NO_ERROR, InvalidSocketWatchToken,
       mkLayer (delete tok (l_pool l)) (l_next_token l) (l_pool_size l))
  end.

#[global] Instance Layer_LayerSockets : LayerSockets Layer := {
  StartWatchingSocket := layer_start;
  SetCallback := layer_set_callback;
  RequestCallbackOnPendingRead := layer_request_read;
  StopWatchingSocket := layer_stop;
}.

(** The descriptor [fd] has an active watch registration. *)
Definition watched (fd : Z) (l : Layer) : bool :=
  existsb (fun kv => sw_fd kv.2 =? fd) (map_to_list (l_pool l)).

(** ** The NuttX WiFi commissioning driver *)

Inductive Status : Set :=
| kSuccess
| kOutOfRange
| kBoundsExceeded
| kNetworkIDNotFound
| kUnknownError.

(** [struct WiFiNetwork]: two fixed-size byte arrays and their [uint8_t]
    fill lengths. *)
Record WiFiNetwork : Set := mkWiFiNetwork {
  ssid : list byte;
  ssidLen : Z;
  credentials : list byte;
  credentialsLen : Z;
}.

Record NuttxWiFiDriver : Set := mkNuttxWiFiDriver {
  mSavedNetwork : WiFiNetwork;
  mStagingNetwork : WiFiNetwork;
}.

Definition kWiFiSSIDKeyName : string := "wifi-ssid".
Definition kWiFiCredentialsKeyName : string := "wifi-pass".

(** [memcpy(dst, src, n)]: the first [n] bytes of [dst] are replaced. *)
Definition memcpy (dst src : list byte) (n : nat) : list byte :=
  take n src ++ drop n dst.

(** [memcmp(a, b, n)]: the difference of the first bytes that differ,
    zero when there are none among the first [n] (the arrays compared
    here hold at least [n] bytes). *)
Fixpoint memcmp (a b : list byte) (n : nat) : Z :=
  match n, a, b with
  | S n', x :: a', y :: b' =>
      if (Byte.to_N x =? Byte.to_N y)%N then memcmp a' b' n'
      else Z.of_N (Byte.to_N x) - Z.of_N (Byte.to_N y)
  | _, _, _ => 0
  end.

(** [static_cast<uint8_t>(n)] for a [size_t] value. *)
Definition to_uint8 (n : nat) : Z := Z.of_nat n mod 256.

(** [PersistedStorage::KeyValueStoreMgr()], as far as the driver writes
    to it. *)
Class KeyValueStoreManager (S : Type) := {
  Put : string -> list byte -> S -> CHIP_ERROR * S;
}.

Record DriverWorld (S : Type) : Type := mkDriverWorld {
  driver : NuttxWiFiDriver;
  kvs : S;
}.
Arguments mkDriverWorld {S} _ _.
Arguments driver {S} _.
Arguments kvs {S} _.

Section WiFiDriver.
(** [DeviceLayer::Internal::kMaxWiFiSSIDLength] and [kMaxWiFiKeyLength],
    the sizes of the two arrays; their header is not among the sources. *)
Variables kMaxWiFiSSIDLength kMaxWiFiKeyLength : nat.
Context {S : Type} `{KVS : KeyValueStoreManager S}.

(** [CommitConfiguration], lines 75-82. *)
Definition CommitConfiguration (w : DriverWorld S) : CHIP_ERROR * DriverWorld S :=
  let d := driver w in
  let staging := mStagingNetwork d in
  let '(err, s1) :=
    Put kWiFiSSIDKeyName (take (Z.to_nat (ssidLen staging)) (ssid staging)) (kvs w) in
  if negb (bool_decide (err = CHIP_NO_ERROR)) then (err, mkDriverWorld d s1)
  else
    let '(err, s2) :=
      Put kWiFiCredentialsKeyName
        (take (Z.to_nat (credentialsLen staging)) (credentials staging)) s1 in
    if negb (bool_decide (err = CHIP_NO_ERROR)) then (err, mkDriverWorld d s2)
    else (CHIP_NO_ERROR, mkDriverWorld (mkNuttxWiFiDriver staging staging) s2).

(** [RevertConfiguration], lines 84-88. *)
Definition RevertConfiguration (w : DriverWorld S) : CHIP_ERROR * DriverWorld S :=
  let d := driver w in
  (CHIP_NO_ERROR, mkDriverWorld (mkNuttxWiFiDriver (mSavedNetwork d) (mSavedNetwork d)) (kvs w)).

(** [NetworkMatch], lines 90-93. *)
Definition NetworkMatch (network : WiFiNetwork) (networkId : list byte) : bool :=
  (Z.of_nat (length networkId) =? ssidLen network)
  && (memcmp networkId (ssid network) (Z.to_nat (ssidLen network)) =? 0).

(** [AddOrUpdateNetwork], lines 95-117.  The result carries the two
    out-parameters: the debug text (emptied by [reduce_size(0)]) and the
    network index. *)
Definition AddOrUpdateNetwork (ssid_in credentials_in : list byte) (outDebugText : string)
    (d : NuttxWiFiDriver) : Status * string * Z * NuttxWiFiDriver :=
  let outDebugText := EmptyString in
  let outNetworkIndex := 0 in
  let staging := mStagingNetwork d in
  if negb ((ssidLen staging =? 0) || NetworkMatch staging ssid_in) then
    (kBoundsExceeded, outDebugText, outNetworkIndex, d)
  else if negb (length credentials_in <=? kMaxWiFiKeyLength)%nat then
    (kOutOfRange, outDebugText, outNetworkIndex, d)
  else if negb (length ssid_in <=? kMaxWiFiSSIDLength)%nat then
    (kOutOfRange, outDebugText, outNetworkIndex, d)
  else
    let staging' :=
      mkWiFiNetwork
        (memcpy (ssid staging) ssid_in (length ssid_in))
        (to_uint8 (length ssid_in))
        (memcpy (credentials staging) credentials_in (length credentials_in))
        (to_uint8 (length credentials_in)) in
    (kSuccess, outDebugText, outNetworkIndex, mkNuttxWiFiDriver (mSavedNetwork d) staging').

(** [RemoveNetwork], lines 119-128. *)
Definition RemoveNetwork (networkId : list byte) (outDebugText : string)
    (d : NuttxWiFiDriver) : Status * string * Z * NuttxWiFiDriver :=
  let staging := mStagingNetwork d in
  if negb (NetworkMatch staging networkId) then (kNetworkIDNotFound, EmptyString, 0, d)
  else
    (kSuccess, EmptyString, 0,
     mkNuttxWiFiDriver (mSavedNetwork d)
       (mkWiFiNetwork (ssid staging) 0 (credentials staging) (credentialsLen staging))).

(** [ReorderNetwork], lines 130-137. *)
Definition ReorderNetwork (networkId : list byte) (index : Z) (outDebugText : string)
    (d : NuttxWiFiDriver) : Status * string * NuttxWiFiDriver :=
  if negb (NetworkMatch (mStagingNetwork d) networkId) then (kNetworkIDNotFound, EmptyString, d)
  else (kSuccess, EmptyString, d).

(** [WiFiNetworkIterator::Count], lines 231-234. *)
Definition Count (d : NuttxWiFiDriver) : Z :=
  if ssidLen (mStagingNetwork d) =? 0 then 0 else 1.

End WiFiDriver.

(** A store for the driver to write to: a finite map with a bound on
    the number of keys. *)
Record Store : Type := mkStore {
  st_entries : gmap string (list byte);
  st_capacity : nat;
}.

(** Modelled from the spec: the [Put] of the persisted key-value storage
    that section 1 names as an external collaborator, whose
    implementation is not among the sources; a write of a new key to a
    full store fails. *)
Definition store_put (key : string) (value : list byte) (s : Store) : CHIP_ERROR * Store :=
  match st_entries s !! key with
  | None =>
      if (st_capacity s <=? size (st_entries s))%nat then (CHIP_ERROR_PERSISTED_STORAGE_FAILED, s)
      else (CHIP_NO_ERROR, mkStore (<[key := value]> (st_entries s)) (st_capacity s))
  | Some _ => (CHIP_NO_ERROR, mkStore (<[key := value]> (st_entries s)) (st_capacity s))
  end.

#[global] Instance Store_KeyValueStoreManager : KeyValueStoreManager Store := {
  Put := store_put;
}.


(** ** The rest of the WiFi driver: start-up, iteration, connection *)

(** [PersistedStorage::KeyValueStoreMgr()], as far as the driver reads
    from it: [Get(key, value, value_size, &read_bytes_size)] is given the
    buffer and the current value of the length variable, and returns the
    error, the buffer and the length variable as it leaves them. *)
Class KeyValueStoreReader (S : Type) := {
  Get : string -> list byte -> nat -> nat -> S -> CHIP_ERROR * list byte * nat * S;
}.

(** [struct Network] of the commissioning interface: an identifier
    array, its [uint8_t] fill length, and the connected flag. *)
Record Network : Set := mkNetwork {
  networkID : list byte;
  networkIDLen : Z;
  connected : bool;
}.

(** [wpa_wconfig_s], the association request of the NuttX wireless
    library, with the enumerators the driver sets. *)
Inductive wpa_alg : Set := WPA_ALG_NONE | WPA_ALG_CCMP.
Inductive wapi_mode : Set := WAPI_MODE_MANAGED.
Inductive iw_auth_wpa : Set := IW_AUTH_WPA_VERSION_WPA2.
Inductive iw_auth_cipher : Set := IW_AUTH_CIPHER_CCMP.

Record wpa_wconfig_s : Set := mk_wpa_wconfig_s {
  conf_ifname : string;
  conf_sta_mode : wapi_mode;
  conf_auth_wpa : iw_auth_wpa;
  conf_cipher_mode : iw_auth_cipher;
  conf_ssid : list byte;
  conf_passphrase : list byte;
  conf_ssidlen : Z;
  conf_phraselen : Z;
  conf_bssid : option (list byte);
  conf_alg : wpa_alg;
}.

(** The one event the driver posts: [kWiFiConnectivityChange] with
    result [kConnectivity_Established]. *)
Inductive ChipDeviceEvent : Set := WiFiConnectivityChange_Established.

(** The two values [ConnectWiFiNetwork] returns. *)
Inductive ConnectError : Set := Connect_CHIP_NO_ERROR | Connect_CHIP_ERROR_INTERNAL.

(** The platform below the driver: the connectivity manager, netlib, the
    wireless library and the platform manager.  [PostEventOrDie] returns
    [None] when it aborts the process. *)
Class NuttxPlatform (N : Type) := {
  GetWiFiIfName : N -> option string;
  netlib_ifup : string -> N -> Z * N;
  wpa_driver_wext_associate : wpa_wconfig_s -> N -> Z * N;
  netlib_obtain_ipv6addr : string -> N -> Z * N;
  PostEventOrDie : ChipDeviceEvent -> N -> option N;
}.

(** What the connection path does, in order. *)
Inductive NetEvent : Set :=
| NetIfup (name : string) (r : Z)
| NetAssociate (conf : wpa_wconfig_s) (r : Z)
| NetObtainIPv6 (name : string) (r : Z)
| NetPostEvent (ev : ChipDeviceEvent)
| NetLog (msg : string)
| NetOnResult (status : Status)
| NetDie.

Record NetWorld (N : Type) : Type := mkNetWorld {
  net : N;
  net_trace : list NetEvent;
}.
Arguments mkNetWorld {N} _ _.
Arguments net {N} _.
Arguments net_trace {N} _.

Section WiFiDriverRest.
(** [DeviceLayer::Internal::kMaxWiFiSSIDLength] and [kMaxWiFiKeyLength],
    as above. *)
Variables kMaxWiFiSSIDLength kMaxWiFiKeyLength : nat.
Context {S : Type} `{KVR : KeyValueStoreReader S}.
Context {N : Type} `{NP : NuttxPlatform N}.

(** [NuttxWiFiDriver::Init], lines 47-73.  The two length variables
    start at 0. *)
Definition Init (w : DriverWorld S) : CHIP_ERROR * DriverWorld S :=
  let d := driver w in
  let saved := mSavedNetwork d in
  let '(err, credentials', credentialsLen', s1) :=
    Get kWiFiCredentialsKeyName (credentials saved) kMaxWiFiKeyLength 0%nat (kvs w) in
  let saved1 := mkWiFiNetwork (ssid saved) (ssidLen saved) credentials' (credentialsLen saved) in
  if bool_decide (err = CHIP_ERROR_NOT_FOUND) then
    (CHIP_NO_ERROR, mkDriverWorld (mkNuttxWiFiDriver saved1 (mStagingNetwork d)) s1)
  else
    let '(err, ssid', ssidLen', s2) :=
      Get kWiFiSSIDKeyName (ssid saved1) kMaxWiFiSSIDLength 0%nat s1 in
    let saved2 :=
      mkWiFiNetwork ssid' (ssidLen saved1) (credentials saved1) (credentialsLen saved1) in
    if bool_decide (err = CHIP_ERROR_NOT_FOUND) then
      (CHIP_NO_ERROR, mkDriverWorld (mkNuttxWiFiDriver saved2 (mStagingNetwork d)) s2)
    else
      let saved3 :=
        mkWiFiNetwork (ssid saved2) (to_uint8 ssidLen') (credentials saved2)
          (to_uint8 credentialsLen') in
      (err, mkDriverWorld (mkNuttxWiFiDriver saved3 saved3) s2).

(** [GetConfiguredNetwork], lines 236-239: the argument is left as it
    is. *)
Definition GetConfiguredNetwork (network : Network) : CHIP_ERROR * Network :=
  (CHIP_NO_ERROR, network).

(** [WiFiNetworkIterator::Next], lines 241-264.  [exhausted] is the
    iterator's flag; [configuredNetwork] is the default-constructed local
    of that name. *)
Definition Next (configuredNetwork : Network) (d : NuttxWiFiDriver) (exhausted : bool)
    (item : Network) : bool * Network * bool :=
  let staging := mStagingNetwork d in
  if exhausted || (ssidLen staging =? 0) then (false, item, exhausted)
  else
    let item1 :=
      mkNetwork (memcpy (networkID item) (ssid staging) (Z.to_nat (ssidLen staging)))
        (ssidLen staging) false in
    let '(err, configuredNetwork) := GetConfiguredNetwork configuredNetwork in
    let item2 :=
      if bool_decide (err = CHIP_NO_ERROR) then
        if (networkIDLen configuredNetwork =? networkIDLen item1)
           && (memcmp (networkID configuredNetwork) (networkID item1)
                 (Z.to_nat (networkIDLen item1)) =? 0)
        then mkNetwork (networkID item1) (networkIDLen item1) true
        else item1
      else item1 in
    (true, item2, true).

(** [ConnectWiFiNetwork], lines 139-181.  A null pointer is [None]. *)
Definition ConnectWiFiNetwork (ssid_ptr : option (list byte)) (ssidLen_in : Z)
    (key_ptr : option (list byte)) (keyLen : Z) (w : NetWorld N) : ConnectError * NetWorld N :=
  let ssidArray := replicate kMaxWiFiSSIDLength Byte.x00 in
  let keyArray := replicate kMaxWiFiKeyLength Byte.x00 in
  match GetWiFiIfName (net w) with
  | None =>
      (Connect_CHIP_ERROR_INTERNAL,
       mkNetWorld (net w) (net_trace w ++ [NetLog "Failed to got wifi interface name"]))
  | Some wifi_name =>
      match ssid_ptr, key_ptr with
      | Some ssid_in, Some key =>
          if negb (0 <? ssidLen_in) then
            (Connect_CHIP_ERROR_INTERNAL,
             mkNetWorld (net w) (net_trace w ++ [NetLog "Connect wifi network, SSID is NULL"]))
          else
            let '(r, n1) := netlib_ifup wifi_name (net w) in
            let t1 := net_trace w ++ [NetIfup wifi_name r] in
            if negb (0 <=? r) then
              (Connect_CHIP_ERROR_INTERNAL,
               mkNetWorld n1 (t1 ++ [NetLog "Failed to up interface"]))
            else
              let conf :=
                mk_wpa_wconfig_s wifi_name WAPI_MODE_MANAGED IW_AUTH_WPA_VERSION_WPA2
                  IW_AUTH_CIPHER_CCMP
                  (memcpy ssidArray ssid_in (Z.to_nat ssidLen_in))
                  (memcpy keyArray key (Z.to_nat keyLen))
                  ssidLen_in keyLen None
                  (if keyLen =? 0 then WPA_ALG_NONE else WPA_ALG_CCMP) in
              let '(ret, n2) := wpa_driver_wext_associate conf n1 in
              let t2 := t1 ++ [NetAssociate conf ret] in
              if negb (0 <=? ret) then
                (Connect_CHIP_ERROR_INTERNAL,
                 mkNetWorld n2 (t2 ++ [NetLog "Failed to connect to wifi network"]))
              else
                let '(ret, n3) := netlib_obtain_ipv6addr wifi_name n2 in
                let t3 := t2 ++ [NetObtainIPv6 wifi_name ret] in
                if negb (ret =? 0) then
                  (Connect_CHIP_NO_ERROR,
                   mkNetWorld n3 (t3 ++ [NetLog "DHCPv6 failed to obtain address"]))
                else (Connect_CHIP_NO_ERROR, mkNetWorld n3 t3)
      | None, _ =>
          (Connect_CHIP_ERROR_INTERNAL,
           mkNetWorld (net w) (net_trace w ++ [NetLog "Connect wifi network, SSID is NULL"]))
      | Some _, None =>
          if negb (0 <? ssidLen_in) then
            (Connect_CHIP_ERROR_INTERNAL,
             mkNetWorld (net w) (net_trace w ++ [NetLog "Connect wifi network, SSID is NULL"]))
          else
            (Connect_CHIP_ERROR_INTERNAL,
             mkNetWorld (net w) (net_trace w ++ [NetLog "Connect wifi network, KEY is NULL"]))
      end
  end.

(** [NuttxWiFiDriver::ConnectNetwork], lines 183-215.  [callback] tells
    whether the callback pointer is non-null; the call of its [OnResult]
    is recorded in the trace.  The result is [None] when [PostEventOrDie]
    aborts. *)
Definition ConnectNetwork (networkId : list byte) (callback : bool) (d : NuttxWiFiDriver)
    (w : NetWorld N) : option (NetWorld N) :=
  let staging := mStagingNetwork d in
  let finish (err : ConnectError) (networkingStatus : Status) (w : NetWorld N) :=
    let networkingStatus :=
      match err with
      | Connect_CHIP_NO_ERROR => networkingStatus
      | Connect_CHIP_ERROR_INTERNAL => kUnknownError
      end in
    if callback then
      mkNetWorld (net w)
        (net_trace w ++ [NetLog "Connect to WiFi network"; NetOnResult networkingStatus])
    else w in
  if negb (NetworkMatch staging networkId) then
    Some (finish Connect_CHIP_NO_ERROR kNetworkIDNotFound w)
  else
    let w0 := mkNetWorld (net w) (net_trace w ++ [NetLog "NetworkCommissioningDelegate: SSID"]) in
    let '(err, w1) :=
      ConnectWiFiNetwork (Some (ssid staging)) (ssidLen staging)
        (Some (credentials staging)) (credentialsLen staging) w0 in
    match err with
    | Connect_CHIP_NO_ERROR =>
        match PostEventOrDie WiFiConnectivityChange_Established (net w1) with
        | Some n2 =>
            Some (finish err kSuccess
                    (mkNetWorld n2 (net_trace w1 ++ [NetPostEvent WiFiConnectivityChange_Established])))
        | None => None
        end
    | Connect_CHIP_ERROR_INTERNAL => Some (finish err kSuccess w1)
    end.

(** [StartWiFiScan], lines 217-220. *)
Definition StartWiFiScan (ssid_in : list byte) : CHIP_ERROR := CHIP_NO_ERROR.

(** [NuttxWiFiDriver::ScanNetworks], lines 222-229: the calls made on the
    callback's [OnFinished]. *)
Definition ScanNetworks (ssid_in : list byte) : list Status :=
  let err := StartWiFiScan ssid_in in
  if negb (bool_decide (err = CHIP_NO_ERROR)) then [kUnknownError] else [].

End WiFiDriverRest.

(** Modelled from the spec: the [Get] of the persisted key-value storage
    that section 1 names as an external collaborator, whose
    implementation is not among the sources: a missing key is
    CHIP_ERROR_NOT_FOUND; a value longer than the buffer is an error; the
    value is otherwise copied to the front of the buffer and its length
    reported. *)
Definition store_get (key : string) (buffer : list byte) (size_ : nat) (len : nat) (s : Store)
  : CHIP_ERROR * list byte * nat * Store :=
  match st_entries s !! key with
  | None => (CHIP_ERROR_NOT_FOUND, buffer, len, s)
  | Some v =>
      if (size_ <? length v)%nat then (CHIP_ERROR_PERSISTED_STORAGE_FAILED, buffer, len, s)
      else (CHIP_NO_ERROR, memcpy buffer v (length v), length v, s)
  end.

#[global] Instance Store_KeyValueStoreReader : KeyValueStoreReader Store := {
  Get := store_get;
}.

(** A platform for the examples: a named interface and the return values
    of the three library calls. *)
Record SimplePlatform : Set := mkSimplePlatform {
  sp_ifname : option string;
  sp_ifup : Z;
  sp_associate : Z;
  sp_obtain : Z;
}.

#[global] Instance SimplePlatform_NuttxPlatform : NuttxPlatform SimplePlatform := {
  GetWiFiIfName := sp_ifname;
  netlib_ifup := fun _ p => (sp_ifup p, p);
  wpa_driver_wext_associate := fun _ p => (sp_associate p, p);
  netlib_obtain_ipv6addr := fun _ p => (sp_obtain p, p);
  PostEventOrDie := fun _ p => Some p;
}.

(** ** Vocabulary of the statements *)

(** The would-block condition of a failed call. *)
Definition would_block (e : Errno) : Prop := e = EAGAIN \/ e = EWOULDBLOCK.

Definition is_close (e : Event) : bool :=
  match e with
  | EvSys (c_close _) _ => true
  | _ => false
  end.

(** A [close] that returned something other than 0. *)
Definition close_failed (e : Event) : bool :=
  match e with
  | EvSys (c_close _) (Some r) => negb (r =? 0)
  | _ => false
  end.

(** Every [close] in the events returned 0. *)
Definition close_ok (e : Event) : bool :=
  match e with
  | EvSys (c_close _) r => bool_decide (r = Some 0)
  | _ => true
  end.

(** The descriptors closed by the events, in order. *)
Fixpoint closed_fds (evs : list Event) : list Z :=
  match evs with
  | [] => []
  | EvSys (c_close fd) _ :: evs' => fd :: closed_fds evs'
  | _ :: evs' => closed_fds evs'
  end.

(** What the events of the named-FIFO retry path may be, with the
    outcome of [Notify] and the value of [errno] when it returns: a fresh
    writer is opened on the well-known path; if that fails the error is
    returned; otherwise one byte is written once to the new descriptor,
    which is then closed, and the result is the error of a failed write
    or success. *)
Definition fifo_retry (evs : list Event) (out : outcome CHIP_ERROR) (e : Errno) : Prop :=
  match evs with
  | [EvSys (c_open path flags) None] =>
      path = kChipEventFifoPath /\ flags = O_WRONLY /\ out = Halted Blocked
  | [EvSys (c_open path flags) (Some fd); EvLog _] =>
      path = kChipEventFifoPath /\ flags = O_WRONLY /\ fd = -1 /\
      out = Ret (CHIP_ERROR_POSIX e)
  | [EvSys (c_open path flags) (Some fd); EvSys (c_write fd' buf) None] =>
      path = kChipEventFifoPath /\ flags = O_WRONLY /\ fd <> -1 /\
      fd' = fd /\ buf = [byte_one] /\ out = Halted Blocked
  | [EvSys (c_open path flags) (Some fd); EvSys (c_write fd' buf) (Some r);
     EvSys (c_close fd'') None] =>
      path = kChipEventFifoPath /\ flags = O_WRONLY /\ fd <> -1 /\
      fd' = fd /\ buf = [byte_one] /\ fd'' = fd /\ out = Halted Blocked
  | [EvSys (c_open path flags) (Some fd); EvSys (c_write fd' buf) (Some r);
     EvSys (c_close fd'') (Some _)] =>
      path = kChipEventFifoPath /\ flags = O_WRONLY /\ fd <> -1 /\
      fd' = fd /\ buf = [byte_one] /\ fd'' = fd /\ 0 <= r /\ out = Ret CHIP_NO_ERROR
  | [EvSys (c_open path flags) (Some fd); EvSys (c_write fd' buf) (Some r);
     EvSys (c_close fd'') (Some _); EvLog _] =>
      path = kChipEventFifoPath /\ flags = O_WRONLY /\ fd <> -1 /\
      fd' = fd /\ buf = [byte_one] /\ fd'' = fd /\ r < 0 /\
      out = Ret (CHIP_ERROR_POSIX e)
  | _ => False
  end.

Section Vocabulary.
Context {K L : Type} `{OSK : Posix K} `{LSL : LayerSockets L}.

(** The write [Notify] performs first: one byte to the write end of the
    pipe, or [WriteEvent] on the event descriptor. *)
Definition primary_write (cfg : Config) : @M K L Z :=
  fun w =>
    if CHIP_SYSTEM_CONFIG_USE_POSIX_PIPE cfg
    then sys_write (mWriteFD (self w)) [byte_one] w
    else WriteEvent (CHIP_SYSTEM_CONFIG_USE_ZEPHYR_EVENTFD cfg) (mReadFD (self w)) w.

(** [n] calls of [Notify] in a row, whatever each of them returns. *)
Fixpoint run_notifies (cfg : Config) (n : nat) (w : World K L) : World K L :=
  match n with
  | O => w
  | S n' => run_notifies cfg n' (snd (Notify cfg w))
  end.

(** A computation leaves the object and the system layer alone, and
    does not end in the fatal assertion. *)
Definition frames {A} (m : @M K L A) : Prop :=
  forall w,
    self (snd (m w)) = self w /\ layer (snd (m w)) = layer w /\
    fst (m w) <> Halted Died.

End Vocabulary.

(** *** Worlds of the reference system *)

Definition is_pipe_variant (cfg : Config) : bool := CHIP_SYSTEM_CONFIG_USE_POSIX_PIPE cfg.

(** Well-formed kernel states: pipes have room for a byte and hold a
    non-negative number of bytes. *)
Definition kernel_wf (k : Kernel) : Prop :=
  0 < k_pipe_size k /\ forall p b, k_pipes k !! p = Some b -> 0 <= b.

(** The wake channel is in place: the object's descriptors are open in
    the calling task on the two ends of one pipe, both non-blocking, or
    on one event counter, blocking as [eventfd(0, 0)] creates it. *)
Definition channel (cfg : Config) (w : World Kernel Layer) : Prop :=
  let k := os w in
  let s := self w in
  if CHIP_SYSTEM_CONFIG_USE_POSIX_PIPE cfg then
    exists p,
      file_of (mReadFD s) k = Some (mkOpenFile (PipeReader p) true) /\
      file_of (mWriteFD s) k = Some (mkOpenFile (PipeWriter p) true) /\
      0 <= pipe_bytes p k /\ 0 < k_pipe_size k
  else
    exists c,
      file_of (mReadFD s) k = Some (mkOpenFile (EventCounter c) false) /\
      0 <= counter_value c k <= counter_max.

(** The states of the reference system reached from a successful [Open]
    by calls of [Notify] and [Confirm] made by the opening task. *)
Inductive reachable (cfg : Config) (w0 : World Kernel Layer) : World Kernel Layer -> Prop :=
| reach_open w1 :
    Open cfg w0 = (Ret CHIP_NO_ERROR, w1) -> reachable cfg w0 w1
| reach_notify w :
    reachable cfg w0 w -> reachable cfg w0 (snd (Notify cfg w))
| reach_confirm w fuel :
    reachable cfg w0 w -> reachable cfg w0 (snd (Confirm cfg fuel w)).

(** The world keeps the object, the descriptor tables, the calling
    task and the pipe capacity. *)
Definition same_files (w w' : World Kernel Layer) : Prop :=
  self w' = self w /\
  k_files (os w') = k_files (os w) /\
  k_task (os w') = k_task (os w) /\
  k_pipe_size (os w') = k_pipe_size (os w).

(** Signal data pending on the read side, and its readiness. *)
Definition signal (w : World Kernel Layer) : Z := pending (mReadFD (self w)) (os w).
Definition readable (w : World Kernel Layer) : bool := poll_in (mReadFD (self w)) (os w).

(** A call of [Confirm] that returns after its read met the would-block
    condition. *)
Definition confirm_observes_would_block (cfg : Config) (fuel : nat) (w : World Kernel Layer) : Prop :=
  exists c w',
    Confirm cfg fuel w = (Ret tt, w') /\
    trace w' = trace w ++ [EvSys c (Some (-1))] /\
    would_block (errno (os w')).

(** Sample configurations and a freshly booted system. *)
Definition cfg_pipe : Config := mkConfig true false false.
Definition cfg_fifo : Config := mkConfig true true false.
Definition cfg_eventfd : Config := mkConfig false false false.
Definition cfg_zephyr : Config := mkConfig false false true.

Definition boot (pipe_size : Z) : Kernel :=
  mkKernel 0%nat ∅ ∅ ∅ ∅ EINVAL 3 0%nat 1024 pipe_size.

Definition fresh_layer : Layer := mkLayer ∅ 1 8%nat.

Definition world0 (pipe_size : Z) : World Kernel Layer :=
  mkWorld (mkWakeEvent (-1) (-1) InvalidSocketWatchToken) (boot pipe_size) fresh_layer [].

(** The world after [Open] on a freshly booted system. *)
Definition opened (cfg : Config) (pipe_size : Z) : World Kernel Layer :=
  snd (Open cfg (world0 pipe_size)).

(** Another task becomes the caller of the object's methods. *)
Definition from_task (t : nat) (w : World Kernel Layer) : World Kernel Layer :=
  set_os (switch_task t (os w)) w.

(** The event-counter variant after three notifications, and after the
    [Confirm] that follows them. *)
Definition eventfd_after_three : World Kernel Layer :=
  run_notifies cfg_eventfd 3 (opened cfg_eventfd 256).

Definition eventfd_confirmed : World Kernel Layer :=
  snd (Confirm cfg_eventfd 1 eventfd_after_three).


(** The named FIFO, 256 bytes large, filled by 256 notifications of the
    opening task; then a producer in another task, whose descriptor table
    does not hold the object's descriptors, is about to call [Notify]. *)
Definition fifo_full : World Kernel Layer :=
  run_notifies cfg_fifo 256 (opened cfg_fifo 256).

Definition fifo_full_other_task : World Kernel Layer := from_task 1 fifo_full.

(** The same producer while the FIFO still has room. *)
Definition fifo_other_task : World Kernel Layer := from_task 1 (opened cfg_fifo 256).

(** Sample driver states. *)
Definition empty_network : WiFiNetwork :=
  mkWiFiNetwork (replicate 32 Byte.x00) 0 (replicate 64 Byte.x00) 0.

Definition home_network : WiFiNetwork :=
  mkWiFiNetwork (memcpy (replicate 32 Byte.x00) [Byte.x68; Byte.x6f; Byte.x6d; Byte.x65] 4) 4
    (memcpy (replicate 64 Byte.x00) [Byte.x70; Byte.x77] 2) 2.

Definition empty_store : Store := mkStore ∅ 16%nat.

(** The bytes of the SSID [work]. *)
Definition work_ssid : list byte := [Byte.x77; Byte.x6f; Byte.x72; Byte.x6b].

Definition home_driver : NuttxWiFiDriver := mkNuttxWiFiDriver empty_network home_network.


(** ** Vocabulary of the further statements *)

(** A network record whose arrays have their declared sizes and whose
    fill lengths are within them. *)
Definition network_wf (kMaxWiFiSSIDLength kMaxWiFiKeyLength : nat) (n : WiFiNetwork) : Prop :=
  length (ssid n) = kMaxWiFiSSIDLength /\
  length (credentials n) = kMaxWiFiKeyLength /\
  0 <= ssidLen n <= Z.of_nat kMaxWiFiSSIDLength /\
  0 <= credentialsLen n <= Z.of_nat kMaxWiFiKeyLength.

Definition driver_wf (kMaxWiFiSSIDLength kMaxWiFiKeyLength : nat) (d : NuttxWiFiDriver) : Prop :=
  network_wf kMaxWiFiSSIDLength kMaxWiFiKeyLength (mSavedNetwork d) /\
  network_wf kMaxWiFiSSIDLength kMaxWiFiKeyLength (mStagingNetwork d).

(** The operations that edit the staged configuration. *)
Inductive StagingOp : Set :=
| OpAddOrUpdate (ssid_in credentials_in : list byte)
| OpRemove (networkId : list byte)
| OpReorder (networkId : list byte) (index : Z).

Definition run_op (kMaxWiFiSSIDLength kMaxWiFiKeyLength : nat) (d : NuttxWiFiDriver)
    (op : StagingOp) : NuttxWiFiDriver :=
  match op with
  | OpAddOrUpdate s c =>
      snd (AddOrUpdateNetwork kMaxWiFiSSIDLength kMaxWiFiKeyLength s c EmptyString d)
  | OpRemove id => snd (RemoveNetwork id EmptyString d)
  | OpReorder id index => snd (ReorderNetwork id index EmptyString d)
  end.

Definition run_ops (kMaxWiFiSSIDLength kMaxWiFiKeyLength : nat) (ops : list StagingOp)
    (d : NuttxWiFiDriver) : NuttxWiFiDriver :=
  fold_left (run_op kMaxWiFiSSIDLength kMaxWiFiKeyLength) ops d.

(** The association request built for a staged network on an interface:
    the SSID and the key copied to the front of zeroed arrays, WPA2 with
    CCMP, no BSSID, and no key algorithm for an empty key. *)
Definition association_request (kMaxWiFiSSIDLength kMaxWiFiKeyLength : nat) (name : string)
    (n : WiFiNetwork) : wpa_wconfig_s :=
  mk_wpa_wconfig_s name WAPI_MODE_MANAGED IW_AUTH_WPA_VERSION_WPA2 IW_AUTH_CIPHER_CCMP
    (take (Z.to_nat (ssidLen n)) (ssid n)
       ++ replicate (kMaxWiFiSSIDLength - Z.to_nat (ssidLen n)) Byte.x00)
    (take (Z.to_nat (credentialsLen n)) (credentials n)
       ++ replicate (kMaxWiFiKeyLength - Z.to_nat (credentialsLen n)) Byte.x00)
    (ssidLen n) (credentialsLen n) None
    (if credentialsLen n =? 0 then WPA_ALG_NONE else WPA_ALG_CCMP).

Definition is_OnResult (e : NetEvent) : bool :=
  match e with NetOnResult _ => true | _ => false end.

Definition is_post (e : NetEvent) : bool :=
  match e with NetPostEvent _ => true | _ => false end.

(** The events that reach the platform: everything but logging and the
    callback. *)
Definition is_platform_call (e : NetEvent) : bool :=
  match e with
  | NetIfup _ _ | NetAssociate _ _ | NetObtainIPv6 _ _ | NetPostEvent _ => true
  | _ => false
  end.

(** The bytes of the password [pw]. *)
Definition pw_credentials : list byte := [Byte.x70; Byte.x77].

Definition blank_driver : NuttxWiFiDriver := mkNuttxWiFiDriver empty_network empty_network.

Definition good_platform : SimplePlatform := mkSimplePlatform (Some "wlan0"%string) 0 0 0.

(** The bytes of the SSID [home]. *)
Definition home_ssid : list byte := [Byte.x68; Byte.x6f; Byte.x6d; Byte.x65].

(** An item as a caller of [Next] passes it, and the default-constructed
    [Network] with its length at 0. *)
Definition blank_item : Network := mkNetwork (replicate 32 Byte.x00) 0 false.

(** A store with no room, and the commit of [home] that it refuses. *)
Definition full_store : Store := mkStore ∅ 0%nat.

Definition commit_refused : CHIP_ERROR * DriverWorld Store :=
  CommitConfiguration (mkDriverWorld home_driver full_store).

(** The world after [home] was committed to an empty store. *)
Definition home_committed : DriverWorld Store :=
  snd (CommitConfiguration (mkDriverWorld home_driver empty_store)).

(** [work] is added and removed again. *)
Definition add_then_remove : list StagingOp :=
  [OpAddOrUpdate work_ssid pw_credentials; OpRemove work_ssid].

(** The platform before a connection attempt. *)
Definition idle_platform : NetWorld SimplePlatform := mkNetWorld good_platform [].

(** The platform after [home] was connected with a callback. *)
Definition home_connected : NetWorld SimplePlatform :=
  mkNetWorld good_platform
    [NetLog "NetworkCommissioningDelegate: SSID";
     NetIfup "wlan0" 0;
     NetAssociate
       (mk_wpa_wconfig_s "wlan0" WAPI_MODE_MANAGED IW_AUTH_WPA_VERSION_WPA2 IW_AUTH_CIPHER_CCMP
          (memcpy (replicate 32 Byte.x00) home_ssid 4)
          (memcpy (replicate 64 Byte.x00) pw_credentials 2)
          4 2 None WPA_ALG_CCMP) 0;
     NetObtainIPv6 "wlan0" 0;
     NetPostEvent WiFiConnectivityChange_Established;
     NetLog "Connect to WiFi network";
     NetOnResult kSuccess].

(** The error and the length that a [Get] of the store reports. *)
Definition read_error {S : Type} (r : CHIP_ERROR * list byte * nat * S) : CHIP_ERROR :=
  fst (fst (fst r)).

Definition read_length {S : Type} (r : CHIP_ERROR * list byte * nat * S) : nat :=
  snd (fst r).

(** *** Further vocabulary for the wake event *)

Definition is_read_of (fd : Z) (e : Event) : bool :=
  match e with
  | EvSys (c_read fd' count) _ => (fd' =? fd) && (count =? sizeof_buffer)
  | _ => false
  end.

Definition is_log (e : Event) : bool :=
  match e with EvLog _ => true | _ => false end.

(** A full read of [Confirm]'s buffer from [fd]. *)
Definition full_read (fd : Z) : Event :=
  EvSys (c_read fd sizeof_buffer) (Some sizeof_buffer).

(** How the loop of [Confirm] ends after its full reads: the unrolling
    bound is reached; or the next read blocks; or it returns something
    other than a full buffer, which ends [Confirm], after a log entry
    when the read failed for a reason other than would-block. *)
Inductive confirm_end (fd : Z) (e : Errno)
  : list Event -> outcome unit -> Prop :=
| confirm_out_of_fuel : confirm_end fd e [] (Halted OutOfFuel)
| confirm_blocked :
    confirm_end fd e [EvSys (c_read fd sizeof_buffer) None] (Halted Blocked)
| confirm_short r :
    r <> sizeof_buffer ->
    (0 <= r \/ would_block e) ->
    confirm_end fd e [EvSys (c_read fd sizeof_buffer) (Some r)] (Ret tt)
| confirm_failed r msg :
    r < 0 ->
    ~ would_block e ->
    confirm_end fd e [EvSys (c_read fd sizeof_buffer) (Some r); EvLog msg] (Ret tt).

(** The one write of [Notify] outside the retry path: a byte to the write
    end of the pipe, or the value 1 to the event descriptor. *)
Definition notify_call (cfg : Config) (s : WakeEvent) : Call :=
  if CHIP_SYSTEM_CONFIG_USE_POSIX_PIPE cfg then c_write (mWriteFD s) [byte_one]
  else if CHIP_SYSTEM_CONFIG_USE_ZEPHYR_EVENTFD cfg then c_eventfd_write (mReadFD s) 1
  else c_write (mReadFD s) (uint64_bytes 1).

(** A system call that returned. *)
Definition is_returned_call (e : Event) : bool :=
  match e with EvSys _ (Some _) => true | _ => false end.

(** The three calls by which [Open] registers the read descriptor. *)
Definition registration (fd token : Z) : list Event :=
  [EvStartWatching fd token CHIP_NO_ERROR;
   EvSetCallback token CHIP_NO_ERROR;
   EvRequestCallbackOnPendingRead token CHIP_NO_ERROR].

Section MoreVocabulary.
Context {K L : Type} `{OSK : Posix K} `{LSL : LayerSockets L}.

(** A computation only appends events that satisfy [P] to the trace. *)
Definition emits {A} (P : Event -> bool) (m : @M K L A) : Prop :=
  forall w, exists evs, trace (snd (m w)) = trace w ++ evs /\ forallb P evs = true.

End MoreVocabulary.

(** The anonymous pipe after three notifications, and the pipe of two
    bytes and the named FIFO as [Open] leaves them. *)
Definition pipe_after_three : World Kernel Layer :=
  run_notifies cfg_pipe 3 (opened cfg_pipe 256).

Definition small_pipe : World Kernel Layer := opened cfg_pipe 2.

Definition fifo_opened : World Kernel Layer := opened cfg_fifo 256.

(** The read descriptor of the object, in the calling task, is the read
    end of the pipe bound to the well-known FIFO path. *)
Definition fifo_bound (w : World Kernel Layer) : Prop :=
  exists p,
    file_of (mReadFD (self w)) (os w) = Some (mkOpenFile (PipeReader p) true) /\
    k_fifos (os w) !! kChipEventFifoPath = Some p.

(** * Properties of the wake event, for every operating system and
      system layer *)

Section Generic.
Context {K L : Type} `{OSK : Posix K} `{LSL : LayerSockets L}.

Local Abbreviation MM := (@M K L).

(** *** Frame rules *)

Lemma frames_ret {A} (a : A) : frames (ret a : MM A).
Proof. intros w; repeat split; discriminate. Qed.

Lemma frames_bind {A B} (m : MM A) (f : A -> MM B) :
  frames m -> (forall a, frames (f a)) -> frames (bind m f).
Proof.
  intros Hm Hf w. unfold bind.
  destruct (m w) as [[a|h] w1] eqn:E.
  - destruct (Hf a w1) as (H1 & H2 & H3). destruct (Hm w) as (H4 & H5 & _).
    rewrite E in H4, H5. simpl in *. repeat split; congruence.
  - destruct (Hm w) as (H1 & H2 & H3). rewrite E in H1, H2, H3. simpl in *.
    repeat split; try assumption. intros Heq. apply H3. congruence.
Qed.

Lemma frames_this : frames (this : MM WakeEvent).
Proof. intros w; repeat split; discriminate. Qed.

Lemma frames_get_errno : frames (get_errno : MM Errno).
Proof. intros w; repeat split; discriminate. Qed.

Lemma frames_syscall c f : frames (syscall c f : MM Z).
Proof.
  intros w. unfold syscall.
  destruct (f (os w)) as [[v|] k]; repeat split; discriminate.
Qed.

Lemma frames_ChipLogError msg : frames (ChipLogError msg : MM unit).
Proof. intros w; repeat split; discriminate. Qed.

Lemma frames_if {A} (b : bool) (m1 m2 : MM A) :
  frames m1 -> frames m2 -> frames (if b then m1 else m2).
Proof. destruct b; auto. Qed.

Create HintDb frame discriminated.
Hint Resolve frames_ret frames_this frames_get_errno frames_syscall
  frames_ChipLogError : frame.

Ltac frame :=
  repeat first
    [ apply frames_bind; [| intros ?]
    | apply frames_if
    | solve [unfold sys_write, sys_read, sys_open, sys_close, sys_eventfd_read,
             sys_eventfd_write; auto with frame] ].

Lemma frames_Notify cfg : frames (Notify cfg : MM CHIP_ERROR).
Proof.
  unfold Notify, Notify_pipe, Notify_eventfd, WriteEvent. frame.
Qed.

Lemma frames_Confirm_pipe fuel : frames (Confirm_pipe fuel : MM unit).
Proof.
  induction fuel as [|fuel IH]; simpl.
  - intros w; repeat split; discriminate.
  - frame.
Qed.

Lemma frames_Confirm cfg fuel : frames (Confirm cfg fuel : MM unit).
Proof.
  unfold Confirm. apply frames_if; [apply frames_Confirm_pipe|].
  unfold Confirm_eventfd, ReadEvent. frame.
Qed.

(** C8.  For every variant, operating system and system layer, from
    every world: [Notify] and [Confirm] leave the fields of the object
    (read descriptor, write descriptor, watch token) and the system
    layer as they were, on every path, the error paths included; they
    change the kernel state and the trace only.  [Confirm] has no
    result to propagate: it returns [tt], or its read does not return,
    or the unrolling bound is reached; it never raises the fatal
    assertion. *)
Theorem Notify_Confirm_frame (cfg : Config) (fuel : nat) (w : World K L) :
  self (snd (Notify cfg w)) = self w /\
  layer (snd (Notify cfg w)) = layer w /\
  self (snd (Confirm cfg fuel w)) = self w /\
  layer (snd (Confirm cfg fuel w)) = layer w /\
  (fst (Confirm cfg fuel w) = Ret tt \/
   fst (Confirm cfg fuel w) = Halted Blocked \/
   fst (Confirm cfg fuel w) = Halted OutOfFuel).
Proof.
  destruct (frames_Notify cfg w) as (H1 & H2 & _).
  destruct (frames_Confirm cfg fuel w) as (H3 & H4 & H5).
  repeat split; try assumption.
  destruct (fst (Confirm cfg fuel w)) as [[]|[]]; auto. congruence.
Qed.

(** *** Notify *)

Lemma not_would_block_false e : would_block e -> not_would_block e = false.
Proof. intros [-> | ->]; reflexivity. Qed.

Lemma not_would_block_true e : ~ would_block e -> not_would_block e = true.
Proof.
  unfold would_block, not_would_block. intros Hn.
  destruct e; try reflexivity; exfalso; apply Hn; auto.
Qed.


(** *** Running the monad step by step *)

Lemma bind_Ret {A B} (m : MM A) (f : A -> MM B) w a w1 :
  m w = (Ret a, w1) -> bind m f w = f a w1.
Proof. intros E. unfold bind. rewrite E. reflexivity. Qed.

Lemma bind_Halted {A B} (m : MM A) (f : A -> MM B) w h w1 :
  m w = (Halted h, w1) -> bind m f w = (Halted h, w1).
Proof. intros E. unfold bind. rewrite E. reflexivity. Qed.

Lemma bind_this {B} (f : WakeEvent -> MM B) w : bind this f w = f (self w) w.
Proof. reflexivity. Qed.

Lemma bind_get_errno {B} (f : Errno -> MM B) w :
  bind get_errno f w = f (errno (os w)) w.
Proof. reflexivity. Qed.

Lemma bind_ChipLogError {B} msg (f : unit -> MM B) w :
  bind (ChipLogError msg) f w = f tt (emit (EvLog msg) w).
Proof. reflexivity. Qed.

Lemma bind_ret {A B} (a : A) (f : A -> MM B) w : bind (ret a) f w = f a w.
Proof. reflexivity. Qed.

Lemma syscall_inv c f (w w' : World K L) o :
  syscall c f w = (o, w') ->
  exists r k,
    f (os w) = (r, k) /\
    w' = emit (EvSys c r) (set_os k w) /\
    o = match r with Some v => Ret v | None => Halted Blocked end.
Proof.
  unfold syscall. destruct (f (os w)) as [[v|] k]; intros [= <- <-]; eauto.
Qed.

(** An error comes out of [Notify] only after its first write failed
    for a reason other than would-block. *)
Lemma Notify_error_means_hard_failure (cfg : Config) (w w' : World K L) (err : CHIP_ERROR) :
  Notify cfg w = (Ret err, w') ->
  err <> CHIP_NO_ERROR ->
  exists r w1,
    primary_write cfg w = (Ret r, w1) /\ r < 0 /\ ~ would_block (errno (os w1)).
Proof.
  unfold Notify, primary_write.
  destruct (CHIP_SYSTEM_CONFIG_USE_POSIX_PIPE cfg).
  - unfold Notify_pipe. rewrite bind_this.
    destruct (sys_write (mWriteFD (self w)) [byte_one] w) as [[r|h] w1] eqn:E.
    2:{ rewrite (bind_Halted _ _ _ _ _ E). discriminate. }
    rewrite (bind_Ret _ _ _ _ _ E), bind_get_errno.
    destruct (Z.ltb_spec r 0) as [Hr|Hr]; cbn [andb].
    2:{ intros [= <- _] Hn. contradiction. }
    destruct (not_would_block (errno (os w1))) eqn:Enb.
    2:{ intros [= <- _] Hn. contradiction. }
    intros _ _. exists r, w1. repeat split; [exact Hr|].
    intros Hwb. rewrite (not_would_block_false _ Hwb) in Enb. discriminate.
  - unfold Notify_eventfd. rewrite bind_this.
    destruct (WriteEvent _ (mReadFD (self w)) w) as [[r|h] w1] eqn:E.
    2:{ rewrite (bind_Halted _ _ _ _ _ E). discriminate. }
    rewrite (bind_Ret _ _ _ _ _ E), bind_get_errno.
    destruct (Z.ltb_spec r 0) as [Hr|Hr]; cbn [andb].
    2:{ intros [= <- _] Hn. contradiction. }
    destruct (not_would_block (errno (os w1))) eqn:Enb.
    2:{ intros [= <- _] Hn. contradiction. }
    intros _ _. exists r, w1. repeat split; [exact Hr|].
    intros Hwb. rewrite (not_would_block_false _ Hwb) in Enb. discriminate.
Qed.

Ltac trace_norm :=
  cbn [trace emit set_os set_self set_layer fst snd self os layer];
  rewrite <- ?app_assoc; cbn [app].

(** C4.  Named-FIFO variant, every operating system and system layer:
    when the first write of [Notify] fails with an error other than
    would-block, the events that follow are those of [fifo_retry]: one
    [open] of the well-known path for writing; if it returns -1,
    [Notify] returns the POSIX error of [errno]; otherwise exactly one
    more one-byte [write], on the new descriptor, then [close] of that
    descriptor; [Notify] returns the POSIX error of [errno] when that
    write failed and CHIP_NO_ERROR when it succeeded. *)
Theorem Notify_fifo_retries_once (cfg : Config) (w w1 : World K L) (r : Z) :
  CHIP_SYSTEM_CONFIG_USE_POSIX_PIPE cfg = true ->
  CHIP_SYSTEM_CONFIG_WAKE_EVENT_USE_FIFO cfg = true ->
  primary_write cfg w = (Ret r, w1) ->
  r < 0 ->
  ~ would_block (errno (os w1)) ->
  exists evs,
    trace (snd (Notify cfg w)) = trace w1 ++ evs /\
    fifo_retry evs (fst (Notify cfg w)) (errno (os (snd (Notify cfg w)))).
Proof.
  intros Hp Hf Hw Hr Hnwb.
  unfold primary_write in Hw. unfold Notify. rewrite Hp in *. rewrite Hf.
  unfold Notify_pipe. rewrite bind_this, (bind_Ret _ _ _ _ _ Hw), bind_get_errno.
  rewrite (not_would_block_true _ Hnwb).
  replace (r <? 0) with true by (symmetry; apply Z.ltb_lt; exact Hr).
  cbn [andb].
  destruct (sys_open kChipEventFifoPath O_WRONLY w1) as [o2 w2] eqn:Eo.
  destruct (syscall_inv _ _ _ _ _ Eo) as ([fd|] & k2 & _ & -> & ->).
  2:{ rewrite (bind_Halted _ _ _ _ _ Eo). eexists; split; [reflexivity|].
      cbn. auto. }
  rewrite (bind_Ret _ _ _ _ _ Eo).
  destruct (fd =? -1) eqn:Efd.
  { apply Z.eqb_eq in Efd. subst fd.
    rewrite bind_ChipLogError, bind_get_errno. unfold ret. cbn [fst snd].
    eexists; split; [trace_norm; reflexivity|].
    cbn. auto. }
  apply Z.eqb_neq in Efd.
  match goal with
  | |- context [bind (sys_write fd [byte_one]) ?f ?w] =>
      destruct (sys_write fd [byte_one] w) as [o3 w3] eqn:Ew
  end.
  destruct (syscall_inv _ _ _ _ _ Ew) as ([r2|] & k3 & _ & Hw3 & ->).
  2:{ rewrite (bind_Halted _ _ _ _ _ Ew). subst w3. eexists; split;
        [trace_norm; reflexivity|].
      cbn. auto 10. }
  rewrite (bind_Ret _ _ _ _ _ Ew).
  destruct (sys_close fd w3) as [o4 w4] eqn:Ec.
  destruct (syscall_inv _ _ _ _ _ Ec) as (rc & k4 & _ & Hw4 & ->).
  destruct (r2 <? 0) eqn:Er2;
    [apply Z.ltb_lt in Er2 | apply Z.ltb_ge in Er2];
    (destruct rc as [rc|];
     [ rewrite (bind_Ret _ _ _ _ _ Ec) | rewrite (bind_Halted _ _ _ _ _ Ec) ]);
    try rewrite bind_ChipLogError, bind_get_errno; unfold ret; cbn [fst snd];
    subst w4 w3;
    (eexists; split; [trace_norm; reflexivity|]);
    cbn; auto 12.
Qed.

(** *** Close *)

Lemma bind_VerifyOrDie {B} (c : bool) (f : unit -> MM B) w :
  bind (VerifyOrDie c) f w = if c then f tt w else (Halted Died, emit EvDie w).
Proof. unfold bind, VerifyOrDie. destruct c; reflexivity. Qed.

Lemma bind_StopWatchingSocket {B} (f : CHIP_ERROR -> MM B) w :
  bind layer_StopWatchingSocket f w =
  let r := StopWatchingSocket (mReadWatch (self w)) (layer w) in
  f (fst (fst r))
    (set_self (mkWakeEvent (mReadFD (self w)) (mWriteFD (self w)) (snd (fst r)))
       (emit (EvStopWatching (mReadWatch (self w))) (set_layer (snd r) w))).
Proof.
  unfold bind, layer_StopWatchingSocket.
  destruct (StopWatchingSocket (mReadWatch (self w)) (layer w)) as [[err tok] l].
  reflexivity.
Qed.

Lemma close_result_nonzero (rc : Z) :
  rc <> 0 -> bool_decide (Some rc = Some 0) = false.
Proof. intros Hn. apply bool_decide_eq_false_2. congruence. Qed.

(** Run one [close] of [Close] followed by its [VerifyOrDie]. *)
Ltac close_step :=
  match goal with
  | |- context [bind (sys_close ?fd) ?f ?w] =>
      let o := fresh "o" in
      let w' := fresh "w" in
      let E := fresh "E" in
      let rc := fresh "rc" in
      let k := fresh "k" in
      destruct (sys_close fd w) as [o w'] eqn:E;
      destruct (syscall_inv _ _ _ _ _ E) as (rc & k & _ & -> & ->);
      destruct rc as [rc|];
      [ rewrite (bind_Ret _ _ _ _ _ E), bind_VerifyOrDie;
        destruct (Z.eqb_spec rc 0); [subst rc|]
      | rewrite (bind_Halted _ _ _ _ _ E) ]
  end.

Ltac close_done :=
  unfold assign_mReadFD, assign_mWriteFD, bind;
  eexists; split; [trace_norm; reflexivity|];
  cbn [existsb forallb close_failed close_ok closed_fds is_close
       fst snd self mReadFD mWriteFD set_self emit set_os set_layer orb andb negb];
  idtac.

(** C6.  For every variant, operating system and system layer, from
    every world: if some [close] issued by [Close] returns a value
    other than 0, [Close] ends in the fatal assertion and does not
    return; if every [close] it issues returns 0, [Close] returns, the
    descriptors it closed are exactly the ones the object held, and
    every descriptor field of the object is -1 afterwards. *)
Theorem Close_dies_or_clears (cfg : Config) (w : World K L) :
  exists evs,
    trace (snd (Close cfg w)) = trace w ++ evs /\
    (existsb close_failed evs = true -> fst (Close cfg w) = Halted Died) /\
    (forallb close_ok evs = true ->
     fst (Close cfg w) = Ret tt /\
     closed_fds evs = descriptors cfg (self w) /\
     Forall (fun fd => fd = -1) (descriptors cfg (self (snd (Close cfg w))))).
Proof.
  unfold Close, descriptors.
  destruct (CHIP_SYSTEM_CONFIG_USE_POSIX_PIPE cfg).
  - unfold Close_pipe. rewrite bind_StopWatchingSocket. cbv zeta.
    rewrite bind_this. close_step.
    + rewrite bind_this. close_step.
      * close_done. split; [discriminate|]. intros _. repeat split; auto.
      * close_done. split; [reflexivity|].
        destruct (Z.eqb_spec rc 0); [contradiction|].
        rewrite (close_result_nonzero rc) by assumption.
        rewrite ?andb_false_r. discriminate.
      * close_done. split; discriminate.
    + close_done. split; [reflexivity|].
      destruct (Z.eqb_spec rc 0); [contradiction|].
      rewrite (close_result_nonzero rc) by assumption.
      rewrite ?andb_false_r. discriminate.
    + close_done. split; discriminate.
  - unfold Close_eventfd. rewrite bind_StopWatchingSocket. cbv zeta.
    rewrite bind_this. close_step.
    + close_done. split; [discriminate|]. intros _. repeat split; auto.
    + close_done. split; [reflexivity|].
      destruct (Z.eqb_spec rc 0); [contradiction|].
      rewrite (close_result_nonzero rc) by assumption.
      rewrite ?andb_false_r. discriminate.
    + close_done. split; discriminate.
Qed.

Ltac close_events :=
  repeat first
    [ apply List.Forall_nil
    | apply List.Forall_cons; [first [left; reflexivity | right; reflexivity]|] ].

(** The first event of [Close] is the release of the watch; only
    [close] calls and the fatal assertion follow, and they leave the
    system layer as [StopWatchingSocket] left it. *)
Lemma Close_trace_order (cfg : Config) (w : World K L) :
  exists rest,
    trace (snd (Close cfg w)) = trace w ++ EvStopWatching (mReadWatch (self w)) :: rest /\
    Forall (fun e => is_close e = true \/ e = EvDie) rest /\
    layer (snd (Close cfg w)) = snd (StopWatchingSocket (mReadWatch (self w)) (layer w)).
Proof.
  unfold Close.
  destruct (CHIP_SYSTEM_CONFIG_USE_POSIX_PIPE cfg).
  - unfold Close_pipe. rewrite bind_StopWatchingSocket. cbv zeta.
    rewrite bind_this. close_step; [rewrite bind_this; close_step| |];
      unfold assign_mReadFD, assign_mWriteFD, bind;
      (eexists; split; [trace_norm; reflexivity|]);
      (split; [close_events | reflexivity]).
  - unfold Close_eventfd. rewrite bind_StopWatchingSocket. cbv zeta.
    rewrite bind_this. close_step;
      unfold assign_mReadFD, assign_mWriteFD, bind;
      (eexists; split; [trace_norm; reflexivity|]);
      (split; [close_events | reflexivity]).
Qed.

(** *** Open *)

(** Registration with the system layer leaves the kernel and the two
    descriptor fields alone. *)
Lemma Open_register_keeps (w : World K L) :
  os (snd (Open_register w)) = os w /\
  mReadFD (self (snd (Open_register w))) = mReadFD (self w) /\
  mWriteFD (self (snd (Open_register w))) = mWriteFD (self w).
Proof.
  unfold Open_register, ReturnErrorOnFailure, bind, this, ret,
    layer_StartWatchingSocket, layer_SetCallback, layer_RequestCallbackOnPendingRead.
  destruct (StartWatchingSocket _ _ _) as [[e1 tok] l1].
  destruct (bool_decide (e1 = CHIP_NO_ERROR)); [|repeat split].
  cbn [self set_self emit set_layer layer mReadWatch].
  destruct (SetCallback _ _ _) as [e2 l2].
  destruct (bool_decide (e2 = CHIP_NO_ERROR)); [|repeat split].
  cbn [self set_self emit set_layer layer mReadWatch].
  destruct (RequestCallbackOnPendingRead _ _) as [e3 l3].
  destruct (bool_decide (e3 = CHIP_NO_ERROR)); repeat split.
Qed.

End Generic.

(** * Properties of the wake event on the reference system *)

Section Reference.

Local Abbreviation W := (World Kernel Layer).

(** *** Kernel facts *)

Lemma has_end_intro (e : Endpoint) (k : Kernel) key f :
  k_files k !! key = Some f -> of_end f = e -> has_end e k = true.
Proof.
  intros Hl He. unfold has_end. apply existsb_exists.
  exists (key, f). split.
  - apply list_elem_of_In. apply elem_of_map_to_list. exact Hl.
  - cbn. apply bool_decide_eq_true. exact He.
Qed.

Lemma le_value_one : le_value (take 8 (uint64_bytes 1)) = 1.
Proof. reflexivity. Qed.

Lemma testbit_nonblock (flags : Z) : Z.testbit (Z.lor flags O_NONBLOCK) 11 = true.
Proof. rewrite Z.lor_spec. apply orb_true_r. Qed.

Lemma pipe_bytes_insert p v k :
  pipe_bytes p (set_pipes (<[p := v]> (k_pipes k)) k) = v.
Proof. unfold pipe_bytes. cbn. rewrite lookup_insert_eq. reflexivity. Qed.

Lemma counter_value_insert c v k :
  counter_value c (set_counters (<[c := v]> (k_counters k)) k) = v.
Proof. unfold counter_value. cbn. rewrite lookup_insert_eq. reflexivity. Qed.

(** A one-byte write to the write end of a pipe that has a reader. *)
Lemma kernel_write_pipe fd p b k :
  file_of fd k = Some (mkOpenFile (PipeWriter p) true) ->
  has_end (PipeReader p) k = true ->
  kernel_write fd [b] k =
    if pipe_bytes p k + 1 <=? k_pipe_size k
    then (Some 1, set_pipes (<[p := pipe_bytes p k + 1]> (k_pipes k)) k)
    else fails EAGAIN k.
Proof.
  intros Hf Hr. unfold kernel_write. rewrite Hf. cbn [of_end of_nonblock].
  rewrite Hr. cbn [negb length Z.of_nat Pos.of_succ_nat]. reflexivity.
Qed.

(** A read from the read end of a non-blocking pipe that has a writer. *)
Lemma kernel_read_pipe fd p count k :
  file_of fd k = Some (mkOpenFile (PipeReader p) true) ->
  has_end (PipeWriter p) k = true ->
  kernel_read fd count k =
    if 0 <? pipe_bytes p k
    then (Some (Z.min (pipe_bytes p k) count),
          set_pipes (<[p := pipe_bytes p k - Z.min (pipe_bytes p k) count]> (k_pipes k)) k)
    else fails EAGAIN k.
Proof.
  intros Hf Hw. unfold kernel_read. rewrite Hf. cbn [of_end of_nonblock].
  rewrite Hw. reflexivity.
Qed.

(** *** Notify on the pipe variants *)

Lemma Notify_pipe_run (fifo : bool) (w : W) p :
  file_of (mReadFD (self w)) (os w) = Some (mkOpenFile (PipeReader p) true) ->
  file_of (mWriteFD (self w)) (os w) = Some (mkOpenFile (PipeWriter p) true) ->
  Notify_pipe fifo w =
    (Ret CHIP_NO_ERROR,
     if pipe_bytes p (os w) + 1 <=? k_pipe_size (os w)
     then emit (EvSys (c_write (mWriteFD (self w)) [byte_one]) (Some 1))
            (set_os (set_pipes (<[p := pipe_bytes p (os w) + 1]> (k_pipes (os w))) (os w)) w)
     else emit (EvSys (c_write (mWriteFD (self w)) [byte_one]) (Some (-1)))
            (set_os (set_errno EAGAIN (os w)) w)).
Proof.
  intros Hr Hw.
  assert (Hre : has_end (PipeReader p) (os w) = true)
    by (eapply has_end_intro; [exact Hr | reflexivity]).
  unfold Notify_pipe, bind, this, sys_write, syscall, get_errno.
  cbn [posix_write Kernel_Posix errno].
  rewrite (kernel_write_pipe _ p _ _ Hw Hre).
  destruct (pipe_bytes p (os w) + 1 <=? k_pipe_size (os w)) eqn:E.
  - cbn. reflexivity.
  - cbn. reflexivity.
Qed.

(** One round of the [do ... while] loop of [Confirm]. *)
Lemma Confirm_pipe_step (fuel : nat) (w : W) p :
  file_of (mReadFD (self w)) (os w) = Some (mkOpenFile (PipeReader p) true) ->
  file_of (mWriteFD (self w)) (os w) = Some (mkOpenFile (PipeWriter p) true) ->
  0 <= pipe_bytes p (os w) ->
  Confirm_pipe (S fuel) w =
    if 0 <? pipe_bytes p (os w) then
      let n := Z.min (pipe_bytes p (os w)) sizeof_buffer in
      let w1 :=
        emit (EvSys (c_read (mReadFD (self w)) sizeof_buffer) (Some n))
          (set_os (set_pipes (<[p := pipe_bytes p (os w) - n]> (k_pipes (os w))) (os w)) w) in
      if n =? sizeof_buffer then Confirm_pipe fuel w1 else (Ret tt, w1)
    else
      (Ret tt,
       emit (EvSys (c_read (mReadFD (self w)) sizeof_buffer) (Some (-1)))
         (set_os (set_errno EAGAIN (os w)) w)).
Proof.
  intros Hr Hw Hb.
  assert (Hwe : has_end (PipeWriter p) (os w) = true)
    by (eapply has_end_intro; [exact Hw | reflexivity]).
  cbn [Confirm_pipe].
  unfold bind at 1 2, this, sys_read, syscall.
  cbn [posix_read Kernel_Posix].
  rewrite (kernel_read_pipe _ p _ _ Hr Hwe).
  destruct (0 <? pipe_bytes p (os w)) eqn:E.
  - apply Z.ltb_lt in E. cbv zeta.
    unfold bind, get_errno.
    replace (Z.min (pipe_bytes p (os w)) sizeof_buffer <? 0) with false
      by (symmetry; apply Z.ltb_ge; unfold sizeof_buffer; lia).
    cbn [andb].
    destruct (Z.min (pipe_bytes p (os w)) sizeof_buffer =? sizeof_buffer); reflexivity.
  - cbn. reflexivity.
Qed.

Lemma same_files_refl w : same_files w w.
Proof. repeat split. Qed.

Lemma same_files_trans w1 w2 w3 :
  same_files w1 w2 -> same_files w2 w3 -> same_files w1 w3.
Proof.
  unfold same_files. intros (A1 & A2 & A3 & A4) (B1 & B2 & B3 & B4).
  repeat split; congruence.
Qed.

Lemma same_files_file_of w w' fd :
  same_files w w' -> file_of fd (os w') = file_of fd (os w).
Proof. intros (_ & Hf & Ht & _). unfold file_of. rewrite Hf, Ht. reflexivity. Qed.

(** [Confirm] on a pipe: whatever the bound, the descriptors stay and
    the buffer does not go negative; with enough rounds it returns and
    the buffer is empty. *)
Lemma Confirm_pipe_drains (fuel : nat) : forall (w : W) p,
  file_of (mReadFD (self w)) (os w) = Some (mkOpenFile (PipeReader p) true) ->
  file_of (mWriteFD (self w)) (os w) = Some (mkOpenFile (PipeWriter p) true) ->
  0 <= pipe_bytes p (os w) ->
  same_files w (snd (Confirm_pipe fuel w)) /\
  0 <= pipe_bytes p (os (snd (Confirm_pipe fuel w))) /\
  ((Z.to_nat (pipe_bytes p (os w) / sizeof_buffer) < fuel)%nat ->
   fst (Confirm_pipe fuel w) = Ret tt /\
   pipe_bytes p (os (snd (Confirm_pipe fuel w))) = 0).
Proof.
  induction fuel as [|fuel IH]; intros w p Hr Hw Hb.
  - cbn. split; [apply same_files_refl|]. split; [exact Hb|]. lia.
  - rewrite (Confirm_pipe_step fuel w p Hr Hw Hb).
    destruct (0 <? pipe_bytes p (os w)) eqn:E.
    + apply Z.ltb_lt in E. cbv zeta.
      set (n := Z.min (pipe_bytes p (os w)) sizeof_buffer).
      set (w1 := emit _ _).
      assert (Hs1 : same_files w w1) by (repeat split).
      assert (Hb1 : pipe_bytes p (os w1) = pipe_bytes p (os w) - n)
        by apply pipe_bytes_insert.
      destruct (Z.eqb_spec n sizeof_buffer) as [En|En].
      * assert (Hge : sizeof_buffer <= pipe_bytes p (os w))
          by (unfold n in En; lia).
        destruct (IH w1 p) as (I1 & I2 & I3).
        { exact Hr. }
        { exact Hw. }
        { lia. }
        split; [exact (same_files_trans _ _ _ Hs1 I1)|].
        split; [exact I2|].
        intros Hfuel. apply I3. rewrite Hb1, En.
        unfold sizeof_buffer in *.
        assert (pipe_bytes p (os w) / 128 = (pipe_bytes p (os w) - 128) / 128 + 1).
        { replace (pipe_bytes p (os w)) with ((pipe_bytes p (os w) - 128) + 1 * 128) at 1 by lia.
          rewrite Z.div_add by lia. reflexivity. }
        assert (0 <= (pipe_bytes p (os w) - 128) / 128)
          by (apply Z.div_pos; lia).
        lia.
      * cbn [fst snd]. split; [exact Hs1|].
        unfold sizeof_buffer in *.
        split; [lia|]. intros _. split; [reflexivity|]. lia.
    + apply Z.ltb_ge in E. cbn [fst snd].
      split; [repeat split|].
      split; [exact Hb|]. intros _. split; [reflexivity|].
      cbn. unfold pipe_bytes in *. cbn. lia.
Qed.

(** *** The event-counter variants *)

Lemma counter_add_one ok c k :
  counter_add ok c 1 false k =
    if counter_max <? counter_value c k + 1 then (None, k)
    else (Some ok, set_counters (<[c := counter_value c k + 1]> (k_counters k)) k).
Proof. reflexivity. Qed.

Lemma WriteEvent_run zephyr (w : W) c :
  file_of (mReadFD (self w)) (os w) = Some (mkOpenFile (EventCounter c) false) ->
  exists call ok,
    WriteEvent zephyr (mReadFD (self w)) w =
      (if counter_max <? counter_value c (os w) + 1
       then (Halted Blocked, emit (EvSys call None) (set_os (os w) w))
       else (Ret ok,
             emit (EvSys call (Some ok))
               (set_os (set_counters (<[c := counter_value c (os w) + 1]> (k_counters (os w)))
                          (os w)) w))) /\
    0 <= ok.
Proof.
  intros Hf. unfold WriteEvent. destruct zephyr.
  - exists (c_eventfd_write (mReadFD (self w)) 1), 0.
    split; [|lia].
    unfold sys_eventfd_write, syscall. cbn [posix_eventfd_write Kernel_Posix].
    unfold kernel_eventfd_write. rewrite Hf. cbn [of_end of_nonblock].
    change (1 mod 2 ^ 64) with 1. rewrite counter_add_one.
    destruct (counter_max <? counter_value c (os w) + 1); reflexivity.
  - exists (c_write (mReadFD (self w)) (uint64_bytes 1)), 8.
    split; [|lia].
    unfold sys_write, syscall. cbn [posix_write Kernel_Posix].
    unfold kernel_write. rewrite Hf. cbn [of_end of_nonblock].
    change (Z.of_nat (length (uint64_bytes 1)) <? 8) with false. cbv iota.
    rewrite le_value_one, counter_add_one.
    destruct (counter_max <? counter_value c (os w) + 1); reflexivity.
Qed.

Lemma counter_read_run ok c k :
  counter_read ok c false k =
    if counter_value c k =? 0 then (None, k)
    else (Some ok, set_counters (<[c := 0]> (k_counters k)) k).
Proof. reflexivity. Qed.

Lemma ReadEvent_run zephyr (w : W) c :
  file_of (mReadFD (self w)) (os w) = Some (mkOpenFile (EventCounter c) false) ->
  exists call ok,
    ReadEvent zephyr (mReadFD (self w)) w =
      (if counter_value c (os w) =? 0
       then (Halted Blocked, emit (EvSys call None) (set_os (os w) w))
       else (Ret ok,
             emit (EvSys call (Some ok))
               (set_os (set_counters (<[c := 0]> (k_counters (os w))) (os w)) w))) /\
    0 <= ok.
Proof.
  intros Hf. unfold ReadEvent. destruct zephyr.
  - exists (c_eventfd_read (mReadFD (self w))), 0.
    split; [|lia].
    unfold sys_eventfd_read, syscall. cbn [posix_eventfd_read Kernel_Posix].
    unfold kernel_eventfd_read. rewrite Hf. cbn [of_end of_nonblock].
    rewrite counter_read_run.
    destruct (counter_value c (os w) =? 0); reflexivity.
  - exists (c_read (mReadFD (self w)) 8), 8.
    split; [|lia].
    unfold sys_read, syscall. cbn [posix_read Kernel_Posix].
    unfold kernel_read. rewrite Hf. cbn [of_end of_nonblock].
    change (8 <? 8) with false. cbv iota.
    rewrite counter_read_run.
    destruct (counter_value c (os w) =? 0); reflexivity.
Qed.

Lemma Notify_eventfd_run zephyr (w : W) c :
  file_of (mReadFD (self w)) (os w) = Some (mkOpenFile (EventCounter c) false) ->
  let w' := snd (Notify_eventfd zephyr w) in
  same_files w w' /\
  (exists ev, trace w' = trace w ++ [ev]) /\
  if counter_max <? counter_value c (os w) + 1
  then fst (Notify_eventfd zephyr w) = Halted Blocked /\
       counter_value c (os w') = counter_value c (os w)
  else fst (Notify_eventfd zephyr w) = Ret CHIP_NO_ERROR /\
       counter_value c (os w') = counter_value c (os w) + 1.
Proof.
  intros Hf. destruct (WriteEvent_run zephyr w c Hf) as (call & ok & Hrun & Hok).
  unfold Notify_eventfd. rewrite bind_this.
  destruct (counter_max <? counter_value c (os w) + 1) eqn:E.
  - rewrite (bind_Halted _ _ _ _ _ Hrun). cbn [fst snd].
    repeat split. eexists; reflexivity.
  - rewrite (bind_Ret _ _ _ _ _ Hrun), bind_get_errno.
    replace (ok <? 0) with false by (symmetry; apply Z.ltb_ge; exact Hok).
    cbn [andb fst snd ret].
    split; [repeat split|]. split; [eexists; reflexivity|].
    split; [reflexivity|]. apply counter_value_insert.
Qed.

Lemma Confirm_eventfd_run zephyr (w : W) c :
  file_of (mReadFD (self w)) (os w) = Some (mkOpenFile (EventCounter c) false) ->
  let w' := snd (Confirm_eventfd zephyr w) in
  same_files w w' /\
  if counter_value c (os w) =? 0
  then fst (Confirm_eventfd zephyr w) = Halted Blocked /\
       counter_value c (os w') = counter_value c (os w) /\
       exists call, trace w' = trace w ++ [EvSys call None]
  else fst (Confirm_eventfd zephyr w) = Ret tt /\
       counter_value c (os w') = 0 /\
       exists call ok, trace w' = trace w ++ [EvSys call (Some ok)] /\ 0 <= ok.
Proof.
  intros Hf. destruct (ReadEvent_run zephyr w c Hf) as (call & ok & Hrun & Hok).
  unfold Confirm_eventfd. rewrite bind_this.
  destruct (counter_value c (os w) =? 0) eqn:E.
  - rewrite (bind_Halted _ _ _ _ _ Hrun). cbn [fst snd].
    repeat split. eexists; reflexivity.
  - rewrite (bind_Ret _ _ _ _ _ Hrun), bind_get_errno.
    replace (ok <? 0) with false by (symmetry; apply Z.ltb_ge; exact Hok).
    cbn [andb fst snd ret].
    split; [repeat split|].
    split; [reflexivity|]. split; [apply counter_value_insert|].
    exists call, ok. split; [reflexivity | exact Hok].
Qed.

(** *** The channel invariant *)

Lemma readable_signal (w : W) : readable w = (0 <? signal w).
Proof.
  unfold readable, signal, poll_in, pending.
  destruct (file_of _ _) as [[[p|p|c] nb]|]; reflexivity.
Qed.

Lemma signal_pipe (w : W) p nb :
  file_of (mReadFD (self w)) (os w) = Some (mkOpenFile (PipeReader p) nb) ->
  signal w = pipe_bytes p (os w).
Proof. intros Hf. unfold signal, pending. rewrite Hf. reflexivity. Qed.

Lemma signal_counter (w : W) c nb :
  file_of (mReadFD (self w)) (os w) = Some (mkOpenFile (EventCounter c) nb) ->
  signal w = counter_value c (os w).
Proof. intros Hf. unfold signal, pending. rewrite Hf. reflexivity. Qed.

(** [Notify] keeps the channel and leaves it signalled.  On a pipe it
    returns success; on an event counter it returns success and adds
    one, unless the counter is at its maximum, where it blocks. *)
Lemma channel_Notify (cfg : Config) (w : W) :
  channel cfg w ->
  let w' := snd (Notify cfg w) in
  channel cfg w' /\ 0 < signal w' /\
  (exists ev, trace w' = trace w ++ [ev]) /\
  if CHIP_SYSTEM_CONFIG_USE_POSIX_PIPE cfg then
    fst (Notify cfg w) = Ret CHIP_NO_ERROR
  else if counter_max <? signal w + 1 then
    fst (Notify cfg w) = Halted Blocked /\ signal w' = signal w
  else
    fst (Notify cfg w) = Ret CHIP_NO_ERROR /\ signal w' = signal w + 1.
Proof.
  unfold channel, Notify.
  destruct (CHIP_SYSTEM_CONFIG_USE_POSIX_PIPE cfg).
  - intros (p & Hr & Hw & Hb & Hs).
    rewrite (Notify_pipe_run _ w p Hr Hw). cbn [fst snd].
    destruct (pipe_bytes p (os w) + 1 <=? k_pipe_size (os w)) eqn:E.
    + split; [exists p; repeat split; try assumption|].
      * cbn [os emit set_os]. rewrite pipe_bytes_insert. lia.
      * split; [|split; [eexists; reflexivity | reflexivity]].
        erewrite signal_pipe by exact Hr.
        cbn [os emit set_os]. rewrite pipe_bytes_insert. lia.
    + apply Z.leb_gt in E.
      split; [exists p; repeat split; assumption|].
      split; [|split; [eexists; reflexivity | reflexivity]].
      erewrite signal_pipe by exact Hr.
      change (0 < pipe_bytes p (os w)). lia.
  - intros (c & Hf & Hv).
    destruct (Notify_eventfd_run (CHIP_SYSTEM_CONFIG_USE_ZEPHYR_EVENTFD cfg) w c Hf)
      as (Hs & Hev & Hrun).
    rewrite (signal_counter w c _ Hf).
    assert (Hf' : file_of (mReadFD (self (snd (Notify_eventfd
               (CHIP_SYSTEM_CONFIG_USE_ZEPHYR_EVENTFD cfg) w))))
               (os (snd (Notify_eventfd (CHIP_SYSTEM_CONFIG_USE_ZEPHYR_EVENTFD cfg) w)))
             = Some (mkOpenFile (EventCounter c) false)).
    { rewrite (same_files_file_of _ _ _ Hs). destruct Hs as (-> & _). exact Hf. }
    rewrite (signal_counter _ c _ Hf').
    destruct (counter_max <? counter_value c (os w) + 1) eqn:E;
      [apply Z.ltb_lt in E | apply Z.ltb_ge in E];
      destruct Hrun as (Ho & Hc); rewrite Hc;
      (split; [exists c; split; [exact Hf' | rewrite Hc; unfold counter_max in *; lia]|]);
      (split; [unfold counter_max in *; lia|]); auto.
Qed.

(** [Confirm] keeps the channel.  On a pipe, with enough rounds, it
    returns and leaves no byte.  On an event counter it performs one
    read: it returns with the counter reset when the counter was not
    zero, and blocks, counter unchanged, when it was. *)
Lemma channel_Confirm (cfg : Config) (fuel : nat) (w : W) :
  channel cfg w ->
  let w' := snd (Confirm cfg fuel w) in
  channel cfg w' /\
  if CHIP_SYSTEM_CONFIG_USE_POSIX_PIPE cfg then
    (Z.to_nat (signal w / sizeof_buffer) < fuel)%nat ->
    fst (Confirm cfg fuel w) = Ret tt /\ signal w' = 0
  else if signal w =? 0 then
    fst (Confirm cfg fuel w) = Halted Blocked /\ signal w' = 0 /\
    exists call, trace w' = trace w ++ [EvSys call None]
  else
    fst (Confirm cfg fuel w) = Ret tt /\ signal w' = 0 /\
    exists call ok, trace w' = trace w ++ [EvSys call (Some ok)] /\ 0 <= ok.
Proof.
  unfold channel, Confirm.
  destruct (CHIP_SYSTEM_CONFIG_USE_POSIX_PIPE cfg).
  - intros (p & Hr & Hw & Hb & Hs).
    destruct (Confirm_pipe_drains fuel w p Hr Hw Hb) as (Hsf & Hb' & Hd).
    assert (Hr' := same_files_file_of _ _ (mReadFD (self w)) Hsf).
    assert (Hw' := same_files_file_of _ _ (mWriteFD (self w)) Hsf).
    destruct Hsf as (Hself & _ & _ & Hsz).
    rewrite (signal_pipe w p _ Hr).
    split.
    + exists p. rewrite Hself, Hr', Hw', Hsz. auto.
    + intros Hfuel. destruct (Hd Hfuel) as (Ho & Hz). split; [exact Ho|].
      erewrite signal_pipe; [exact Hz|]. rewrite Hself, Hr'. exact Hr.
  - intros (c & Hf & Hv).
    destruct (Confirm_eventfd_run (CHIP_SYSTEM_CONFIG_USE_ZEPHYR_EVENTFD cfg) w c Hf)
      as (Hs & Hrun).
    rewrite (signal_counter w c _ Hf).
    assert (Hf' : file_of (mReadFD (self (snd (Confirm_eventfd
               (CHIP_SYSTEM_CONFIG_USE_ZEPHYR_EVENTFD cfg) w))))
               (os (snd (Confirm_eventfd (CHIP_SYSTEM_CONFIG_USE_ZEPHYR_EVENTFD cfg) w)))
             = Some (mkOpenFile (EventCounter c) false)).
    { rewrite (same_files_file_of _ _ _ Hs). destruct Hs as (-> & _). exact Hf. }
    rewrite (signal_counter _ c _ Hf').
    destruct (Z.eqb_spec (counter_value c (os w)) 0) as [E|E];
      destruct Hrun as (Ho & Hc & Ht); rewrite Hc;
      (split; [exists c; split; [exact Hf' | rewrite Hc; unfold counter_max in *; lia]|]);
      auto.
Qed.

(** *** Open establishes the channel *)

Lemma channel_ext (cfg : Config) (w w' : W) :
  os w' = os w ->
  mReadFD (self w') = mReadFD (self w) ->
  mWriteFD (self w') = mWriteFD (self w) ->
  channel cfg w -> channel cfg w'.
Proof.
  unfold channel. intros -> -> ->. auto.
Qed.

Lemma signal_ext (w w' : W) :
  os w' = os w -> mReadFD (self w') = mReadFD (self w) -> signal w' = signal w.
Proof. unfold signal. intros -> ->. reflexivity. Qed.

Lemma Open_eventfd_channel (cfg : Config) (w0 w1 : W) :
  CHIP_SYSTEM_CONFIG_USE_POSIX_PIPE cfg = false ->
  Open_eventfd w0 = (Ret CHIP_NO_ERROR, w1) ->
  channel cfg w1 /\ signal w1 = 0.
Proof.
  intros Hcfg. unfold Open_eventfd, sys_eventfd, syscall, bind at 1.
  cbn [posix_eventfd Kernel_Posix]. unfold kernel_eventfd.
  destruct (k_fd_limit (os w0) <? k_next_fd (os w0) + 1).
  { cbn. intros [=]. }
  unfold install. cbn [k_task k_next_fd set_next_obj set_counters k_files].
  unfold bind at 1, assign_mReadFD. unfold bind at 1, this.
  cbn [self set_self mReadFD emit set_os].
  destruct (k_next_fd (os w0) =? -1).
  { cbn. intros [=]. }
  match goal with |- Open_register ?w = _ -> _ => set (wp := w) end.
  intros Hreg.
  destruct (Open_register_keeps wp) as (Ho & Hr & Hw).
  rewrite Hreg in Ho, Hr, Hw. cbn [snd] in Ho, Hr, Hw.
  assert (Hf : file_of (mReadFD (self wp)) (os wp)
               = Some (mkOpenFile (EventCounter (k_next_obj (os w0))) false)).
  { unfold file_of. cbn. apply lookup_insert_eq. }
  assert (Hc : counter_value (k_next_obj (os w0)) (os wp) = 0).
  { unfold counter_value. cbn. rewrite lookup_insert_eq. reflexivity. }
  split.
  - apply (channel_ext cfg wp w1 Ho Hr Hw).
    unfold channel. rewrite Hcfg. exists (k_next_obj (os w0)).
    split; [exact Hf|]. rewrite Hc. unfold counter_max. lia.
  - rewrite (signal_ext wp w1 Ho Hr), (signal_counter wp _ _ Hf). exact Hc.
Qed.

Lemma SetNonBlockingMode_run fd (w : W) e nb :
  file_of fd (os w) = Some (mkOpenFile e nb) ->
  exists evs,
    SetNonBlockingMode fd w =
      (Ret 0,
       mkWorld (self w)
         (set_files (<[(k_task (os w), fd) := mkOpenFile e true]> (k_files (os w))) (os w))
         (layer w) (trace w ++ evs)).
Proof.
  intros Hf. unfold SetNonBlockingMode, bind, sys_fcntl, syscall.
  cbn [posix_fcntl Kernel_Posix]. unfold kernel_fcntl at 1. rewrite Hf.
  change (F_GETFL =? F_GETFL) with true. cbv iota.
  cbn [os emit set_os of_end of_nonblock].
  unfold kernel_fcntl. rewrite Hf.
  change (F_SETFL =? F_GETFL) with false. change (F_SETFL =? F_SETFL) with true.
  cbv iota. rewrite testbit_nonblock.
  eexists. unfold emit, set_os. cbn [self os layer trace].
  rewrite <- app_assoc. reflexivity.
Qed.

Lemma Open_pipe_channel (cfg : Config) (w0 w1 : W) :
  CHIP_SYSTEM_CONFIG_USE_POSIX_PIPE cfg = true ->
  0 < k_pipe_size (os w0) ->
  Open_pipe false w0 = (Ret CHIP_NO_ERROR, w1) ->
  channel cfg w1 /\ signal w1 = 0.
Proof.
  intros Hcfg Hsz. unfold Open_pipe, sys_pipe, bind at 1.
  cbn [posix_pipe Kernel_Posix]. unfold kernel_pipe.
  destruct (k_fd_limit (os w0) <? k_next_fd (os w0) + 2).
  { cbn. intros [=]. }
  unfold install. cbn [k_task k_next_fd set_next_obj set_pipes set_files set_next_fd k_files].
  change (0 <? 0) with false. cbv iota.
  set (t := k_task (os w0)). set (n := k_next_fd (os w0)). set (p := k_next_obj (os w0)).
  match goal with |- bind (SetNonBlockingMode n) _ ?w = _ -> _ => set (wa := w) end.
  assert (Hne : (t, n) <> (t, n + 1)) by (intros [=]; lia).
  destruct (SetNonBlockingMode_run n wa (PipeReader p) false) as (ev1 & E1).
  { unfold file_of. cbn. rewrite lookup_insert_ne by congruence.
    apply lookup_insert_eq. }
  rewrite (bind_Ret _ _ _ _ _ E1). change (0 <? 0) with false. cbv iota.
  match goal with |- bind (SetNonBlockingMode (n + 1)) _ ?w = _ -> _ => set (wb := w) end.
  destruct (SetNonBlockingMode_run (n + 1) wb (PipeWriter p) false) as (ev2 & E2).
  { unfold file_of. cbn. rewrite lookup_insert_ne by congruence.
    apply lookup_insert_eq. }
  rewrite (bind_Ret _ _ _ _ _ E2). change (0 <? 0) with false. cbv iota.
  unfold bind at 1, assign_mReadFD. unfold bind at 1, assign_mWriteFD.
  match goal with |- Open_register ?w = _ -> _ => set (wp := w) end.
  intros Hreg.
  destruct (Open_register_keeps wp) as (Ho & Hr & Hw).
  rewrite Hreg in Ho, Hr, Hw. cbn [snd] in Ho, Hr, Hw.
  assert (Hfr : file_of (mReadFD (self wp)) (os wp)
                = Some (mkOpenFile (PipeReader p) true)).
  { unfold file_of. cbn. rewrite lookup_insert_ne by congruence.
    apply lookup_insert_eq. }
  assert (Hfw : file_of (mWriteFD (self wp)) (os wp)
                = Some (mkOpenFile (PipeWriter p) true)).
  { unfold file_of. cbn. apply lookup_insert_eq. }
  assert (Hb : pipe_bytes p (os wp) = 0).
  { unfold pipe_bytes. cbn. rewrite lookup_insert_eq. reflexivity. }
  split.
  - apply (channel_ext cfg wp w1 Ho Hr Hw).
    unfold channel. rewrite Hcfg. exists p.
    split; [exact Hfr|]. split; [exact Hfw|]. rewrite Hb. split; [lia|exact Hsz].
  - rewrite (signal_ext wp w1 Ho Hr), (signal_pipe wp _ _ Hfr). exact Hb.
Qed.

(** [mkfifo] on the reference kernel: afterwards the node exists,
    whether it was created or was there already. *)
Lemma kernel_mkfifo_run path mode k :
  kernel_wf k ->
  exists r k1 p,
    kernel_mkfifo path mode k = (Some r, k1) /\
    (r =? 0) || bool_decide (k_errno k1 = EEXIST) = true /\
    k_fifos k1 !! path = Some p /\
    0 <= pipe_bytes p k1 /\
    k_files k1 = k_files k /\ k_task k1 = k_task k /\
    k_next_fd k1 = k_next_fd k /\ k_fd_limit k1 = k_fd_limit k /\
    k_pipe_size k1 = k_pipe_size k.
Proof.
  intros (_ & Hwf). unfold kernel_mkfifo.
  destruct (k_fifos k !! path) as [p|] eqn:E.
  - exists (-1), (set_errno EEXIST k), p. repeat split; try assumption.
    unfold pipe_bytes. cbn. destruct (k_pipes k !! p) as [b|] eqn:Eb; cbn; [eauto|lia].
  - exists 0, (set_next_obj (S (k_next_obj k))
                (set_fifos (<[path := k_next_obj k]> (k_fifos k))
                   (set_pipes (<[k_next_obj k := 0]> (k_pipes k)) k))), (k_next_obj k).
    repeat split.
    + cbn. apply lookup_insert_eq.
    + unfold pipe_bytes. cbn. rewrite lookup_insert_eq. cbn. lia.
Qed.

Lemma Open_fifo_channel (cfg : Config) (w0 w1 : W) :
  CHIP_SYSTEM_CONFIG_USE_POSIX_PIPE cfg = true ->
  kernel_wf (os w0) ->
  Open_pipe true w0 = (Ret CHIP_NO_ERROR, w1) ->
  channel cfg w1.
Proof.
  intros Hcfg Hwf. unfold Open_pipe, sys_mkfifo, syscall, bind at 1.
  cbn [posix_mkfifo Kernel_Posix].
  destruct (kernel_mkfifo_run kChipEventFifoPath 438 (os w0) Hwf)
    as (r & k1 & p & -> & Hc & Hp & Hb & Hfiles & Htask & Hnext & Hlim & Hsz).
  unfold bind at 1, get_errno. cbn [os emit set_os errno Kernel_Posix].
  rewrite Hc. cbn [negb].
  unfold sys_open, syscall, bind at 1. cbn [posix_open Kernel_Posix os emit set_os].
  unfold kernel_open at 1. rewrite Hp.
  change (Z.testbit (Z.lor O_RDONLY O_NONBLOCK) 11) with true.
  change (Z.land (Z.lor O_RDONLY O_NONBLOCK) 3 =? O_RDONLY) with true.
  destruct (k_fd_limit k1 <? k_next_fd k1 + 1).
  { cbn. intros [=]. }
  cbv iota zeta. cbn [orb]. unfold install at 1.
  destruct (k_next_fd k1 =? -1).
  { cbn. intros [=]. }
  set (t := k_task k1). set (n := k_next_fd k1).
  set (k2 := set_next_fd _ _).
  assert (Hfr : k_files k2 !! (t, n) = Some (mkOpenFile (PipeReader p) true))
    by (cbn; apply lookup_insert_eq).
  assert (Hre : has_end (PipeReader p) k2 = true)
    by (eapply has_end_intro; [exact Hfr | reflexivity]).
  unfold bind at 1. cbn [posix_open Kernel_Posix os emit set_os].
  unfold kernel_open. replace (k_fifos k2 !! kChipEventFifoPath) with (Some p) by (symmetry; exact Hp).
  change (Z.testbit (Z.lor O_WRONLY O_NONBLOCK) 11) with true.
  change (Z.land (Z.lor O_WRONLY O_NONBLOCK) 3 =? O_RDONLY) with false.
  change (Z.land (Z.lor O_WRONLY O_NONBLOCK) 3 =? O_WRONLY) with true.
  destruct (k_fd_limit k2 <? k_next_fd k2 + 1).
  { cbn. intros [=]. }
  cbv iota zeta. rewrite Hre. unfold install.
  destruct (k_next_fd k2 =? -1).
  { cbn. intros [=]. }
  unfold bind at 1, assign_mReadFD. unfold bind at 1, assign_mWriteFD.
  match goal with |- Open_register ?w = _ -> _ => set (wp := w) end.
  intros Hreg.
  destruct (Open_register_keeps wp) as (Ho & Hr & Hw).
  rewrite Hreg in Ho, Hr, Hw. cbn [snd] in Ho, Hr, Hw.
  apply (channel_ext cfg wp w1 Ho Hr Hw).
  unfold channel. rewrite Hcfg. exists p.
  assert (Hne : (t, n) <> (t, n + 1)) by (intros [=]; lia).
  split; [|split; [|split]].
  - unfold file_of. cbn. rewrite lookup_insert_ne by congruence.
    apply lookup_insert_eq.
  - unfold file_of. cbn. apply lookup_insert_eq.
  - exact Hb.
  - cbn. rewrite Hsz. apply Hwf.
Qed.

(** [Open] establishes the channel; outside the named-FIFO variant
    the channel starts with no signal pending. *)
Lemma Open_channel (cfg : Config) (w0 w1 : W) :
  kernel_wf (os w0) ->
  Open cfg w0 = (Ret CHIP_NO_ERROR, w1) ->
  channel cfg w1 /\
  (CHIP_SYSTEM_CONFIG_USE_POSIX_PIPE cfg && CHIP_SYSTEM_CONFIG_WAKE_EVENT_USE_FIFO cfg = false ->
   signal w1 = 0).
Proof.
  intros Hwf. unfold Open.
  destruct (CHIP_SYSTEM_CONFIG_USE_POSIX_PIPE cfg) eqn:Hp.
  - destruct (CHIP_SYSTEM_CONFIG_WAKE_EVENT_USE_FIFO cfg) eqn:Hf; intros HO.
    + split; [|discriminate]. eapply Open_fifo_channel; eassumption.
    + destruct (Open_pipe_channel cfg w0 w1 Hp (proj1 Hwf) HO). auto.
  - intros HO. destruct (Open_eventfd_channel cfg w0 w1 Hp HO). auto.
Qed.

(** *** Runs of Notify *)

Lemma run_notifies_succ (cfg : Config) (n : nat) (w : W) :
  run_notifies cfg (S n) w = snd (Notify cfg (run_notifies cfg n w)).
Proof.
  revert w. induction n as [|n IH]; intros w; [reflexivity|].
  change (run_notifies cfg (S (S n)) w)
    with (run_notifies cfg (S n) (snd (Notify cfg w))).
  rewrite IH. reflexivity.
Qed.

Lemma run_notifies_channel (cfg : Config) (n : nat) (w : W) :
  channel cfg w -> channel cfg (run_notifies cfg n w).
Proof.
  intros Hc. induction n as [|n IH]; [exact Hc|].
  rewrite run_notifies_succ. apply (channel_Notify cfg _ IH).
Qed.

Lemma run_notifies_signalled (cfg : Config) (n : nat) (w : W) :
  channel cfg w -> (1 <= n)%nat -> 0 < signal (run_notifies cfg n w).
Proof.
  intros Hc Hn. destruct n as [|n]; [lia|].
  rewrite run_notifies_succ.
  apply (channel_Notify cfg _ (run_notifies_channel cfg n w Hc)).
Qed.

(** On an event counter, [n] notifications count to [n] and all
    return success, up to the maximum of the counter. *)
Lemma run_notifies_counts (cfg : Config) (w : W) :
  CHIP_SYSTEM_CONFIG_USE_POSIX_PIPE cfg = false ->
  channel cfg w ->
  forall n : nat,
    signal w + Z.of_nat n <= counter_max ->
    signal (run_notifies cfg n w) = signal w + Z.of_nat n /\
    forall m : nat, (m < n)%nat ->
      fst (Notify cfg (run_notifies cfg m w)) = Ret CHIP_NO_ERROR.
Proof.
  intros Hcfg Hc n. induction n as [|n IH]; intros Hle.
  - split; [cbn; lia | intros m Hm; lia].
  - destruct IH as (Hs & Hall); [lia|].
    pose proof (channel_Notify cfg _ (run_notifies_channel cfg n w Hc)) as Hn.
    cbv zeta in Hn. rewrite Hcfg in Hn. destruct Hn as (_ & _ & _ & Hn).
    replace (counter_max <? signal (run_notifies cfg n w) + 1) with false in Hn
      by (symmetry; apply Z.ltb_ge; lia).
    destruct Hn as (Ho & Hv).
    split.
    + rewrite run_notifies_succ, Hv, Hs. lia.
    + intros m Hm. destruct (Nat.eq_dec m n) as [->|Hne]; [exact Ho|].
      apply Hall. lia.
Qed.

Lemma reachable_channel (cfg : Config) (w0 w : W) :
  kernel_wf (os w0) -> reachable cfg w0 w -> channel cfg w.
Proof.
  intros Hwf Hr. induction Hr as [w1 HO | w Hr IH | w fuel Hr IH].
  - apply (Open_channel cfg w0 w1 Hwf HO).
  - apply (channel_Notify cfg w IH).
  - apply (channel_Confirm cfg fuel w IH).
Qed.

(** C1.  For every variant, on the reference system: after a
    successful [Open] and [N >= 1] calls of [Notify] with no [Confirm]
    in between, the read descriptor polls readable; one [Confirm]
    (given at least one round of its loop per 128 pending bytes, plus
    one) returns, and leaves no signal data: nothing is pending and the
    descriptor polls not readable. *)
Theorem Confirm_drains_all_notifies (cfg : Config) (w0 w1 : W) (N : nat) :
  kernel_wf (os w0) ->
  Open cfg w0 = (Ret CHIP_NO_ERROR, w1) ->
  (1 <= N)%nat ->
  readable (run_notifies cfg N w1) = true /\
  forall fuel : nat,
    (Z.to_nat (signal (run_notifies cfg N w1) / sizeof_buffer) < fuel)%nat ->
    exists w',
      Confirm cfg fuel (run_notifies cfg N w1) = (Ret tt, w') /\
      signal w' = 0 /\
      readable w' = false.
Proof.
  intros Hwf HO HN.
  pose proof (proj1 (Open_channel cfg w0 w1 Hwf HO)) as Hc1.
  pose proof (run_notifies_channel cfg N w1 Hc1) as HcN.
  pose proof (run_notifies_signalled cfg N w1 Hc1 HN) as Hpos.
  split.
  - rewrite readable_signal. apply Z.ltb_lt. exact Hpos.
  - intros fuel Hfuel.
    destruct (channel_Confirm cfg fuel _ HcN) as (_ & Hrun).
    exists (snd (Confirm cfg fuel (run_notifies cfg N w1))).
    assert (Hres : fst (Confirm cfg fuel (run_notifies cfg N w1)) = Ret tt /\
                   signal (snd (Confirm cfg fuel (run_notifies cfg N w1))) = 0).
    { destruct (CHIP_SYSTEM_CONFIG_USE_POSIX_PIPE cfg).
      - apply Hrun. exact Hfuel.
      - destruct (Z.eqb_spec (signal (run_notifies cfg N w1)) 0) as [E|E]; [lia|].
        destruct Hrun as (Ho & Hz & _). auto. }
    destruct Hres as (Ho & Hz).
    split; [rewrite <- Ho; apply surjective_pairing|].
    split; [exact Hz|]. rewrite readable_signal, Hz. reflexivity.
Qed.

(** The event-counter variants on the reference system, step by step:
    after a successful [Open] the counter is 0; each [Notify] returns
    success and adds exactly one, so [n] calls leave the counter at [n]
    (for [n] up to the maximum 2^64 - 2); one [Confirm] then performs a
    single read, which returns and resets the counter to 0; a second
    [Confirm] right after performs a single read that does not return,
    the descriptor of [eventfd(0, 0)] being in blocking mode; the counter
    stays 0. *)
Theorem eventfd_counter_scenario (cfg : Config) (w0 w1 : W) (n fuel : nat) :
  CHIP_SYSTEM_CONFIG_USE_POSIX_PIPE cfg = false ->
  Open cfg w0 = (Ret CHIP_NO_ERROR, w1) ->
  (1 <= n)%nat ->
  Z.of_nat n <= counter_max ->
  signal w1 = 0 /\
  (forall m : nat, (m < n)%nat ->
     fst (Notify cfg (run_notifies cfg m w1)) = Ret CHIP_NO_ERROR /\
     signal (run_notifies cfg (S m) w1) = signal (run_notifies cfg m w1) + 1) /\
  signal (run_notifies cfg n w1) = Z.of_nat n /\
  exists w2 w3 call1 ok call2,
    Confirm cfg fuel (run_notifies cfg n w1) = (Ret tt, w2) /\
    trace w2 = trace (run_notifies cfg n w1) ++ [EvSys call1 (Some ok)] /\
    signal w2 = 0 /\
    Confirm cfg fuel w2 = (Halted Blocked, w3) /\
    trace w3 = trace w2 ++ [EvSys call2 None] /\
    signal w3 = 0.
Proof.
  intros Hcfg HO Hn Hmax.
  unfold Open in HO. rewrite Hcfg in HO.
  destruct (Open_eventfd_channel cfg w0 w1 Hcfg HO) as (Hc1 & Hz).
  split; [exact Hz|].
  assert (Hcount : forall m : nat, (m <= n)%nat ->
            signal (run_notifies cfg m w1) = Z.of_nat m).
  { intros m Hm.
    destruct (run_notifies_counts cfg w1 Hcfg Hc1 m) as (Hs & _); lia. }
  destruct (run_notifies_counts cfg w1 Hcfg Hc1 n) as (Hs & Hall); [lia|].
  split.
  { intros m Hm. split; [apply Hall; exact Hm|].
    rewrite !Hcount by lia. lia. }
  split; [lia|].
  pose proof (run_notifies_channel cfg n w1 Hc1) as Hcn.
  destruct (channel_Confirm cfg fuel _ Hcn) as (Hc2 & Hrun).
  rewrite Hcfg in Hrun.
  destruct (Z.eqb_spec (signal (run_notifies cfg n w1)) 0) as [E|E]; [lia|].
  destruct Hrun as (Ho2 & Hz2 & call1 & ok & Ht2 & _).
  destruct (channel_Confirm cfg fuel _ Hc2) as (_ & Hrun3).
  rewrite Hcfg, Hz2 in Hrun3. cbn in Hrun3.
  destruct Hrun3 as (Ho3 & Hz3 & call2 & Ht3).
  exists (snd (Confirm cfg fuel (run_notifies cfg n w1))),
    (snd (Confirm cfg fuel (snd (Confirm cfg fuel (run_notifies cfg n w1))))),
    call1, ok, call2.
  split; [rewrite <- Ho2; apply surjective_pairing|].
  split; [exact Ht2|]. split; [exact Hz2|].
  split; [rewrite <- Ho3; apply surjective_pairing|].
  split; [exact Ht3 | exact Hz3].
Qed.

(** [Notify] in the opening task.  On the reference system, in every
    state reached from a successful [Open] by [Notify] and [Confirm]
    calls of the opening task: on the pipe and named-FIFO variants
    [Notify] returns
    CHIP_NO_ERROR after a single call that cannot block, however many
    notifications are pending; on the event-counter variants it does so
    as long as the counter is below its maximum 2^64 - 2. *)
Theorem Notify_returns_without_blocking (cfg : Config) (w0 w : W) :
  kernel_wf (os w0) ->
  reachable cfg w0 w ->
  CHIP_SYSTEM_CONFIG_USE_POSIX_PIPE cfg = true \/ signal w < counter_max ->
  exists w' ev,
    Notify cfg w = (Ret CHIP_NO_ERROR, w') /\
    trace w' = trace w ++ [ev].
Proof.
  intros Hwf Hr Hcase.
  pose proof (reachable_channel cfg w0 w Hwf Hr) as Hc.
  destruct (channel_Notify cfg w Hc) as (_ & _ & (ev & Hev) & Hrun).
  exists (snd (Notify cfg w)), ev. split; [|exact Hev].
  assert (Ho : fst (Notify cfg w) = Ret CHIP_NO_ERROR).
  { destruct (CHIP_SYSTEM_CONFIG_USE_POSIX_PIPE cfg); [exact Hrun|].
    destruct Hcase as [Hd|Hlt]; [discriminate|].
    replace (counter_max <? signal w + 1) with false in Hrun
      by (symmetry; apply Z.ltb_ge; lia).
    apply Hrun. }
  rewrite <- Ho. apply surjective_pairing.
Qed.

(** On the event-counter variants [Notify] blocks once the counter has
    reached its maximum. *)
Lemma Notify_blocks_at_counter_max (cfg : Config) (w0 w : W) :
  kernel_wf (os w0) ->
  reachable cfg w0 w ->
  CHIP_SYSTEM_CONFIG_USE_POSIX_PIPE cfg = false ->
  signal w = counter_max ->
  fst (Notify cfg w) = Halted Blocked.
Proof.
  intros Hwf Hr Hcfg Hmax.
  pose proof (reachable_channel cfg w0 w Hwf Hr) as Hc.
  destruct (channel_Notify cfg w Hc) as (_ & _ & _ & Hrun).
  rewrite Hcfg, Hmax in Hrun. apply Hrun.
Qed.

(** The registration of the object's token is gone after [Close]. *)
Lemma Close_releases_registration (cfg : Config) (w : W) :
  l_pool (layer (snd (Close cfg w))) !! mReadWatch (self w) = None.
Proof.
  destruct (Close_trace_order cfg w) as (_ & _ & _ & ->).
  cbn [StopWatchingSocket Layer_LayerSockets]. unfold layer_stop.
  destruct (l_pool (layer w) !! mReadWatch (self w)) eqn:E; cbn.
  - apply lookup_delete_eq.
  - exact E.
Qed.

End Reference.

(** C7.  For every variant: in every run of [Close], on every operating
    system and system layer, the first thing [Close] does is release the
    watch with [StopWatchingSocket] on the object's token; every [close]
    of a descriptor comes after it in the trace, and nothing between them
    touches the system layer.  On the reference layer the object's
    registration is no longer in the pool of watches when the descriptors
    are closed. *)
Theorem Close_stops_watching_before_close :
  (forall (K L : Type) (OSK : Posix K) (LSL : LayerSockets L) (cfg : Config) (w : World K L),
     exists rest,
       trace (snd (Close cfg w)) = trace w ++ EvStopWatching (mReadWatch (self w)) :: rest /\
       Forall (fun e => is_close e = true \/ e = EvDie) rest /\
       layer (snd (Close cfg w)) = snd (StopWatchingSocket (mReadWatch (self w)) (layer w))) /\
  (forall (cfg : Config) (w : World Kernel Layer),
     l_pool (snd (StopWatchingSocket (mReadWatch (self w)) (layer w))) !! mReadWatch (self w)
     = None).
Proof.
  split.
  - intros K L OSK LSL cfg w. apply Close_trace_order.
  - intros cfg w. destruct (Close_trace_order cfg w) as (_ & _ & _ & <-).
    apply Close_releases_registration.
Qed.

(** * Properties of the WiFi driver *)

(** [memcmp] decides equality of the bytes compared: over [n] bytes of
    arrays that hold them, it is 0 exactly when the two prefixes are the
    same bytes. *)
Lemma memcmp_0_iff_take (a b : list byte) (n : nat) :
  length a = n -> (n <= length b)%nat ->
  memcmp a b n = 0 <-> a = take n b.
Proof.
  revert a b. induction n as [|n IH]; intros a b Ha Hb.
  - destruct a; [|discriminate Ha]. destruct b; cbn; split; reflexivity.
  - destruct a as [|x a]; [discriminate Ha|].
    destruct b as [|y b]; [cbn in Hb; lia|].
    cbn in Ha, Hb. cbn [memcmp firstn].
    destruct (N.eqb_spec (Byte.to_N x) (Byte.to_N y)) as [E|E].
    + assert (Hxy : x = y).
      { pose proof (Byte.of_to_N x) as Hx. rewrite E, Byte.of_to_N in Hx. congruence. }
      subst y. rewrite (IH a b) by lia. split; [intros ->; reflexivity | intros [= H]; exact H].
    + split; [intros H; exfalso; apply E; lia | intros [= -> _]; contradiction].
Qed.

(** [NetworkMatch] compares SSIDs: for a record whose SSID length is
    within its array, an identifier matches exactly when it is the
    record's SSID, byte for byte. *)
Lemma NetworkMatch_iff_ssid (network : WiFiNetwork) (networkId : list byte) :
  0 <= ssidLen network ->
  (Z.to_nat (ssidLen network) <= length (ssid network))%nat ->
  NetworkMatch network networkId = true
  <-> networkId = take (Z.to_nat (ssidLen network)) (ssid network).
Proof.
  intros H0 Hle. unfold NetworkMatch. rewrite andb_true_iff, !Z.eqb_eq. split.
  - intros [Hlen Hcmp].
    assert (Hl : length networkId = Z.to_nat (ssidLen network)) by lia.
    apply (memcmp_0_iff_take _ _ _ Hl Hle). exact Hcmp.
  - intros Heq.
    assert (Hlen : length networkId = Z.to_nat (ssidLen network))
      by (rewrite Heq, length_take; lia).
    split; [lia|]. apply (memcmp_0_iff_take _ _ _ Hlen Hle). exact Heq.
Qed.

Section WiFiProperties.
Variables kMaxWiFiSSIDLength kMaxWiFiKeyLength : nat.
Context {S : Type} `{KVS : KeyValueStoreManager S}.

(** C9.  The driver holds at most one network: in every driver state
    with a staged network ([ssidLen] not 0, and within the SSID array),
    [AddOrUpdateNetwork] with an SSID other than the staged SSID, that
    is, other than the first [ssidLen] bytes of the staged array, returns
    [kBoundsExceeded] and leaves the driver, the staged network included,
    as it was; and [Count] is never more than 1. *)
Theorem at_most_one_network (d : NuttxWiFiDriver) (ssid_in credentials_in : list byte)
    (outDebugText : string) :
  ssidLen (mStagingNetwork d) <> 0 ->
  (Z.to_nat (ssidLen (mStagingNetwork d)) <= length (ssid (mStagingNetwork d)))%nat ->
  ssid_in <> take (Z.to_nat (ssidLen (mStagingNetwork d))) (ssid (mStagingNetwork d)) ->
  AddOrUpdateNetwork kMaxWiFiSSIDLength kMaxWiFiKeyLength ssid_in credentials_in
    outDebugText d = (kBoundsExceeded, EmptyString, 0, d) /\
  forall d' : NuttxWiFiDriver, 0 <= Count d' <= 1.
Proof.
  intros Hlen Hle Hne. split.
  - assert (Hmatch : NetworkMatch (mStagingNetwork d) ssid_in = false).
    { apply not_true_is_false. intros Hm.
      destruct (Z.le_gt_cases 0 (ssidLen (mStagingNetwork d))) as [H0|H0].
      - apply Hne. apply (NetworkMatch_iff_ssid _ _ H0 Hle). exact Hm.
      - unfold NetworkMatch in Hm. apply andb_true_iff in Hm. destruct Hm as [Hm _].
        apply Z.eqb_eq in Hm. lia. }
    unfold AddOrUpdateNetwork. rewrite Hmatch.
    destruct (Z.eqb_spec (ssidLen (mStagingNetwork d)) 0) as [E|E]; [contradiction|].
    reflexivity.
  - intros d'. unfold Count. destruct (ssidLen (mStagingNetwork d') =? 0); lia.
Qed.

(** C10.  In every driver state: when [CommitConfiguration] returns
    CHIP_NO_ERROR, the saved network equals the staging network, which
    the commit did not change, and [RevertConfiguration] right after
    it leaves the whole driver state as it is; and
    [RevertConfiguration] twice is [RevertConfiguration] once. *)
Theorem revert_after_commit (w w' : DriverWorld S) :
  CommitConfiguration w = (CHIP_NO_ERROR, w') ->
  mSavedNetwork (driver w') = mStagingNetwork (driver w') /\
  mStagingNetwork (driver w') = mStagingNetwork (driver w) /\
  RevertConfiguration w' = (CHIP_NO_ERROR, w') /\
  forall v : DriverWorld S,
    RevertConfiguration (snd (RevertConfiguration v)) = RevertConfiguration v.
Proof.
  unfold CommitConfiguration.
  destruct (Put kWiFiSSIDKeyName _ (kvs w)) as [e1 s1].
  destruct (bool_decide_reflect (e1 = CHIP_NO_ERROR)) as [->|Hn1]; cbn [negb].
  2:{ intros [= ? _]. contradiction. }
  destruct (Put kWiFiCredentialsKeyName _ s1) as [e2 s2].
  destruct (bool_decide_reflect (e2 = CHIP_NO_ERROR)) as [->|Hn2]; cbn [negb].
  2:{ intros [= ? _]. contradiction. }
  intros [= <-]. repeat split.
Qed.

End WiFiProperties.

(** * The statements at concrete inputs *)

Lemma kernel_wf_boot (pipe_size : Z) : 0 < pipe_size -> kernel_wf (boot pipe_size).
Proof.
  intros Hs. split; [exact Hs|].
  intros p b H. cbn in H. rewrite lookup_empty in H. discriminate.
Defined.

Lemma reachable_run_notifies (cfg : Config) (w0 w : World Kernel Layer) (n : nat) :
  reachable cfg w0 w -> reachable cfg w0 (run_notifies cfg n w).
Proof.
  revert w. induction n as [|n IH]; intros w Hr; [exact Hr|].
  cbn [run_notifies]. apply IH. apply reach_notify. exact Hr.
Defined.

(** C2.  The event-counter scenario, run on the code: on a freshly
    booted system [Open] succeeds, three [Notify] leave the counter at 3
    and one [Confirm] returns with the counter back at 0, all as
    expected; the second [Confirm] right after does not observe
    would-block.  Its read does not return, because [Open] creates the
    descriptor by [eventfd(0, 0)], without the non-blocking flag that
    the would-block tests of [Confirm] and [Notify] presuppose and that
    the pipe variants set. *)
Lemma eventfd_second_Confirm_blocks :
  fst (Open cfg_eventfd (world0 256)) = Ret CHIP_NO_ERROR /\
  signal eventfd_after_three = 3 /\
  fst (Confirm cfg_eventfd 1 eventfd_after_three) = Ret tt /\
  signal eventfd_confirmed = 0 /\
  fst (Confirm cfg_eventfd 1 eventfd_confirmed) = Halted Blocked /\
  ~ confirm_observes_would_block cfg_eventfd 1 eventfd_confirmed.
Proof.
  assert (Hb : fst (Confirm cfg_eventfd 1 eventfd_confirmed) = Halted Blocked)
    by (vm_compute; reflexivity).
  repeat (apply conj); try (vm_compute; reflexivity).
  intros (c & w' & Hc & _). rewrite Hc in Hb. discriminate Hb.
Qed.

(** C5.  [Notify] on the reopen-and-retry path, run on the code: on a
    freshly booted system with a FIFO of 256 bytes, after [Open] and 256
    [Notify] of the named-FIFO variant the FIFO is full; [Notify] called
    by a producer in another task then fails its first write with EBADF,
    reopens the FIFO with [O_WRONLY] alone, where [Open] passes
    [O_WRONLY | O_NONBLOCK], and its retried write does not return: this
    [Notify] never comes back to its caller. *)
Lemma Notify_fifo_retry_blocks :
  fst (Open cfg_fifo (world0 256)) = Ret CHIP_NO_ERROR /\
  signal fifo_full = 256 /\
  fst (Notify cfg_fifo fifo_full_other_task) = Halted Blocked /\
  drop (length (trace fifo_full_other_task)) (trace (snd (Notify cfg_fifo fifo_full_other_task))) =
    [EvSys (c_write 4 [byte_one]) (Some (-1));
     EvSys (c_open kChipEventFifoPath O_WRONLY) (Some 5);
     EvSys (c_write 5 [byte_one]) None] /\
  ~ (exists err w', Notify cfg_fifo fifo_full_other_task = (Ret err, w')).
Proof.
  assert (Hb : fst (Notify cfg_fifo fifo_full_other_task) = Halted Blocked)
    by (vm_compute; reflexivity).
  repeat (apply conj); try (vm_compute; reflexivity).
  intros (err & w' & Hn). rewrite Hn in Hb. discriminate Hb.
Qed.

(** The event-counter variant also blocks in [Notify]: after 2^64 - 2
    notifications without a [Confirm] the counter is at its maximum and
    the next [Notify] does not return. *)
Lemma Notify_eventfd_blocks_when_saturated :
  fst (Notify cfg_eventfd
         (run_notifies cfg_eventfd (Z.to_nat counter_max) (opened cfg_eventfd 256)))
  = Halted Blocked.
Proof.
  assert (HO : Open cfg_eventfd (world0 256) = (Ret CHIP_NO_ERROR, opened cfg_eventfd 256))
    by (vm_compute; reflexivity).
  assert (Hwf : kernel_wf (os (world0 256))) by (apply kernel_wf_boot; lia).
  destruct (Open_channel cfg_eventfd _ _ Hwf HO) as (Hc & Hz).
  specialize (Hz eq_refl).
  assert (Hpos : 0 <= counter_max) by (unfold counter_max; lia).
  destruct (run_notifies_counts cfg_eventfd _ eq_refl Hc (Z.to_nat counter_max)) as (Hs & _).
  { rewrite Z2Nat.id by exact Hpos. lia. }
  apply (Notify_blocks_at_counter_max cfg_eventfd (world0 256)).
  - exact Hwf.
  - apply reachable_run_notifies. apply reach_open. exact HO.
  - reflexivity.
  - rewrite Hs, Hz, Z2Nat.id by exact Hpos. lia.
Qed.

(** The pipe scenario: [Open] yields the read descriptor 3 and the write
    descriptor 4; [Notify] writes one byte; the read side polls ready;
    [Confirm] reads the byte; the read side polls not ready. *)
Example pipe_scenario :
  self (opened cfg_pipe 256) = mkWakeEvent 3 4 1 /\
  readable (opened cfg_pipe 256) = false /\
  Notify cfg_pipe (opened cfg_pipe 256)
    = (Ret CHIP_NO_ERROR, run_notifies cfg_pipe 1 (opened cfg_pipe 256)) /\
  readable (run_notifies cfg_pipe 1 (opened cfg_pipe 256)) = true /\
  fst (Confirm cfg_pipe 1 (run_notifies cfg_pipe 1 (opened cfg_pipe 256))) = Ret tt /\
  readable (snd (Confirm cfg_pipe 1 (run_notifies cfg_pipe 1 (opened cfg_pipe 256)))) = false.
Proof. repeat (apply conj); vm_compute; reflexivity. Qed.

(** A pipe holding exactly 128 bytes needs a second round of the loop,
    whose read meets the would-block condition. *)
Example pipe_exactly_one_buffer :
  signal (run_notifies cfg_pipe 128 (opened cfg_pipe 256)) = 128 /\
  fst (Confirm cfg_pipe 1 (run_notifies cfg_pipe 128 (opened cfg_pipe 256))) = Halted OutOfFuel /\
  fst (Confirm cfg_pipe 2 (run_notifies cfg_pipe 128 (opened cfg_pipe 256))) = Ret tt /\
  drop 136 (trace (snd (Confirm cfg_pipe 2 (run_notifies cfg_pipe 128 (opened cfg_pipe 256)))))
    = [EvSys (c_read 3 128) (Some 128); EvSys (c_read 3 128) (Some (-1))] /\
  signal (snd (Confirm cfg_pipe 2 (run_notifies cfg_pipe 128 (opened cfg_pipe 256)))) = 0.
Proof. repeat (apply conj); vm_compute; reflexivity. Qed.

(** C1 at a concrete input: the anonymous pipe, three notifications. *)
Lemma Confirm_drains_all_notifies_witness :
  kernel_wf (os (world0 256)) /\
  Open cfg_pipe (world0 256) = (Ret CHIP_NO_ERROR, opened cfg_pipe 256) /\
  (1 <= 3)%nat /\
  readable (run_notifies cfg_pipe 3 (opened cfg_pipe 256)) = true /\
  forall fuel : nat,
    (Z.to_nat (signal (run_notifies cfg_pipe 3 (opened cfg_pipe 256)) / sizeof_buffer) < fuel)%nat ->
    exists w',
      Confirm cfg_pipe fuel (run_notifies cfg_pipe 3 (opened cfg_pipe 256)) = (Ret tt, w') /\
      signal w' = 0 /\
      readable w' = false.
Proof.
  assert (H1 : kernel_wf (os (world0 256))) by (apply kernel_wf_boot; lia).
  assert (H2 : Open cfg_pipe (world0 256) = (Ret CHIP_NO_ERROR, opened cfg_pipe 256))
    by (vm_compute; reflexivity).
  assert (H3 : (1 <= 3)%nat) by lia.
  split; [exact H1|]. split; [exact H2|]. split; [exact H3|].
  exact (Confirm_drains_all_notifies cfg_pipe (world0 256) (opened cfg_pipe 256) 3 H1 H2 H3).
Defined.

(** The event-counter scenario at a concrete input: three notifications,
    then two confirmations. *)
Lemma eventfd_counter_scenario_witness :
  CHIP_SYSTEM_CONFIG_USE_POSIX_PIPE cfg_eventfd = false /\
  Open cfg_eventfd (world0 256) = (Ret CHIP_NO_ERROR, opened cfg_eventfd 256) /\
  (1 <= 3)%nat /\
  Z.of_nat 3 <= counter_max /\
  signal (run_notifies cfg_eventfd 3 (opened cfg_eventfd 256)) = Z.of_nat 3.
Proof.
  assert (H1 : CHIP_SYSTEM_CONFIG_USE_POSIX_PIPE cfg_eventfd = false) by reflexivity.
  assert (H2 : Open cfg_eventfd (world0 256) = (Ret CHIP_NO_ERROR, opened cfg_eventfd 256))
    by (vm_compute; reflexivity).
  assert (H3 : (1 <= 3)%nat) by lia.
  assert (H4 : Z.of_nat 3 <= counter_max) by (vm_compute; discriminate).
  split; [exact H1|]. split; [exact H2|]. split; [exact H3|]. split; [exact H4|].
  exact (proj1 (proj2 (proj2
    (eventfd_counter_scenario cfg_eventfd (world0 256) (opened cfg_eventfd 256) 3 1
       H1 H2 H3 H4)))).
Defined.


(** C4 at a concrete input: a producer in another task, the FIFO not
    full: the first write fails with EBADF, the retry succeeds. *)
Lemma Notify_fifo_retries_once_witness :
  CHIP_SYSTEM_CONFIG_USE_POSIX_PIPE cfg_fifo = true /\
  CHIP_SYSTEM_CONFIG_WAKE_EVENT_USE_FIFO cfg_fifo = true /\
  primary_write cfg_fifo fifo_other_task
    = (Ret (-1), snd (primary_write cfg_fifo fifo_other_task)) /\
  -1 < 0 /\
  ~ would_block (errno (os (snd (primary_write cfg_fifo fifo_other_task)))) /\
  exists evs,
    trace (snd (Notify cfg_fifo fifo_other_task))
      = trace (snd (primary_write cfg_fifo fifo_other_task)) ++ evs /\
    fifo_retry evs (fst (Notify cfg_fifo fifo_other_task))
      (errno (os (snd (Notify cfg_fifo fifo_other_task)))).
Proof.
  assert (H1 : CHIP_SYSTEM_CONFIG_USE_POSIX_PIPE cfg_fifo = true) by reflexivity.
  assert (H2 : CHIP_SYSTEM_CONFIG_WAKE_EVENT_USE_FIFO cfg_fifo = true) by reflexivity.
  assert (H3 : primary_write cfg_fifo fifo_other_task
               = (Ret (-1), snd (primary_write cfg_fifo fifo_other_task)))
    by (vm_compute; reflexivity).
  assert (H4 : -1 < 0) by lia.
  assert (H5 : ~ would_block (errno (os (snd (primary_write cfg_fifo fifo_other_task))))).
  { assert (E : errno (os (snd (primary_write cfg_fifo fifo_other_task))) = EBADF)
      by (vm_compute; reflexivity).
    rewrite E. intros [H|H]; discriminate H. }
  split; [exact H1|]. split; [exact H2|]. split; [exact H3|]. split; [exact H4|].
  split; [exact H5|].
  exact (Notify_fifo_retries_once cfg_fifo fifo_other_task _ (-1) H1 H2 H3 H4 H5).
Defined.

(** [Notify] in the opening task at a concrete input: the named FIFO
    after two notifications. *)
Lemma Notify_returns_without_blocking_witness :
  kernel_wf (os (world0 256)) /\
  reachable cfg_fifo (world0 256) (run_notifies cfg_fifo 2 (opened cfg_fifo 256)) /\
  (CHIP_SYSTEM_CONFIG_USE_POSIX_PIPE cfg_fifo = true \/
   signal (run_notifies cfg_fifo 2 (opened cfg_fifo 256)) < counter_max) /\
  exists w' ev,
    Notify cfg_fifo (run_notifies cfg_fifo 2 (opened cfg_fifo 256)) = (Ret CHIP_NO_ERROR, w') /\
    trace w' = trace (run_notifies cfg_fifo 2 (opened cfg_fifo 256)) ++ [ev].
Proof.
  assert (H1 : kernel_wf (os (world0 256))) by (apply kernel_wf_boot; lia).
  assert (H2 : reachable cfg_fifo (world0 256) (run_notifies cfg_fifo 2 (opened cfg_fifo 256))).
  { apply reachable_run_notifies. apply reach_open. vm_compute. reflexivity. }
  assert (H3 : CHIP_SYSTEM_CONFIG_USE_POSIX_PIPE cfg_fifo = true \/
               signal (run_notifies cfg_fifo 2 (opened cfg_fifo 256)) < counter_max)
    by (left; reflexivity).
  split; [exact H1|]. split; [exact H2|]. split; [exact H3|].
  exact (Notify_returns_without_blocking cfg_fifo (world0 256) _ H1 H2 H3).
Defined.

(** C9 at a concrete input: [home] is staged, [work] is offered. *)
Lemma at_most_one_network_witness :
  ssidLen (mStagingNetwork home_driver) <> 0 /\
  work_ssid <> take (Z.to_nat (ssidLen (mStagingNetwork home_driver)))
                 (ssid (mStagingNetwork home_driver)) /\
  AddOrUpdateNetwork 32 64 work_ssid [] EmptyString home_driver
    = (kBoundsExceeded, EmptyString, 0, home_driver) /\
  forall d' : NuttxWiFiDriver, 0 <= Count d' <= 1.
Proof.
  assert (H1 : ssidLen (mStagingNetwork home_driver) <> 0) by (vm_compute; discriminate).
  assert (H2 : (Z.to_nat (ssidLen (mStagingNetwork home_driver))
                <= length (ssid (mStagingNetwork home_driver)))%nat)
    by (vm_compute; lia).
  assert (H3 : work_ssid <> take (Z.to_nat (ssidLen (mStagingNetwork home_driver)))
                              (ssid (mStagingNetwork home_driver)))
    by (vm_compute; discriminate).
  split; [exact H1|]. split; [exact H3|].
  exact (at_most_one_network 32 64 home_driver work_ssid [] EmptyString H1 H2 H3).
Defined.

(** C10 at a concrete input: [home] is staged and committed to an empty
    store. *)
Lemma revert_after_commit_witness :
  CommitConfiguration (mkDriverWorld home_driver empty_store)
    = (CHIP_NO_ERROR, snd (CommitConfiguration (mkDriverWorld home_driver empty_store))) /\
  RevertConfiguration (snd (CommitConfiguration (mkDriverWorld home_driver empty_store)))
    = (CHIP_NO_ERROR, snd (CommitConfiguration (mkDriverWorld home_driver empty_store))).
Proof.
  assert (H1 : CommitConfiguration (mkDriverWorld home_driver empty_store)
               = (CHIP_NO_ERROR,
                  snd (CommitConfiguration (mkDriverWorld home_driver empty_store))))
    by (vm_compute; reflexivity).
  split; [exact H1|].
  exact (proj1 (proj2 (proj2 (revert_after_commit _ _ H1)))).
Defined.

(** * Further properties of the wake event, for every operating system
      and system layer *)

Section GenericMore.
Context {K L : Type} `{OSK : Posix K} `{LSL : LayerSockets L}.

Local Abbreviation MM := (@M K L).

(** *** Rules for the events a computation appends *)

Lemma emits_ret {A} P (a : A) : emits P (ret a : MM A).
Proof. intros w. exists []. split; [symmetry; apply app_nil_r | reflexivity]. Qed.

Lemma emits_bind {A B} P (m : MM A) (f : A -> MM B) :
  emits P m -> (forall a, emits P (f a)) -> emits P (bind m f).
Proof.
  intros Hm Hf w. unfold bind. destruct (Hm w) as (e1 & H1 & P1).
  destruct (m w) as [[a|h] w1]; cbn [snd] in *.
  - destruct (Hf a w1) as (e2 & H2 & P2). exists (e1 ++ e2).
    split; [rewrite H2, H1, app_assoc; reflexivity|].
    rewrite forallb_app, P1, P2. reflexivity.
  - exists e1. split; assumption.
Qed.

Lemma emits_if {A} P (b : bool) (m1 m2 : MM A) :
  emits P m1 -> emits P m2 -> emits P (if b then m1 else m2).
Proof. destruct b; auto. Qed.

Lemma emits_this P : emits P (this : MM WakeEvent).
Proof. intros w. exists []. split; [symmetry; apply app_nil_r | reflexivity]. Qed.

Lemma emits_get_errno P : emits P (get_errno : MM Errno).
Proof. intros w. exists []. split; [symmetry; apply app_nil_r | reflexivity]. Qed.

Lemma emits_assign_mReadFD P fd : emits P (assign_mReadFD fd : MM unit).
Proof. intros w. exists []. split; [symmetry; apply app_nil_r | reflexivity]. Qed.

Lemma emits_assign_mWriteFD P fd : emits P (assign_mWriteFD fd : MM unit).
Proof. intros w. exists []. split; [symmetry; apply app_nil_r | reflexivity]. Qed.

Lemma emits_syscall (P : Event -> bool) c f :
  (forall r, P (EvSys c r) = true) -> emits P (syscall c f : MM Z).
Proof.
  intros HP w. unfold syscall. destruct (f (os w)) as [[v|] k]; cbn [snd];
    eexists [_]; (split; [reflexivity|]); cbn; rewrite HP; reflexivity.
Qed.

Lemma emits_sys_pipe (P : Event -> bool) :
  (forall r, P (EvSys c_pipe r) = true) -> emits P (sys_pipe : MM (Z * (Z * Z))).
Proof.
  intros HP w. unfold sys_pipe. destruct (posix_pipe (os w)) as [[[v|] fds] k]; cbn [snd];
    eexists [_]; (split; [reflexivity|]); cbn; rewrite HP; reflexivity.
Qed.

Lemma emits_ChipLogError (P : Event -> bool) msg :
  P (EvLog msg) = true -> emits P (ChipLogError msg : MM unit).
Proof.
  intros HP w. eexists [_]. split; [reflexivity|]. cbn. rewrite HP. reflexivity.
Qed.

Lemma emits_StartWatchingSocket (P : Event -> bool) fd :
  (forall t e, P (EvStartWatching fd t e) = true) ->
  emits P (layer_StartWatchingSocket fd : MM CHIP_ERROR).
Proof.
  intros HP w. unfold layer_StartWatchingSocket.
  destruct (StartWatchingSocket _ _ _) as [[e t] l]. cbn [snd].
  eexists [_]. split; [reflexivity|]. cbn. rewrite HP. reflexivity.
Qed.

Lemma emits_SetCallback (P : Event -> bool) tok cb :
  (forall e, P (EvSetCallback tok e) = true) ->
  emits P (layer_SetCallback tok cb : MM CHIP_ERROR).
Proof.
  intros HP w. unfold layer_SetCallback.
  destruct (SetCallback _ _ _) as [e l]. cbn [snd].
  eexists [_]. split; [reflexivity|]. cbn. rewrite HP. reflexivity.
Qed.

Lemma emits_RequestCallbackOnPendingRead (P : Event -> bool) tok :
  (forall e, P (EvRequestCallbackOnPendingRead tok e) = true) ->
  emits P (layer_RequestCallbackOnPendingRead tok : MM CHIP_ERROR).
Proof.
  intros HP w. unfold layer_RequestCallbackOnPendingRead.
  destruct (RequestCallbackOnPendingRead _ _) as [e l]. cbn [snd].
  eexists [_]. split; [reflexivity|]. cbn. rewrite HP. reflexivity.
Qed.

Lemma bind_assoc {A B C} (m : MM A) (f : A -> MM B) (g : B -> MM C) w :
  bind (bind m f) g w = bind m (fun a => bind (f a) g) w.
Proof.
  unfold bind. destruct (m w) as [[a|h] w1]; reflexivity.
Qed.

(** Discharge an [emits] goal rule by rule. *)
Ltac emits_auto :=
  repeat first
    [ apply emits_bind; [| intros ?]
    | apply emits_if
    | apply emits_ret
    | apply emits_this
    | apply emits_get_errno
    | apply emits_assign_mReadFD
    | apply emits_assign_mWriteFD
    | apply emits_syscall; intros ?; reflexivity
    | apply emits_sys_pipe; intros ?; reflexivity
    | apply emits_ChipLogError; reflexivity
    | apply emits_StartWatchingSocket; intros ? ?; reflexivity
    | apply emits_SetCallback; intros ?; reflexivity
    | apply emits_RequestCallbackOnPendingRead; intros ?; reflexivity
    | match goal with |- emits _ (let '(_, _) := ?p in _) => destruct p as [? [? ?]] end ].

(** X15.  [Open] closes nothing: on every path of every variant, the
    failing ones included, [Open] issues no [close]; a descriptor created
    before a later step fails stays open. *)
Theorem Open_never_closes (cfg : Config) (w : World K L) :
  exists evs,
    trace (snd (Open cfg w)) = trace w ++ evs /\
    forallb (fun e => negb (is_close e)) evs = true.
Proof.
  revert w. change (emits (fun e => negb (is_close e)) (Open cfg : MM CHIP_ERROR)).
  unfold Open, Open_pipe, Open_eventfd, Open_register, ReturnErrorOnFailure,
    SetNonBlockingMode, sys_mkfifo, sys_open, sys_fcntl, sys_eventfd.
  emits_auto.
Qed.

Lemma would_block_of_false (e : Errno) : not_would_block e = false -> would_block e.
Proof.
  unfold not_would_block, would_block.
  destruct e; cbn; intros H; try discriminate H; auto.
Qed.

(** X16.  The shape of every run of the pipe [Confirm]: it reads
    [sizeof(buffer)] bytes from the read descriptor again and again, as
    long as each read returns a full buffer; the first read that returns
    anything else ends it, with one log entry when that read failed for a
    reason other than would-block.  It makes no other call, and at most
    as many full reads as the unrolling bound. *)
Theorem Confirm_pipe_reads_until_short (fuel : nat) (w : World K L) :
  exists (n : nat) (rest : list Event),
    (n <= fuel)%nat /\
    trace (snd (Confirm_pipe fuel w))
      = trace w ++ replicate n (full_read (mReadFD (self w))) ++ rest /\
    confirm_end (mReadFD (self w)) (errno (os (snd (Confirm_pipe fuel w)))) rest
      (fst (Confirm_pipe fuel w)) /\
    (fst (Confirm_pipe fuel w) = Halted OutOfFuel -> n = fuel).
Proof.
  revert w. induction fuel as [|fuel IH]; intros w.
  - exists 0%nat, []. cbn. rewrite app_nil_r.
    split; [lia|]. split; [reflexivity|]. split; [constructor | reflexivity].
  - cbn [Confirm_pipe]. rewrite bind_this.
    destruct (sys_read (mReadFD (self w)) sizeof_buffer w) as [o1 w1] eqn:E.
    destruct (syscall_inv _ _ _ _ _ E) as ([r|] & k & _ & Hw1 & ->).
    2:{ rewrite (bind_Halted _ _ _ _ _ E). subst w1. exists 0%nat, [EvSys (c_read (mReadFD (self w)) sizeof_buffer) None].
        split; [lia|]. split; [reflexivity|]. split; [constructor | discriminate]. }
    rewrite (bind_Ret _ _ _ _ _ E), bind_get_errno.
    destruct ((r <? 0) && not_would_block (errno (os w1))) eqn:Ec.
    { apply andb_true_iff in Ec. destruct Ec as (Hr & Hnwb). apply Z.ltb_lt in Hr.
      rewrite bind_ChipLogError. unfold ret. cbn [fst snd].
      exists 0%nat, [EvSys (c_read (mReadFD (self w)) sizeof_buffer) (Some r);
                      EvLog "System wake event confirm failed"].
      split; [lia|]. split; [subst w1; cbn; rewrite <- app_assoc; reflexivity|].
      split; [|discriminate].
      apply confirm_failed; [exact Hr|].
      intros Hwb. change (would_block (errno (os w1))) in Hwb.
      rewrite (not_would_block_false _ Hwb) in Hnwb. discriminate Hnwb. }
    destruct (Z.eqb_spec r sizeof_buffer) as [Hfull|Hshort].
    + destruct (IH w1) as (n & rest & Hn & Ht & He & Hf).
      assert (Hself : self w1 = self w) by (subst w1; reflexivity).
      rewrite Hself in Ht, He.
      exists (S n), rest. split; [lia|]. split.
      { rewrite Ht. subst w1 r. cbn [trace emit set_os replicate].
        rewrite <- app_assoc. reflexivity. }
      split; [exact He|]. intros Ho. rewrite (Hf Ho). reflexivity.
    + unfold ret. cbn [fst snd].
      exists 0%nat, [EvSys (c_read (mReadFD (self w)) sizeof_buffer) (Some r)].
      split; [lia|]. split; [subst w1; reflexivity|]. split; [|discriminate].
      apply confirm_short; [exact Hshort|].
      apply andb_false_iff in Ec. destruct Ec as [Hr|Hnwb].
      * left. apply Z.ltb_ge. exact Hr.
      * right. apply would_block_of_false. exact Hnwb.
Qed.

(** X17.  Outside the named-FIFO variant [Notify] is a single call: it
    appends exactly one event to the trace, its write (one byte to the
    write end of the pipe, or the value 1 to the event descriptor); when
    the write does not return neither does [Notify]; when it returns a
    negative value with an [errno] other than would-block, [Notify]
    returns the POSIX error of that [errno]; in every other case it
    returns CHIP_NO_ERROR. *)
Theorem Notify_is_one_write (cfg : Config) (w : World K L) :
  CHIP_SYSTEM_CONFIG_USE_POSIX_PIPE cfg && CHIP_SYSTEM_CONFIG_WAKE_EVENT_USE_FIFO cfg = false ->
  exists r,
    trace (snd (Notify cfg w)) = trace w ++ [EvSys (notify_call cfg (self w)) r] /\
    fst (Notify cfg w) =
      match r with
      | None => Halted Blocked
      | Some v =>
          if (v <? 0) && not_would_block (errno (os (snd (Notify cfg w))))
          then Ret (CHIP_ERROR_POSIX (errno (os (snd (Notify cfg w)))))
          else Ret CHIP_NO_ERROR
      end.
Proof.
  intros Hcfg. unfold Notify, notify_call.
  destruct (CHIP_SYSTEM_CONFIG_USE_POSIX_PIPE cfg).
  - cbn [andb] in Hcfg. rewrite Hcfg. unfold Notify_pipe. rewrite bind_this.
    destruct (sys_write (mWriteFD (self w)) [byte_one] w) as [o1 w1] eqn:E.
    destruct (syscall_inv _ _ _ _ _ E) as ([r|] & k & _ & Hw1 & ->).
    + rewrite (bind_Ret _ _ _ _ _ E), bind_get_errno.
      exists (Some r).
      destruct ((r <? 0) && not_would_block (errno (os w1))) eqn:Ec;
        unfold ret; cbn [fst snd]; rewrite Ec; (split; [subst w1; reflexivity | reflexivity]).
    + rewrite (bind_Halted _ _ _ _ _ E). cbn [fst snd].
      exists None. split; [subst w1; reflexivity | reflexivity].
  - unfold Notify_eventfd. rewrite bind_this.
    destruct (WriteEvent (CHIP_SYSTEM_CONFIG_USE_ZEPHYR_EVENTFD cfg) (mReadFD (self w)) w)
      as [o1 w1] eqn:E.
    assert (Hinv : exists r k,
              w1 = emit (EvSys (if CHIP_SYSTEM_CONFIG_USE_ZEPHYR_EVENTFD cfg
                                then c_eventfd_write (mReadFD (self w)) 1
                                else c_write (mReadFD (self w)) (uint64_bytes 1)) r)
                     (set_os k w) /\
              o1 = match r with Some v => Ret v | None => Halted Blocked end).
    { unfold WriteEvent in E.
      destruct (CHIP_SYSTEM_CONFIG_USE_ZEPHYR_EVENTFD cfg);
        destruct (syscall_inv _ _ _ _ _ E) as (r & k & _ & Hw1 & Ho); eauto. }
    destruct Hinv as ([r|] & k & Hw1 & ->).
    + rewrite (bind_Ret _ _ _ _ _ E), bind_get_errno.
      exists (Some r).
      destruct ((r <? 0) && not_would_block (errno (os w1))) eqn:Ec;
        unfold ret; cbn [fst snd]; rewrite Ec; (split; [subst w1; reflexivity | reflexivity]).
    + rewrite (bind_Halted _ _ _ _ _ E). cbn [fst snd].
      exists None. split; [subst w1; reflexivity | reflexivity].
Qed.

(** *** A successful Open *)

Lemma Open_register_success (wp w1 : World K L) :
  Open_register wp = (Ret CHIP_NO_ERROR, w1) ->
  trace w1 = trace wp ++ registration (mReadFD (self w1)) (mReadWatch (self w1)) /\
  mReadFD (self w1) = mReadFD (self wp) /\
  mWriteFD (self w1) = mWriteFD (self wp) /\
  os w1 = os wp.
Proof.
  unfold Open_register, ReturnErrorOnFailure, bind, this, ret,
    layer_StartWatchingSocket, layer_SetCallback, layer_RequestCallbackOnPendingRead.
  destruct (StartWatchingSocket _ _ _) as [[e1 tok] l1].
  destruct (bool_decide_reflect (e1 = CHIP_NO_ERROR)) as [->|Hn];
    [|intros [= ? _]; contradiction].
  cbn [self set_self emit set_layer layer mReadWatch mReadFD].
  destruct (SetCallback _ _ _) as [e2 l2].
  destruct (bool_decide_reflect (e2 = CHIP_NO_ERROR)) as [->|Hn];
    [|intros [= ? _]; contradiction].
  cbn [self set_self emit set_layer layer mReadWatch mReadFD].
  destruct (RequestCallbackOnPendingRead _ _) as [e3 l3].
  destruct (bool_decide_reflect (e3 = CHIP_NO_ERROR)) as [->|Hn];
    [|intros [= ? _]; contradiction].
  intros [= <-]. cbn. rewrite <- !app_assoc. repeat split.
Qed.

Lemma sys_pipe_inv (w w' : World K L) o :
  sys_pipe w = (o, w') ->
  exists r fds k,
    w' = emit (EvSys c_pipe r) (set_os k w) /\
    o = match r with Some v => Ret (v, fds) | None => Halted Blocked end.
Proof.
  unfold sys_pipe. destruct (posix_pipe (os w)) as [[[v|] fds] k]; intros [= <- <-].
  - exists (Some v), fds, k. split; reflexivity.
  - exists None, fds, k. split; reflexivity.
Qed.

(** Peel one system call off the front of a run that is known to have
    returned. *)
Ltac returned_call H :=
  match type of H with
  | bind (syscall ?c ?f) _ ?w = (Ret _, _) =>
      let o := fresh "o" in
      let w' := fresh "w" in
      let E := fresh "E" in
      let r := fresh "r" in
      let k := fresh "k" in
      let Hw := fresh "Hw" in
      destruct (syscall c f w) as [o w'] eqn:E;
      destruct (syscall_inv _ _ _ _ _ E) as ([r|] & k & _ & Hw & ->);
      [ rewrite (bind_Ret _ _ _ _ _ E) in H
      | rewrite (bind_Halted _ _ _ _ _ E) in H; discriminate H ]
  end.

Lemma Open_reaches_registration (cfg : Config) (w w1 : World K L) :
  Open cfg w = (Ret CHIP_NO_ERROR, w1) ->
  exists wp evs,
    Open_register wp = (Ret CHIP_NO_ERROR, w1) /\
    trace wp = trace w ++ evs /\
    forallb is_returned_call evs = true /\
    layer wp = layer w.
Proof.
  unfold Open. intros H.
  destruct (CHIP_SYSTEM_CONFIG_USE_POSIX_PIPE cfg).
  - unfold Open_pipe in H.
    destruct (CHIP_SYSTEM_CONFIG_WAKE_EVENT_USE_FIFO cfg).
    + unfold sys_mkfifo, sys_open in H.
      returned_call H. rewrite bind_get_errno in H.
      destruct (negb _); [discriminate H|].
      returned_call H.
      destruct (r0 =? -1); [discriminate H|].
      returned_call H.
      destruct (r1 =? -1); [discriminate H|].
      unfold bind at 1, assign_mReadFD in H. unfold bind at 1, assign_mWriteFD in H.
      eexists _, _. split; [exact H|].
      split; [subst; cbn [trace emit set_os set_self]; rewrite <- ?app_assoc; cbn [app];
              reflexivity|].
      split; [reflexivity | subst; reflexivity].
    + destruct (sys_pipe w) as [o wa] eqn:E.
      destruct (sys_pipe_inv _ _ _ E) as ([r|] & fds & k & Hwa & ->).
      2:{ rewrite (bind_Halted _ _ _ _ _ E) in H. discriminate H. }
      rewrite (bind_Ret _ _ _ _ _ E) in H. destruct fds as [fd_read fd_write].
      destruct (r <? 0); [discriminate H|].
      unfold SetNonBlockingMode, sys_fcntl in H.
      rewrite !bind_assoc in H.
      returned_call H. returned_call H.
      destruct (r1 <? 0); [discriminate H|].
      rewrite !bind_assoc in H.
      returned_call H. returned_call H.
      destruct (r3 <? 0); [discriminate H|].
      unfold bind at 1, assign_mReadFD in H. unfold bind at 1, assign_mWriteFD in H.
      eexists _, _. split; [exact H|].
      split; [subst; cbn [trace emit set_os set_self]; rewrite <- ?app_assoc; cbn [app];
              reflexivity|].
      split; [reflexivity | subst; reflexivity].
  - unfold Open_eventfd, sys_eventfd in H.
    returned_call H.
    unfold bind at 1, assign_mReadFD in H. rewrite bind_this in H.
    destruct (_ =? -1); [discriminate H|].
    eexists _, _. split; [exact H|].
    split; [subst; cbn [trace emit set_os set_self]; rewrite <- ?app_assoc; cbn [app];
            reflexivity|].
    split; [reflexivity | subst; reflexivity].
Qed.

(** X18.  What a successful [Open] has done: every system call it made
    returned; its last three actions are the registration of the read
    descriptor with the system layer, the installation of the [Confirm]
    callback and the request for a callback on pending read, each
    successful, in that order; and the token the object holds is the one
    these calls used. *)
Theorem Open_success_registers (cfg : Config) (w w1 : World K L) :
  Open cfg w = (Ret CHIP_NO_ERROR, w1) ->
  exists evs,
    trace w1 = trace w ++ evs ++ registration (mReadFD (self w1)) (mReadWatch (self w1)) /\
    forallb is_returned_call evs = true.
Proof.
  intros H.
  destruct (Open_reaches_registration cfg w w1 H) as (wp & evs & Hreg & Ht & Hall & _).
  destruct (Open_register_success wp w1 Hreg) as (Ht1 & _).
  exists evs. split; [|exact Hall].
  rewrite Ht1, Ht, <- app_assoc. reflexivity.
Qed.

End GenericMore.

(** * Further properties of the wake event on the reference system *)

Section ReferenceMore.

Local Abbreviation W := (World Kernel Layer).

Lemma Confirm_pipe_trace (fuel : nat) : forall (w : W) p,
  file_of (mReadFD (self w)) (os w) = Some (mkOpenFile (PipeReader p) true) ->
  file_of (mWriteFD (self w)) (os w) = Some (mkOpenFile (PipeWriter p) true) ->
  0 <= pipe_bytes p (os w) ->
  (Z.to_nat (pipe_bytes p (os w) / sizeof_buffer) < fuel)%nat ->
  trace (snd (Confirm_pipe fuel w))
    = trace w
      ++ replicate (Z.to_nat (pipe_bytes p (os w) / sizeof_buffer)) (full_read (mReadFD (self w)))
      ++ [EvSys (c_read (mReadFD (self w)) sizeof_buffer)
            (Some (if pipe_bytes p (os w) mod sizeof_buffer =? 0 then -1
                   else pipe_bytes p (os w) mod sizeof_buffer))].
Proof.
  induction fuel as [|fuel IH]; intros w p Hr Hw Hb Hfuel; [lia|].
  rewrite (Confirm_pipe_step fuel w p Hr Hw Hb). unfold sizeof_buffer in *.
  destruct (0 <? pipe_bytes p (os w)) eqn:E.
  - apply Z.ltb_lt in E. cbv zeta.
    destruct (Z.eqb_spec (Z.min (pipe_bytes p (os w)) 128) 128) as [En|En].
    + assert (Hge : 128 <= pipe_bytes p (os w)) by lia.
      set (w1 := emit _ _).
      assert (Hb1 : pipe_bytes p (os w1) = pipe_bytes p (os w) - 128).
      { unfold w1. cbn [os emit set_os]. rewrite pipe_bytes_insert. lia. }
      assert (Hdiv : pipe_bytes p (os w) / 128 = (pipe_bytes p (os w) - 128) / 128 + 1).
      { replace (pipe_bytes p (os w)) with ((pipe_bytes p (os w) - 128) + 1 * 128) at 1 by lia.
        rewrite Z.div_add by lia. reflexivity. }
      assert (Hmod : pipe_bytes p (os w) mod 128 = (pipe_bytes p (os w) - 128) mod 128).
      { replace (pipe_bytes p (os w)) with ((pipe_bytes p (os w) - 128) + 1 * 128) at 1 by lia.
        rewrite Z.mod_add by lia. reflexivity. }
      assert (Hnn : 0 <= (pipe_bytes p (os w) - 128) / 128) by (apply Z.div_pos; lia).
      rewrite (IH w1 p Hr Hw) by (rewrite ?Hb1; lia).
      rewrite Hb1, Hdiv, Hmod.
      replace (Z.to_nat ((pipe_bytes p (os w) - 128) / 128 + 1))
        with (S (Z.to_nat ((pipe_bytes p (os w) - 128) / 128))) by lia.
      unfold w1. cbn [trace emit set_os self replicate]. rewrite En.
      rewrite <- app_assoc. reflexivity.
    + assert (Hlt : pipe_bytes p (os w) < 128) by lia.
      rewrite Z.div_small, Z.mod_small by lia.
      replace (pipe_bytes p (os w) =? 0) with false by (symmetry; apply Z.eqb_neq; lia).
      rewrite Z.min_l by lia. reflexivity.
  - apply Z.ltb_ge in E. assert (Hz : pipe_bytes p (os w) = 0) by lia.
    rewrite Hz. reflexivity.
Qed.

(** X19.  The reads of [Confirm] on a pipe, counted: on the pipe
    variants of the reference system, with [b] bytes pending, [Confirm]
    makes exactly [b / 128] full reads followed by one last read, which
    returns the [b mod 128] remaining bytes, or meets would-block (-1)
    when [b] is a multiple of 128; it then returns, having logged
    nothing. *)
Theorem Confirm_reads_counted (cfg : Config) (fuel : nat) (w : W) :
  CHIP_SYSTEM_CONFIG_USE_POSIX_PIPE cfg = true ->
  channel cfg w ->
  (Z.to_nat (signal w / sizeof_buffer) < fuel)%nat ->
  fst (Confirm cfg fuel w) = Ret tt /\
  trace (snd (Confirm cfg fuel w))
    = trace w
      ++ replicate (Z.to_nat (signal w / sizeof_buffer)) (full_read (mReadFD (self w)))
      ++ [EvSys (c_read (mReadFD (self w)) sizeof_buffer)
            (Some (if signal w mod sizeof_buffer =? 0 then -1
                   else signal w mod sizeof_buffer))].
Proof.
  intros Hcfg Hc Hfuel.
  destruct (channel_Confirm cfg fuel w Hc) as (_ & Hrun). rewrite Hcfg in Hrun.
  split; [apply (Hrun Hfuel)|].
  unfold channel in Hc. rewrite Hcfg in Hc. destruct Hc as (p & Hr & Hw & Hb & _).
  unfold Confirm. rewrite Hcfg. rewrite (signal_pipe w p _ Hr) in *.
  apply Confirm_pipe_trace; assumption.
Qed.

Lemma Notify_pipe_signal (cfg : Config) (w : W) :
  CHIP_SYSTEM_CONFIG_USE_POSIX_PIPE cfg = true ->
  channel cfg w ->
  signal (snd (Notify cfg w))
    = (if signal w + 1 <=? k_pipe_size (os w) then signal w + 1 else signal w) /\
  k_pipe_size (os (snd (Notify cfg w))) = k_pipe_size (os w).
Proof.
  intros Hcfg Hc. unfold channel in Hc. rewrite Hcfg in Hc.
  destruct Hc as (p & Hr & Hw & Hb & Hs).
  unfold Notify. rewrite Hcfg, (Notify_pipe_run _ w p Hr Hw). cbn [snd].
  rewrite (signal_pipe w p _ Hr).
  destruct (pipe_bytes p (os w) + 1 <=? k_pipe_size (os w)).
  - split; [|reflexivity]. erewrite signal_pipe by exact Hr.
    cbn [os emit set_os]. apply pipe_bytes_insert.
  - split; [|reflexivity]. erewrite signal_pipe by exact Hr. reflexivity.
Qed.

(** X20.  Notifications coalesce at the capacity of the pipe: on the pipe
    variants of the reference system, from a channel holding no more than
    the pipe's capacity, [n] calls of [Notify] leave
    [min (pending + n) capacity] bytes pending; every call beyond the
    capacity changes nothing and still returns CHIP_NO_ERROR. *)
Theorem Notify_coalesces (cfg : Config) (w : W) (n : nat) :
  CHIP_SYSTEM_CONFIG_USE_POSIX_PIPE cfg = true ->
  channel cfg w ->
  signal w <= k_pipe_size (os w) ->
  signal (run_notifies cfg n w) = Z.min (signal w + Z.of_nat n) (k_pipe_size (os w)) /\
  fst (Notify cfg (run_notifies cfg n w)) = Ret CHIP_NO_ERROR.
Proof.
  intros Hcfg Hc Hle.
  assert (Hall : signal (run_notifies cfg n w) = Z.min (signal w + Z.of_nat n) (k_pipe_size (os w))
                 /\ k_pipe_size (os (run_notifies cfg n w)) = k_pipe_size (os w)).
  { induction n as [|n IH].
    - cbn [run_notifies]. split; [lia | reflexivity].
    - destruct IH as (IHs & IHk). rewrite run_notifies_succ.
      destruct (Notify_pipe_signal cfg _ Hcfg (run_notifies_channel cfg n w Hc)) as (Hs & Hk).
      rewrite Hs, Hk, IHs, IHk. split; [|reflexivity].
      destruct (Z.leb_spec (Z.min (signal w + Z.of_nat n) (k_pipe_size (os w)) + 1)
                  (k_pipe_size (os w))); lia. }
  split; [apply Hall|].
  pose proof (channel_Notify cfg _ (run_notifies_channel cfg n w Hc)) as H.
  cbv zeta in H. rewrite Hcfg in H. apply H.
Qed.

Lemma sys_close_open (fd : Z) (w : W) (f : OpenFile) :
  file_of fd (os w) = Some f ->
  sys_close fd w =
    (Ret 0,
     emit (EvSys (c_close fd) (Some 0))
       (set_os (set_files (delete (k_task (os w), fd) (k_files (os w))) (os w)) w)).
Proof.
  intros Hf. unfold sys_close, syscall. cbn [posix_close Kernel_Posix].
  unfold kernel_close. rewrite Hf. reflexivity.
Qed.

(** X21.  [Close] undoes [Open]: on the reference system, in every state
    reached from a successful [Open] by [Notify] and [Confirm] calls of
    the opening task, [Close] returns without raising the fatal
    assertion; afterwards the descriptors the object held are closed in
    the kernel, the descriptor fields are -1, the token is the invalid
    token and its registration is gone from the system layer. *)
Theorem Close_undoes_Open (cfg : Config) (w0 w : W) :
  kernel_wf (os w0) ->
  reachable cfg w0 w ->
  exists w',
    Close cfg w = (Ret tt, w') /\
    Forall (fun fd => file_of fd (os w') = None) (descriptors cfg (self w)) /\
    Forall (fun fd => fd = -1) (descriptors cfg (self w')) /\
    mReadWatch (self w') = InvalidSocketWatchToken /\
    l_pool (layer w') !! mReadWatch (self w) = None.
Proof.
  intros Hwf Hr.
  pose proof (reachable_channel cfg w0 w Hwf Hr) as Hc.
  pose proof (Close_releases_registration cfg w) as Hrel.
  assert (Htok : forall l tok, snd (fst (layer_stop tok l)) = InvalidSocketWatchToken).
  { intros l tok. unfold layer_stop. destruct (l_pool l !! tok); reflexivity. }
  unfold channel in Hc. unfold Close, descriptors in *.
  destruct (CHIP_SYSTEM_CONFIG_USE_POSIX_PIPE cfg).
  - destruct Hc as (p & Hfr & Hfw & _).
    assert (Hne : mReadFD (self w) <> mWriteFD (self w)).
    { intros Heq. rewrite Heq, Hfw in Hfr. discriminate Hfr. }
    unfold Close_pipe in *. rewrite bind_StopWatchingSocket in *. cbv zeta in *.
    rewrite bind_this in *.
    match goal with
    | |- context [bind (sys_close ?fd) _ ?ws] =>
        rewrite (bind_Ret _ _ _ _ _ (sys_close_open fd ws _ Hfr)) in *
    end.
    rewrite bind_VerifyOrDie in *. cbn [Z.eqb] in *. rewrite bind_this in *.
    match goal with
    | |- context [bind (sys_close ?fd) _ ?ws] =>
        assert (Hfw' : file_of fd (os ws) = Some (mkOpenFile (PipeWriter p) true))
    end.
    { unfold file_of. cbn. rewrite lookup_delete_ne by congruence. exact Hfw. }
    match goal with
    | |- context [bind (sys_close ?fd) _ ?ws] =>
        rewrite (bind_Ret _ _ _ _ _ (sys_close_open fd ws _ Hfw')) in *
    end.
    rewrite bind_VerifyOrDie in *. cbn [Z.eqb] in *.
    unfold bind, assign_mReadFD, assign_mWriteFD in *.
    eexists. split; [reflexivity|].
    split.
    { repeat constructor; unfold file_of; cbn.
      - rewrite lookup_delete_ne by congruence. apply lookup_delete_eq.
      - apply lookup_delete_eq. }
    split; [repeat constructor|].
    split; [cbn; apply Htok | exact Hrel].
  - destruct Hc as (c & Hf & _).
    unfold Close_eventfd in *. rewrite bind_StopWatchingSocket in *. cbv zeta in *.
    rewrite bind_this in *.
    match goal with
    | |- context [bind (sys_close ?fd) _ ?ws] =>
        rewrite (bind_Ret _ _ _ _ _ (sys_close_open fd ws _ Hf)) in *
    end.
    rewrite bind_VerifyOrDie in *. cbn [Z.eqb] in *.
    unfold assign_mReadFD in *.
    eexists. split; [reflexivity|].
    split; [repeat constructor; unfold file_of; cbn; apply lookup_delete_eq|].
    split; [repeat constructor|].
    split; [cbn; apply Htok | exact Hrel].
Qed.

Lemma Open_register_arms (wp w1 : W) :
  Open_register wp = (Ret CHIP_NO_ERROR, w1) ->
  l_pool (layer w1) !! mReadWatch (self w1)
    = Some (mkSocketWatch (mReadFD (self w1)) (Some ConfirmCallback) true).
Proof.
  unfold Open_register, ReturnErrorOnFailure, bind, this, ret,
    layer_StartWatchingSocket, layer_SetCallback, layer_RequestCallbackOnPendingRead.
  cbn [StartWatchingSocket SetCallback RequestCallbackOnPendingRead Layer_LayerSockets].
  unfold layer_start.
  destruct (_ <=? _)%nat; [cbn; intros [=]|].
  rewrite bool_decide_eq_true_2 by reflexivity.
  cbn [self set_self emit set_layer layer mReadWatch mReadFD].
  unfold layer_set_callback at 1. cbn [l_pool]. rewrite lookup_insert_eq.
  rewrite bool_decide_eq_true_2 by reflexivity.
  cbn [self set_self emit set_layer layer mReadWatch mReadFD sw_fd sw_pending_read].
  unfold layer_request_read. cbn [l_pool]. rewrite lookup_insert_eq.
  rewrite bool_decide_eq_true_2 by reflexivity.
  intros [= <-]. cbn. apply lookup_insert_eq.
Qed.

(** X22.  One armed registration per open object: on the reference
    system, after a successful [Open] and through any [Notify] and
    [Confirm] calls, the token the object holds is registered in the
    system layer for the object's read descriptor, with the [Confirm]
    callback installed and the callback on pending read requested. *)
Theorem registration_armed_while_open (cfg : Config) (w0 w : W) :
  reachable cfg w0 w ->
  l_pool (layer w) !! mReadWatch (self w)
    = Some (mkSocketWatch (mReadFD (self w)) (Some ConfirmCallback) true).
Proof.
  intros Hr. induction Hr as [w1 HO | w Hr IH | w fuel Hr IH].
  - destruct (Open_reaches_registration cfg w0 w1 HO) as (wp & _ & Hreg & _).
    apply (Open_register_arms wp w1 Hreg).
  - destruct (frames_Notify cfg w) as (Hs & Hl & _). rewrite Hs, Hl. exact IH.
  - destruct (frames_Confirm cfg fuel w) as (Hs & Hl & _). rewrite Hs, Hl. exact IH.
Qed.

(** *** The named FIFO across tasks *)

Lemma kernel_read_static fd count k :
  let k' := snd (kernel_read fd count k) in
  k_fifos k' = k_fifos k /\ k_files k' = k_files k /\ k_task k' = k_task k.
Proof.
  unfold kernel_read, counter_read, fails.
  destruct (file_of fd k) as [[[p|p|c] nb]|]; cbn [of_end of_nonblock];
    repeat match goal with |- context [if ?b then _ else _] => destruct b end;
    repeat split.
Qed.

Lemma Confirm_pipe_static (fuel : nat) (w : World Kernel Layer) :
  let w' := snd (Confirm_pipe fuel w) in
  self w' = self w /\ k_fifos (os w') = k_fifos (os w) /\
  k_files (os w') = k_files (os w) /\ k_task (os w') = k_task (os w).
Proof.
  revert w. induction fuel as [|fuel IH]; intros w; [repeat split|].
  cbn [Confirm_pipe]. rewrite bind_this.
  destruct (sys_read (mReadFD (self w)) sizeof_buffer w) as [o1 w1] eqn:E.
  pose proof (kernel_read_static (mReadFD (self w)) sizeof_buffer (os w)) as Hst.
  destruct (syscall_inv _ _ _ _ _ E) as (r & k & Hk & Hw1 & ->).
  cbn [posix_read Kernel_Posix] in Hk. rewrite Hk in Hst. cbn [snd] in Hst.
  assert (H1 : self w1 = self w /\ k_fifos (os w1) = k_fifos (os w) /\
               k_files (os w1) = k_files (os w) /\ k_task (os w1) = k_task (os w)).
  { subst w1. cbn [self os emit set_os]. split; [reflexivity | exact Hst]. }
  destruct r as [r|].
  2:{ rewrite (bind_Halted _ _ _ _ _ E). exact H1. }
  rewrite (bind_Ret _ _ _ _ _ E), bind_get_errno.
  destruct (_ && _).
  { rewrite bind_ChipLogError. exact H1. }
  destruct (r =? sizeof_buffer); [|exact H1].
  destruct (IH w1) as (I1 & I2 & I3 & I4). destruct H1 as (J1 & J2 & J3 & J4).
  repeat split; congruence.
Qed.

(** Peel one system call off the front of a run that returned, naming
    the world after it, its value and what the kernel did. *)
Ltac returned_as H w' r k Hk Hw :=
  match type of H with
  | bind (syscall ?c ?f) _ ?w = (Ret _, _) =>
      let o := fresh "o" in
      let E := fresh "E" in
      destruct (syscall c f w) as [o w'] eqn:E;
      destruct (syscall_inv _ _ _ _ _ E) as ([r|] & k & Hk & Hw & ->);
      [ rewrite (bind_Ret _ _ _ _ _ E) in H
      | rewrite (bind_Halted _ _ _ _ _ E) in H; discriminate H ]
  end.

Lemma Open_fifo_bound (w0 w1 : W) :
  Open_pipe true w0 = (Ret CHIP_NO_ERROR, w1) -> fifo_bound w1.
Proof.
  unfold Open_pipe, sys_mkfifo, sys_open. intros H.
  returned_as H wa ra ka Hka Hwa. rewrite bind_get_errno in H.
  destruct (negb _) eqn:Econd; [discriminate H|].
  assert (Hp : exists p, k_fifos (os wa) !! kChipEventFifoPath = Some p).
  { subst wa. cbn [os emit set_os]. cbn [posix_mkfifo Kernel_Posix] in Hka.
    unfold kernel_mkfifo in Hka.
    destruct (k_fifos (os w0) !! kChipEventFifoPath) as [p|] eqn:Ep.
    - injection Hka as _ <-. exists p. exact Ep.
    - injection Hka as _ <-. eexists. cbn. apply lookup_insert_eq. }
  destruct Hp as (p & Hp).
  returned_as H wb rb kb Hkb Hwb.
  destruct (rb =? -1) eqn:Erb; [discriminate H|].
  returned_as H wc rc kc Hkc Hwc.
  destruct (rc =? -1) eqn:Erc; [discriminate H|].
  unfold bind at 1, assign_mReadFD in H. unfold bind at 1, assign_mWriteFD in H.
  match type of H with Open_register ?wp = _ =>
    destruct (Open_register_keeps wp) as (Ho & Hr & _); rewrite H in Ho, Hr;
    cbn [snd] in Ho, Hr
  end.
  exists p. rewrite Ho, Hr.
  cbn [self set_self mReadFD os].
  cbn [posix_open Kernel_Posix] in Hkb, Hkc.
  unfold kernel_open in Hkb. rewrite Hp in Hkb.
  change (Z.testbit (Z.lor O_RDONLY O_NONBLOCK) 11) with true in Hkb.
  change (Z.land (Z.lor O_RDONLY O_NONBLOCK) 3 =? O_RDONLY) with true in Hkb.
  destruct (k_fd_limit (os wa) <? k_next_fd (os wa) + 1).
  { injection Hkb as Hkb _. subst rb. discriminate Erb. }
  cbn [orb] in Hkb. unfold install in Hkb. injection Hkb as Hrb Hkb.
  assert (Hp2 : k_fifos (os wb) !! kChipEventFifoPath = Some p).
  { subst wb kb. exact Hp. }
  assert (Hfr : k_files (os wb) !! (k_task (os wb), rb)
                = Some (mkOpenFile (PipeReader p) true)).
  { subst wb kb rb. cbn. apply lookup_insert_eq. }
  assert (Hnext : k_next_fd (os wb) = rb + 1).
  { subst wb kb rb. reflexivity. }
  unfold kernel_open in Hkc. rewrite Hp2 in Hkc.
  change (Z.testbit (Z.lor O_WRONLY O_NONBLOCK) 11) with true in Hkc.
  change (Z.land (Z.lor O_WRONLY O_NONBLOCK) 3 =? O_RDONLY) with false in Hkc.
  change (Z.land (Z.lor O_WRONLY O_NONBLOCK) 3 =? O_WRONLY) with true in Hkc.
  destruct (k_fd_limit (os wb) <? k_next_fd (os wb) + 1).
  { injection Hkc as Hkc _. subst rc. discriminate Erc. }
  rewrite (has_end_intro (PipeReader p) _ _ _ Hfr eq_refl) in Hkc.
  unfold install in Hkc. injection Hkc as Hrc Hkc.
  subst wc kc. cbn [os emit set_os]. split.
  - unfold file_of. cbn [k_files k_task set_next_fd set_files].
    rewrite lookup_insert_ne by (intros [= Heq]; lia). exact Hfr.
  - exact Hp2.
Qed.

Lemma reachable_fifo_bound (cfg : Config) (w0 w : W) :
  CHIP_SYSTEM_CONFIG_USE_POSIX_PIPE cfg = true ->
  CHIP_SYSTEM_CONFIG_WAKE_EVENT_USE_FIFO cfg = true ->
  kernel_wf (os w0) ->
  reachable cfg w0 w -> fifo_bound w.
Proof.
  intros Hp Hf Hwf Hr. induction Hr as [w1 HO | w Hr IH | w fuel Hr IH].
  - unfold Open in HO. rewrite Hp, Hf in HO. apply (Open_fifo_bound w0 w1 HO).
  - pose proof (reachable_channel cfg w0 w Hwf Hr) as Hc.
    unfold channel in Hc. rewrite Hp in Hc. destruct Hc as (p & Hfr & Hfw & _).
    destruct IH as (q & Hq & Hb).
    unfold Notify. rewrite Hp, (Notify_pipe_run _ w p Hfr Hfw). cbn [snd].
    exists q. destruct (_ <=? _); split; assumption.
  - destruct IH as (q & Hq & Hb).
    unfold Confirm. rewrite Hp.
    destruct (Confirm_pipe_static fuel w) as (Hs & Hfi & Hfl & Ht).
    exists q. unfold file_of. rewrite Hs, Hfi, Hfl, Ht. split; assumption.
Qed.

(** X23.  A producer in another task gets through the named FIFO: on
    the reference system, in a state reached by the opening task, when
    [Notify] is called by a task whose descriptor table has nothing at
    the object's write descriptor, the FIFO has room and a descriptor is
    available, the first write fails with EBADF, the FIFO is opened again
    for writing, the byte is written through the new descriptor, which is
    closed again, and [Notify] returns CHIP_NO_ERROR; the opening task
    sees one more byte pending. *)
Theorem Notify_from_another_task (cfg : Config) (w0 w : W) (t' : nat) :
  CHIP_SYSTEM_CONFIG_USE_POSIX_PIPE cfg = true ->
  CHIP_SYSTEM_CONFIG_WAKE_EVENT_USE_FIFO cfg = true ->
  kernel_wf (os w0) ->
  reachable cfg w0 w ->
  t' <> k_task (os w) ->
  k_files (os w) !! (t', mWriteFD (self w)) = None ->
  signal w < k_pipe_size (os w) ->
  k_next_fd (os w) < k_fd_limit (os w) ->
  k_next_fd (os w) <> -1 ->
  exists w',
    Notify cfg (from_task t' w) = (Ret CHIP_NO_ERROR, w') /\
    signal (from_task (k_task (os w)) w') = signal w + 1 /\
    file_of (k_next_fd (os w)) (os w') = None /\
    trace w' = trace w ++
      [EvSys (c_write (mWriteFD (self w)) [byte_one]) (Some (-1));
       EvSys (c_open kChipEventFifoPath O_WRONLY) (Some (k_next_fd (os w)));
       EvSys (c_write (k_next_fd (os w)) [byte_one]) (Some 1);
       EvSys (c_close (k_next_fd (os w))) (Some 0)].
Proof.
  intros Hp Hf Hwf Hr Ht Hnone Hroom Hfd Hm1.
  destruct (reachable_fifo_bound cfg w0 w Hp Hf Hwf Hr) as (p & Hfr & Hpath).
  rewrite (signal_pipe w p _ Hfr) in *.
  set (t := k_task (os w)) in *. set (n := k_next_fd (os w)) in *.
  assert (Hkey : (t', n) <> (t, mReadFD (self w))) by (intros [= ? _]; contradiction).
  unfold Notify. rewrite Hp, Hf. unfold Notify_pipe. rewrite bind_this.
  (* the first write fails: the descriptor is not in this task's table *)
  unfold sys_write at 1, syscall, bind at 1.
  cbn [posix_write Kernel_Posix os self from_task set_os].
  unfold kernel_write at 1, file_of. cbn [k_task k_files switch_task]. rewrite Hnone.
  unfold fails. rewrite bind_get_errno. cbn [os emit set_os errno Kernel_Posix k_errno set_errno].
  change ((-1 <? 0) && not_would_block EBADF) with true. cbv iota.
  (* the FIFO is opened again, in blocking mode *)
  unfold sys_open, syscall, bind at 1. cbn [posix_open Kernel_Posix os emit set_os].
  unfold kernel_open. cbn [k_fifos set_errno switch_task]. rewrite Hpath.
  change (Z.testbit O_WRONLY 11) with false.
  change (Z.land O_WRONLY 3 =? O_RDONLY) with false.
  change (Z.land O_WRONLY 3 =? O_WRONLY) with true.
  cbn [k_fd_limit k_next_fd set_errno switch_task]. fold n.
  replace (k_fd_limit (os w) <? n + 1) with false by (symmetry; apply Z.ltb_ge; lia).
  cbv iota.
  assert (Hre : forall e task, has_end (PipeReader p)
            (set_errno e (switch_task task (os w))) = true).
  { intros e task.
    apply (has_end_intro _ _ (t, mReadFD (self w)) (mkOpenFile (PipeReader p) true));
      [|reflexivity].
    cbn [k_files set_errno switch_task]. exact Hfr. }
  rewrite Hre. unfold install. cbn [k_task k_next_fd k_files set_errno switch_task]. fold n.
  replace (n =? -1) with false by (symmetry; apply Z.eqb_neq; exact Hm1).
  (* the byte goes through the new descriptor *)
  unfold sys_write, syscall, bind at 1. cbn [posix_write Kernel_Posix os emit set_os].
  unfold kernel_write, file_of.
  cbn [k_task k_files set_next_fd set_files set_errno switch_task].
  rewrite lookup_insert_eq. cbn [of_end of_nonblock].
  assert (Hre2 : forall k', k_files k' = <[(t', n) := mkOpenFile (PipeWriter p) false]>
                              (k_files (os w)) ->
                 has_end (PipeReader p) k' = true).
  { intros k' Hk'.
    apply (has_end_intro _ _ (t, mReadFD (self w)) (mkOpenFile (PipeReader p) true));
      [|reflexivity].
    rewrite Hk', lookup_insert_ne by exact Hkey. exact Hfr. }
  rewrite Hre2 by reflexivity. cbn [negb length]. change (Z.of_nat 1) with 1.
  change (pipe_bytes p (set_next_fd (n + 1)
            (set_files (<[(t', n) := mkOpenFile (PipeWriter p) false]> (k_files (os w)))
               (set_errno EBADF (switch_task t' (os w))))))
    with (pipe_bytes p (os w)).
  cbn [k_pipe_size set_next_fd set_files set_errno switch_task].
  replace (pipe_bytes p (os w) + 1 <=? k_pipe_size (os w)) with true
    by (symmetry; apply Z.leb_le; lia).
  change (1 <? 0) with false. cbv iota.
  (* and the new descriptor is closed *)
  unfold sys_close, syscall, bind. cbn [posix_close Kernel_Posix os emit set_os].
  unfold kernel_close, file_of.
  cbn [k_task k_files set_pipes set_next_fd set_files set_errno switch_task].
  rewrite lookup_insert_eq.
  eexists. split; [reflexivity|].
  split; [|split].
  - unfold signal, pending, file_of, from_task.
    cbn [os self emit set_os set_files k_task k_files switch_task set_pipes set_next_fd
         set_errno mReadFD].
    rewrite lookup_delete_ne, lookup_insert_ne by exact Hkey.
    assert (Hfr' : k_files (os w) !! (t, mReadFD (self w))
                   = Some (mkOpenFile (PipeReader p) true)) by exact Hfr.
    rewrite Hfr'. cbn [of_end]. unfold pipe_bytes.
    cbn [k_pipes switch_task set_files set_pipes]. rewrite lookup_insert_eq.
    reflexivity.
  - unfold file_of. cbn. apply lookup_delete_eq.
  - cbn [trace emit set_os from_task]. rewrite <- !app_assoc. reflexivity.
Qed.

End ReferenceMore.

(** * Further properties of the WiFi driver *)

Section WiFiMore.
Variables kMaxWiFiSSIDLength kMaxWiFiKeyLength : nat.

Local Abbreviation kS := kMaxWiFiSSIDLength.
Local Abbreviation kK := kMaxWiFiKeyLength.

Lemma memcmp_prefix (a r : list byte) : memcmp a (a ++ r) (length a) = 0.
Proof.
  induction a as [|x a IH]; [destruct r; reflexivity|].
  cbn [memcmp length app]. rewrite N.eqb_refl. exact IH.
Qed.

Lemma memcmp_zero (a b : list byte) : memcmp a b 0 = 0.
Proof. destruct a, b; reflexivity. Qed.

Lemma memcpy_length (dst src : list byte) (n : nat) :
  (n <= length src)%nat -> (n <= length dst)%nat -> length (memcpy dst src n) = length dst.
Proof.
  intros Hs Hd. unfold memcpy. rewrite length_app, length_take, length_drop. lia.
Qed.

Lemma memcpy_take (dst src : list byte) (n : nat) :
  (n <= length src)%nat -> take n (memcpy dst src n) = take n src.
Proof.
  intros Hs. unfold memcpy. rewrite take_app_le by (rewrite length_take; lia).
  rewrite take_take. f_equal. lia.
Qed.

Lemma memcpy_drop (dst src : list byte) (n : nat) :
  (n <= length src)%nat -> drop n (memcpy dst src n) = drop n dst.
Proof.
  intros Hs. unfold memcpy.
  rewrite drop_app_ge by (rewrite length_take; lia).
  rewrite length_take. replace (n - n `min` length src)%nat with 0%nat by lia.
  reflexivity.
Qed.

Lemma to_uint8_small (n : nat) : (n <= 255)%nat -> to_uint8 n = Z.of_nat n.
Proof. intros H. unfold to_uint8. apply Z.mod_small. lia. Qed.

(** X1.  Adding or updating within bounds, for a driver whose records are
    well formed and array sizes of at most 255: when no network is
    staged, or the staged one has the offered SSID, and both inputs fit
    their arrays, [AddOrUpdateNetwork] returns [kSuccess]; the staged
    record then holds the offered SSID and credentials with their exact
    lengths, is found by [NetworkMatch] under the offered SSID, the saved
    record is untouched, and [Count] is 1 unless the SSID is empty. *)
Theorem AddOrUpdateNetwork_stores (d : NuttxWiFiDriver) (ssid_in credentials_in : list byte)
    (outDebugText : string) :
  (kS <= 255)%nat -> (kK <= 255)%nat ->
  driver_wf kS kK d ->
  ssidLen (mStagingNetwork d) = 0 \/ NetworkMatch (mStagingNetwork d) ssid_in = true ->
  (length ssid_in <= kS)%nat ->
  (length credentials_in <= kK)%nat ->
  exists d',
    AddOrUpdateNetwork kS kK ssid_in credentials_in outDebugText d
      = (kSuccess, EmptyString, 0, d') /\
    mSavedNetwork d' = mSavedNetwork d /\
    ssidLen (mStagingNetwork d') = Z.of_nat (length ssid_in) /\
    take (length ssid_in) (ssid (mStagingNetwork d')) = ssid_in /\
    credentialsLen (mStagingNetwork d') = Z.of_nat (length credentials_in) /\
    take (length credentials_in) (credentials (mStagingNetwork d')) = credentials_in /\
    NetworkMatch (mStagingNetwork d') ssid_in = true /\
    Count d' = (if (length ssid_in =? 0)%nat then 0 else 1) /\
    driver_wf kS kK d'.
Proof.
  intros HkS HkK (Hsaved & Hs1 & Hs2 & Hs3 & Hs4) Hfree Hls Hlc.
  unfold AddOrUpdateNetwork.
  assert (Hguard : (ssidLen (mStagingNetwork d) =? 0)
                   || NetworkMatch (mStagingNetwork d) ssid_in = true).
  { destruct Hfree as [-> | ->]; [reflexivity | apply orb_true_r]. }
  rewrite Hguard. cbn [negb].
  replace (length credentials_in <=? kK)%nat with true
    by (symmetry; apply Nat.leb_le; exact Hlc).
  replace (length ssid_in <=? kS)%nat with true
    by (symmetry; apply Nat.leb_le; exact Hls).
  cbn [negb]. eexists. split; [reflexivity|].
  cbn [mSavedNetwork mStagingNetwork ssidLen ssid credentials credentialsLen].
  rewrite !to_uint8_small by lia.
  assert (Ht : take (length ssid_in)
                 (memcpy (ssid (mStagingNetwork d)) ssid_in (length ssid_in)) = ssid_in).
  { rewrite memcpy_take by lia. apply firstn_all. }
  split; [reflexivity|]. split; [reflexivity|]. split; [exact Ht|].
  split; [reflexivity|].
  split; [rewrite memcpy_take by lia; apply firstn_all|].
  split.
  { unfold NetworkMatch. cbn [ssidLen ssid]. rewrite Z.eqb_refl, Nat2Z.id.
    unfold memcpy. rewrite firstn_all, memcmp_prefix. reflexivity. }
  split.
  { unfold Count. cbn [mStagingNetwork ssidLen].
    destruct (length ssid_in); reflexivity. }
  split; [exact Hsaved|].
  unfold network_wf. cbn [mStagingNetwork ssid credentials ssidLen credentialsLen].
  rewrite !memcpy_length by lia. lia.
Qed.

(** X2.  Inputs that do not fit: when the slot is free or the SSID
    matches, but the credentials or the SSID are longer than their
    arrays, [AddOrUpdateNetwork] returns [kOutOfRange] and leaves the
    driver as it was. *)
Theorem AddOrUpdateNetwork_out_of_range (d : NuttxWiFiDriver) (ssid_in credentials_in : list byte)
    (outDebugText : string) :
  ssidLen (mStagingNetwork d) = 0 \/ NetworkMatch (mStagingNetwork d) ssid_in = true ->
  (kK < length credentials_in)%nat \/ (kS < length ssid_in)%nat ->
  AddOrUpdateNetwork kS kK ssid_in credentials_in outDebugText d
    = (kOutOfRange, EmptyString, 0, d).
Proof.
  intros Hfree Hlong. unfold AddOrUpdateNetwork.
  assert (Hguard : (ssidLen (mStagingNetwork d) =? 0)
                   || NetworkMatch (mStagingNetwork d) ssid_in = true).
  { destruct Hfree as [-> | ->]; [reflexivity | apply orb_true_r]. }
  rewrite Hguard. cbn [negb].
  destruct (Nat.leb_spec (length credentials_in) kK) as [Hc|Hc]; cbn [negb]; [|reflexivity].
  destruct (Nat.leb_spec (length ssid_in) kS) as [Hs|Hs]; cbn [negb]; [|reflexivity].
  lia.
Qed.

(** X3.  The empty SSID: with nothing staged, [AddOrUpdateNetwork] of
    an empty SSID returns [kSuccess] and stores the credentials, yet no
    network is listed afterwards: [Count] is 0 and [Next] yields
    nothing. *)
Theorem AddOrUpdateNetwork_empty_ssid (d : NuttxWiFiDriver) (credentials_in : list byte)
    (outDebugText : string) (configuredNetwork item : Network) :
  ssidLen (mStagingNetwork d) = 0 ->
  (length credentials_in <= kK)%nat ->
  exists d',
    AddOrUpdateNetwork kS kK [] credentials_in outDebugText d
      = (kSuccess, EmptyString, 0, d') /\
    take (length credentials_in) (credentials (mStagingNetwork d')) = credentials_in /\
    Count d' = 0 /\
    Next configuredNetwork d' false item = (false, item, false).
Proof.
  intros Hz Hlc. unfold AddOrUpdateNetwork. rewrite Hz. cbn [Z.eqb orb negb].
  replace (length credentials_in <=? kK)%nat with true
    by (symmetry; apply Nat.leb_le; exact Hlc).
  cbn [negb length Nat.leb]. eexists. split; [reflexivity|].
  cbn [mStagingNetwork credentials].
  split; [rewrite memcpy_take by lia; apply firstn_all|].
  split; reflexivity.
Qed.

(** X4.  Removing the staged network: when the identifier matches,
    [RemoveNetwork] returns [kSuccess] and sets only the SSID length to
    0: [Count] becomes 0, while the SSID bytes, the credentials and their
    length stay in the record, and the saved record is untouched;
    afterwards any SSID and credentials that fit are accepted. *)
Theorem RemoveNetwork_clears_length_only (d : NuttxWiFiDriver) (networkId : list byte)
    (outDebugText : string) :
  NetworkMatch (mStagingNetwork d) networkId = true ->
  exists d',
    RemoveNetwork networkId outDebugText d = (kSuccess, EmptyString, 0, d') /\
    Count d' = 0 /\
    mSavedNetwork d' = mSavedNetwork d /\
    ssid (mStagingNetwork d') = ssid (mStagingNetwork d) /\
    credentials (mStagingNetwork d') = credentials (mStagingNetwork d) /\
    credentialsLen (mStagingNetwork d') = credentialsLen (mStagingNetwork d) /\
    forall (s c : list byte) (t : string),
      (length s <= kS)%nat -> (length c <= kK)%nat ->
      fst (AddOrUpdateNetwork kS kK s c t d') = (kSuccess, EmptyString, 0).
Proof.
  intros Hm. unfold RemoveNetwork. rewrite Hm. cbn [negb].
  eexists. split; [reflexivity|].
  split; [reflexivity|]. split; [reflexivity|]. split; [reflexivity|].
  split; [reflexivity|]. split; [reflexivity|].
  intros s c t Hs Hc. unfold AddOrUpdateNetwork.
  cbn [mStagingNetwork ssidLen Z.eqb orb negb].
  replace (length c <=? kK)%nat with true by (symmetry; apply Nat.leb_le; exact Hc).
  replace (length s <=? kS)%nat with true by (symmetry; apply Nat.leb_le; exact Hs).
  reflexivity.
Qed.

Lemma AddOrUpdateNetwork_saved (d : NuttxWiFiDriver) s c t :
  mSavedNetwork (snd (AddOrUpdateNetwork kS kK s c t d)) = mSavedNetwork d.
Proof.
  unfold AddOrUpdateNetwork.
  destruct (negb _); [reflexivity|].
  destruct (negb _); [reflexivity|].
  destruct (negb _); reflexivity.
Qed.

Lemma run_op_saved (d : NuttxWiFiDriver) (op : StagingOp) :
  mSavedNetwork (run_op kS kK d op) = mSavedNetwork d.
Proof.
  destruct op as [s c|id|id index]; cbn [run_op].
  - apply AddOrUpdateNetwork_saved.
  - unfold RemoveNetwork. destruct (negb _); reflexivity.
  - unfold ReorderNetwork. destruct (negb _); reflexivity.
Qed.

Lemma run_ops_saved (ops : list StagingOp) (d : NuttxWiFiDriver) :
  mSavedNetwork (run_ops kS kK ops d) = mSavedNetwork d.
Proof.
  revert d. induction ops as [|op ops IH]; intros d; [reflexivity|].
  cbn [run_ops fold_left]. fold (run_ops kS kK ops (run_op kS kK d op)).
  rewrite IH. apply run_op_saved.
Qed.

(** X5.  Staged edits are discarded by a revert: after any sequence of
    [AddOrUpdateNetwork], [RemoveNetwork] and [ReorderNetwork] calls,
    whatever they return, the saved record is the one before them, and
    [RevertConfiguration] gives the state that reverting at once would
    have given. *)
Theorem RevertConfiguration_discards_edits {S : Type} (ops : list StagingOp)
    (w : DriverWorld S) :
  mSavedNetwork (run_ops kS kK ops (driver w)) = mSavedNetwork (driver w) /\
  RevertConfiguration (mkDriverWorld (run_ops kS kK ops (driver w)) (kvs w))
    = RevertConfiguration w.
Proof.
  split; [apply run_ops_saved|].
  unfold RevertConfiguration. cbn [driver kvs]. rewrite run_ops_saved. reflexivity.
Qed.

Lemma AddOrUpdateNetwork_wf (d : NuttxWiFiDriver) s c t :
  (kS <= 255)%nat -> (kK <= 255)%nat ->
  driver_wf kS kK d -> driver_wf kS kK (snd (AddOrUpdateNetwork kS kK s c t d)).
Proof.
  intros HkS HkK Hwf. unfold AddOrUpdateNetwork.
  destruct (negb _); [exact Hwf|].
  destruct (Nat.leb_spec (length c) kK) as [Hc|Hc]; cbn [negb]; [|exact Hwf].
  destruct (Nat.leb_spec (length s) kS) as [Hs|Hs]; cbn [negb]; [|exact Hwf].
  destruct Hwf as (Hsaved & Hs1 & Hs2 & Hs3 & Hs4).
  split; [exact Hsaved|].
  unfold network_wf. cbn [snd mStagingNetwork ssid credentials ssidLen credentialsLen].
  rewrite !memcpy_length, !to_uint8_small by lia. lia.
Qed.

Lemma run_op_wf (d : NuttxWiFiDriver) (op : StagingOp) :
  (kS <= 255)%nat -> (kK <= 255)%nat ->
  driver_wf kS kK d -> driver_wf kS kK (run_op kS kK d op).
Proof.
  intros HkS HkK Hwf. destruct op as [s c|id|id index]; cbn [run_op].
  - apply AddOrUpdateNetwork_wf; assumption.
  - unfold RemoveNetwork. destruct (negb _); [exact Hwf|].
    destruct Hwf as (Hsaved & Hs1 & Hs2 & Hs3 & Hs4).
    split; [exact Hsaved|]. unfold network_wf. cbn. lia.
  - unfold ReorderNetwork. destruct (negb _); exact Hwf.
Qed.

(** X6.  The driver keeps its records well formed: with array sizes of
    at most 255 (the two static assertions), every sequence of staging
    operations, and a commit or a revert after it, leaves both records
    with arrays of the declared sizes and fill lengths within them, so no
    length is truncated by its [uint8_t] field. *)
Theorem driver_wf_preserved {S : Type} `{KVS : KeyValueStoreManager S}
    (ops : list StagingOp) (w : DriverWorld S) :
  (kS <= 255)%nat -> (kK <= 255)%nat ->
  driver_wf kS kK (driver w) ->
  driver_wf kS kK (run_ops kS kK ops (driver w)) /\
  driver_wf kS kK
    (driver (snd (CommitConfiguration (mkDriverWorld (run_ops kS kK ops (driver w)) (kvs w))))) /\
  driver_wf kS kK
    (driver (snd (RevertConfiguration (mkDriverWorld (run_ops kS kK ops (driver w)) (kvs w))))).
Proof.
  intros HkS HkK Hwf.
  assert (Hops : driver_wf kS kK (run_ops kS kK ops (driver w))).
  { generalize dependent (driver w). induction ops as [|op ops IH]; intros d Hd; [exact Hd|].
    cbn [run_ops fold_left]. apply IH. apply run_op_wf; assumption. }
  split; [exact Hops|]. split.
  - unfold CommitConfiguration. cbn [driver kvs].
    destruct (Put kWiFiSSIDKeyName _ (kvs w)) as [e1 s1].
    destruct (negb _); [exact Hops|].
    destruct (Put kWiFiCredentialsKeyName _ s1) as [e2 s2].
    destruct (negb _); [exact Hops|].
    split; apply Hops.
  - unfold RevertConfiguration. cbn [driver snd]. split; apply Hops.
Qed.

(** X7.  A failed commit does not touch the driver: when
    [CommitConfiguration] returns an error, both records are as before;
    the error is that of the write of the SSID, after which the
    credentials were not written, or that of the write of the credentials
    after the SSID was written. *)
Theorem CommitConfiguration_failure {S : Type} `{KVS : KeyValueStoreManager S}
    (w w' : DriverWorld S) (err : CHIP_ERROR) :
  CommitConfiguration w = (err, w') ->
  err <> CHIP_NO_ERROR ->
  driver w' = driver w /\
  let staging := mStagingNetwork (driver w) in
  let r1 := Put kWiFiSSIDKeyName (take (Z.to_nat (ssidLen staging)) (ssid staging)) (kvs w) in
  let r2 :=
    Put kWiFiCredentialsKeyName
      (take (Z.to_nat (credentialsLen staging)) (credentials staging)) (snd r1) in
  (fst r1 = err /\ kvs w' = snd r1) \/
  (fst r1 = CHIP_NO_ERROR /\ fst r2 = err /\ kvs w' = snd r2).
Proof.
  unfold CommitConfiguration. cbv zeta.
  destruct (Put kWiFiSSIDKeyName _ (kvs w)) as [e1 s1].
  destruct (bool_decide_reflect (e1 = CHIP_NO_ERROR)) as [->|Hn1]; cbn [negb fst snd].
  2:{ intros [= <- <-] _. split; [reflexivity|]. left. split; reflexivity. }
  destruct (Put kWiFiCredentialsKeyName _ s1) as [e2 s2].
  destruct (bool_decide_reflect (e2 = CHIP_NO_ERROR)) as [->|Hn2]; cbn [negb fst snd].
  2:{ intros [= <- <-] _. split; [reflexivity|]. right. repeat split. }
  intros [= <- _] Hn. contradiction.
Qed.

(** X8.  The iterator lists what [Count] counts: from a fresh iterator
    [Next] yields an item exactly when [Count] is 1; the item carries the
    staged SSID and its length, and is reported as not connected when the
    default-constructed [Network] has length 0; the iterator is then
    exhausted, and an exhausted iterator yields nothing and leaves the
    item alone. *)
Theorem Next_lists_Count (configuredNetwork : Network) (d : NuttxWiFiDriver) (item : Network) :
  (Z.to_nat (ssidLen (mStagingNetwork d)) <= length (ssid (mStagingNetwork d)))%nat ->
  exists more item1 exhausted1,
    Next configuredNetwork d false item = (more, item1, exhausted1) /\
    (if more then 1 else 0) = Count d /\
    (more = true ->
     exhausted1 = true /\
     networkIDLen item1 = ssidLen (mStagingNetwork d) /\
     take (Z.to_nat (ssidLen (mStagingNetwork d))) (networkID item1)
       = take (Z.to_nat (ssidLen (mStagingNetwork d))) (ssid (mStagingNetwork d)) /\
     (networkIDLen configuredNetwork = 0 -> connected item1 = false)) /\
    (more = false -> item1 = item /\ exhausted1 = false) /\
    forall item' : Network, Next configuredNetwork d true item' = (false, item', true).
Proof.
  intros Hlen. unfold Next, Count, GetConfiguredNetwork. cbn [orb].
  destruct (Z.eqb_spec (ssidLen (mStagingNetwork d)) 0) as [E|E].
  - exists false, item, false. repeat split; discriminate.
  - eexists true, _, true. split; [reflexivity|]. split; [reflexivity|].
    split; [|split; [discriminate | reflexivity]].
    intros _. split; [reflexivity|].
    rewrite bool_decide_eq_true_2 by reflexivity.
    cbn [networkIDLen networkID].
    destruct (_ && _) eqn:Ec; cbn [networkIDLen networkID connected].
    + split; [reflexivity|]. split; [apply memcpy_take; exact Hlen|].
      intros Hz. apply andb_true_iff in Ec. destruct Ec as (Ec & _).
      apply Z.eqb_eq in Ec. congruence.
    + split; [reflexivity|]. split; [apply memcpy_take; exact Hlen|]. reflexivity.
Qed.

Context {N : Type} `{NP : NuttxPlatform N}.

Lemma association_request_eq (name : string) (n : WiFiNetwork) :
  (Z.to_nat (ssidLen n) <= length (ssid n))%nat ->
  (Z.to_nat (credentialsLen n) <= length (credentials n))%nat ->
  mk_wpa_wconfig_s name WAPI_MODE_MANAGED IW_AUTH_WPA_VERSION_WPA2 IW_AUTH_CIPHER_CCMP
    (memcpy (replicate kS Byte.x00) (ssid n) (Z.to_nat (ssidLen n)))
    (memcpy (replicate kK Byte.x00) (credentials n) (Z.to_nat (credentialsLen n)))
    (ssidLen n) (credentialsLen n) None
    (if credentialsLen n =? 0 then WPA_ALG_NONE else WPA_ALG_CCMP)
  = association_request kS kK name n.
Proof.
  intros Hs Hc. unfold association_request, memcpy.
  rewrite !drop_replicate. reflexivity.
Qed.

(** Close a case of [ConnectNetwork]: put the trace in order, name the
    events before the report, and decide the three conditions. *)
Ltac report_done :=
  intros [= <-]; cbn [net_trace net]; rewrite <- ?app_assoc; cbn [app];
  match goal with
  | |- exists evs status, _ ++ ?L = _ /\ _ => exists (removelast L)
  end;
  cbn [removelast]; eexists;
  split; [reflexivity|];
  split; [reflexivity|];
  split; [split; first [discriminate | reflexivity]|];
  split;
    [ split; first [discriminate | reflexivity] | auto ].

(** X9.  What a connection attempt reports: when [ConnectNetwork] is
    given a callback and returns, exactly one [OnResult] is delivered, as
    the last thing it does; the status is [kNetworkIDNotFound] exactly
    when the identifier does not match the staged network, [kSuccess]
    exactly when the connectivity event was posted, and [kUnknownError]
    otherwise. *)
Theorem ConnectNetwork_reports_once (networkId : list byte) (d : NuttxWiFiDriver)
    (w w' : NetWorld N) :
  ConnectNetwork kS kK networkId true d w = Some w' ->
  exists evs status,
    net_trace w' = net_trace w ++ evs ++ [NetOnResult status] /\
    forallb (fun e => negb (is_OnResult e)) evs = true /\
    (status = kNetworkIDNotFound <-> NetworkMatch (mStagingNetwork d) networkId = false) /\
    (status = kSuccess <-> existsb is_post evs = true) /\
    (status = kSuccess \/ status = kNetworkIDNotFound \/ status = kUnknownError).
Proof.
  unfold ConnectNetwork.
  destruct (NetworkMatch (mStagingNetwork d) networkId) eqn:Hm; cbn [negb].
  - unfold ConnectWiFiNetwork. cbn [net net_trace].
    destruct (GetWiFiIfName (net w)) as [name|]; [|report_done].
    destruct (0 <? ssidLen (mStagingNetwork d)); cbn [negb]; [|report_done].
    destruct (netlib_ifup name (net w)) as [r1 n1].
    destruct (0 <=? r1); cbn [negb]; [|report_done].
    destruct (wpa_driver_wext_associate _ n1) as [r2 n2].
    destruct (0 <=? r2); cbn [negb]; [|report_done].
    destruct (netlib_obtain_ipv6addr name n2) as [r3 n3].
    destruct (r3 =? 0); cbn [negb net net_trace];
      (destruct (PostEventOrDie WiFiConnectivityChange_Established n3) as [n4|]; [|discriminate]);
      report_done.
  - report_done.
Qed.

(** X10.  When a connection is established: if the identifier matches,
    the interface has a name, the staged SSID is not empty, and bringing
    the interface up and associating with the request built from the
    staged record both return a non-negative value, then [ConnectNetwork]
    posts the connectivity event and reports [kSuccess], whatever the
    DHCPv6 step returns (a failure there is only logged); the calls are
    made in the order up, associate, obtain address, post, report. *)
Theorem ConnectNetwork_establishes (networkId : list byte) (callback : bool)
    (d : NuttxWiFiDriver) (w : NetWorld N) (name : string) :
  NetworkMatch (mStagingNetwork d) networkId = true ->
  (Z.to_nat (ssidLen (mStagingNetwork d)) <= length (ssid (mStagingNetwork d)))%nat ->
  (Z.to_nat (credentialsLen (mStagingNetwork d)) <= length (credentials (mStagingNetwork d)))%nat ->
  GetWiFiIfName (net w) = Some name ->
  0 < ssidLen (mStagingNetwork d) ->
  let request := association_request kS kK name (mStagingNetwork d) in
  let up := netlib_ifup name (net w) in
  let assoc := wpa_driver_wext_associate request (snd up) in
  let dhcp := netlib_obtain_ipv6addr name (snd assoc) in
  0 <= fst up ->
  0 <= fst assoc ->
  ConnectNetwork kS kK networkId callback d w =
    match PostEventOrDie WiFiConnectivityChange_Established (snd dhcp) with
    | Some n =>
        Some (mkNetWorld n
                (net_trace w
                   ++ [NetLog "NetworkCommissioningDelegate: SSID";
                       NetIfup name (fst up);
                       NetAssociate request (fst assoc);
                       NetObtainIPv6 name (fst dhcp)]
                   ++ (if fst dhcp =? 0 then []
                       else [NetLog "DHCPv6 failed to obtain address"])
                   ++ [NetPostEvent WiFiConnectivityChange_Established]
                   ++ (if callback
                       then [NetLog "Connect to WiFi network"; NetOnResult kSuccess]
                       else [])))
    | None => None
    end.
Proof.
  intros Hm Hs Hc Hname Hlen request up assoc dhcp Hup Hassoc.
  unfold ConnectNetwork, ConnectWiFiNetwork. rewrite Hm. cbn [negb net net_trace].
  rewrite Hname.
  replace (0 <? ssidLen (mStagingNetwork d)) with true by (symmetry; apply Z.ltb_lt; exact Hlen).
  cbn [negb]. rewrite (association_request_eq name (mStagingNetwork d) Hs Hc).
  fold request. fold up. destruct up as [r1 n1] eqn:Eup. cbn [fst snd] in *.
  replace (0 <=? r1) with true by (symmetry; apply Z.leb_le; exact Hup).
  cbn [negb]. fold assoc. destruct assoc as [r2 n2] eqn:Eassoc. cbn [fst snd] in *.
  replace (0 <=? r2) with true by (symmetry; apply Z.leb_le; exact Hassoc).
  cbn [negb]. fold dhcp. destruct dhcp as [r3 n3] eqn:Edhcp. cbn [fst snd].
  destruct (r3 =? 0); cbn [negb net net_trace];
    (destruct (PostEventOrDie WiFiConnectivityChange_Established n3) as [n4|]; [|reflexivity]);
    destruct callback; cbn [net net_trace]; rewrite <- ?app_assoc; cbn [app];
    rewrite ?app_nil_r; reflexivity.
Qed.

(** X11.  A connection attempt that cannot start makes no platform call:
    when the identifier does not match, or nothing is staged (SSID length
    0), [ConnectNetwork] returns with the platform state untouched and no
    call to netlib, the wireless library or the platform manager in its
    trace; with a callback it reports [kNetworkIDNotFound] for the
    mismatch and [kUnknownError] otherwise. *)
Theorem ConnectNetwork_cannot_start (networkId : list byte) (callback : bool)
    (d : NuttxWiFiDriver) (w : NetWorld N) :
  NetworkMatch (mStagingNetwork d) networkId = false \/ ssidLen (mStagingNetwork d) = 0 ->
  exists evs,
    ConnectNetwork kS kK networkId callback d w
      = Some (mkNetWorld (net w)
                (net_trace w ++ evs
                   ++ (if callback then
                         [NetLog "Connect to WiFi network";
                          NetOnResult (if NetworkMatch (mStagingNetwork d) networkId
                                       then kUnknownError else kNetworkIDNotFound)]
                       else []))) /\
    forallb (fun e => negb (is_platform_call e) && negb (is_OnResult e)) evs = true.
Proof.
  intros Hcase. unfold ConnectNetwork.
  destruct (NetworkMatch (mStagingNetwork d) networkId) eqn:Hm; cbn [negb].
  - destruct Hcase as [H|Hz]; [discriminate H|].
    unfold ConnectWiFiNetwork. cbn [net net_trace]. rewrite Hz. cbn [Z.ltb Z.compare negb].
    destruct (GetWiFiIfName (net w)) as [name|];
      eexists (_ :: _ :: nil);
      (split;
       [ destruct callback; cbn [net net_trace]; rewrite <- ?app_assoc; cbn [app];
         rewrite ?app_nil_r; reflexivity
       | reflexivity ]).
  - exists []. split; [|reflexivity].
    destruct callback; cbn [app]; [reflexivity|].
    rewrite app_nil_r. destruct w; reflexivity.
Qed.

(** X12.  The empty identifier names the empty slot: with nothing staged
    (SSID length 0), the empty identifier matches, so [RemoveNetwork] and
    [ReorderNetwork] of it return [kSuccess] instead of
    [kNetworkIDNotFound], and the driver stays as it is apart from the
    length that [RemoveNetwork] sets to 0 again; any identifier that does
    not match is refused with [kNetworkIDNotFound] and no change. *)
Theorem empty_identifier_matches_empty_slot (d : NuttxWiFiDriver) (networkId : list byte)
    (index : Z) (outDebugText : string) :
  ssidLen (mStagingNetwork d) = 0 ->
  NetworkMatch (mStagingNetwork d) [] = true /\
  fst (RemoveNetwork [] outDebugText d) = (kSuccess, EmptyString, 0) /\
  Count (snd (RemoveNetwork [] outDebugText d)) = 0 /\
  ReorderNetwork [] index outDebugText d = (kSuccess, EmptyString, d) /\
  (NetworkMatch (mStagingNetwork d) networkId = false ->
   RemoveNetwork networkId outDebugText d = (kNetworkIDNotFound, EmptyString, 0, d) /\
   ReorderNetwork networkId index outDebugText d = (kNetworkIDNotFound, EmptyString, d)).
Proof.
  intros Hz.
  assert (Hm : NetworkMatch (mStagingNetwork d) [] = true).
  { unfold NetworkMatch. rewrite Hz. reflexivity. }
  split; [exact Hm|].
  unfold RemoveNetwork, ReorderNetwork. rewrite Hm. cbn [negb fst snd].
  split; [reflexivity|]. split; [reflexivity|]. split; [reflexivity|].
  intros ->. split; reflexivity.
Qed.

Context {St : Type} `{KVR : KeyValueStoreReader St}.

(** X13.  What [Init] reports: it never returns CHIP_ERROR_NOT_FOUND;
    a credentials key that is not found, or an SSID key that is not
    found, makes it return CHIP_NO_ERROR with the staged record and both
    saved lengths as they were; otherwise the result is the error of the
    SSID read alone (an error of the credentials read other than
    not-found is dropped), and, whatever that error is, the two lengths
    read are installed and the staged record is made equal to the saved
    one. *)
Theorem Init_reports_ssid_read (w : DriverWorld St) :
  let saved := mSavedNetwork (driver w) in
  let r1 := Get kWiFiCredentialsKeyName (credentials saved) kK 0%nat (kvs w) in
  let r2 := Get kWiFiSSIDKeyName (ssid saved) kS 0%nat (snd r1) in
  let d' := driver (snd (Init kS kK w)) in
  fst (Init kS kK w) <> CHIP_ERROR_NOT_FOUND /\
  (read_error r1 = CHIP_ERROR_NOT_FOUND \/ read_error r2 = CHIP_ERROR_NOT_FOUND ->
   fst (Init kS kK w) = CHIP_NO_ERROR /\
   mStagingNetwork d' = mStagingNetwork (driver w) /\
   ssidLen (mSavedNetwork d') = ssidLen saved /\
   credentialsLen (mSavedNetwork d') = credentialsLen saved) /\
  (read_error r1 <> CHIP_ERROR_NOT_FOUND -> read_error r2 <> CHIP_ERROR_NOT_FOUND ->
   fst (Init kS kK w) = read_error r2 /\
   mStagingNetwork d' = mSavedNetwork d' /\
   ssidLen (mSavedNetwork d') = to_uint8 (read_length r2) /\
   credentialsLen (mSavedNetwork d') = to_uint8 (read_length r1) /\
   kvs (snd (Init kS kK w)) = snd r2).
Proof.
  cbv zeta. unfold Init, read_error, read_length. cbv zeta.
  destruct (Get kWiFiCredentialsKeyName _ kK 0%nat (kvs w)) as [[[e1 c1] n1] s1].
  cbn [fst snd ssid].
  destruct (Get kWiFiSSIDKeyName _ kS 0%nat s1) as [[[e2 b2] n2] s2].
  cbn [fst snd].
  destruct (bool_decide_reflect (e1 = CHIP_ERROR_NOT_FOUND)) as [H1|H1];
    [|destruct (bool_decide_reflect (e2 = CHIP_ERROR_NOT_FOUND)) as [H2|H2]];
    cbn [fst snd driver kvs mStagingNetwork mSavedNetwork ssidLen credentialsLen].
  - split; [discriminate|]. split; [intros _; repeat (split; try reflexivity)|].
    intros Hn. contradiction.
  - split; [discriminate|]. split; [intros _; repeat (split; try reflexivity)|].
    intros _ Hn. contradiction.
  - split; [exact H2|]. split; [intros [Hn|Hn]; contradiction|].
    intros _ _. repeat (split; try reflexivity).
Qed.

End WiFiMore.

Lemma memcmp_take_r (a b b' : list byte) (n : nat) :
  take n b = take n b' -> memcmp a b n = memcmp a b' n.
Proof.
  revert a b b'. induction n as [|n IH]; intros a b b' H.
  - rewrite !memcmp_zero. reflexivity.
  - destruct a as [|x a]; [destruct b, b'; reflexivity|].
    destruct b as [|y b], b' as [|y' b']; cbn in H; try discriminate H; [reflexivity|].
    injection H as -> H. cbn [memcmp].
    destruct (Byte.to_N x =? Byte.to_N y')%N; [apply IH; exact H | reflexivity].
Qed.

Section WiFiRoundTrip.
Variables kMaxWiFiSSIDLength kMaxWiFiKeyLength : nat.

Local Abbreviation kS := kMaxWiFiSSIDLength.
Local Abbreviation kK := kMaxWiFiKeyLength.

(** X14.  What was committed comes back at start-up: on the reference
    store, for well-formed records and array sizes of at most 255, after
    a [CommitConfiguration] that returned CHIP_NO_ERROR, [Init] of any
    driver over the resulting store returns CHIP_NO_ERROR, makes the
    staged record equal to the saved one, and restores the committed SSID
    and credentials with their lengths; the restored network answers
    [NetworkMatch] as the committed one did. *)
Theorem Init_restores_committed (d d0 : NuttxWiFiDriver) (s : Store) (w' : DriverWorld Store) :
  (kS <= 255)%nat -> (kK <= 255)%nat ->
  driver_wf kS kK d -> driver_wf kS kK d0 ->
  CommitConfiguration (mkDriverWorld d s) = (CHIP_NO_ERROR, w') ->
  exists d1,
    Init kS kK (mkDriverWorld d0 (kvs w')) = (CHIP_NO_ERROR, mkDriverWorld d1 (kvs w')) /\
    mStagingNetwork d1 = mSavedNetwork d1 /\
    ssidLen (mSavedNetwork d1) = ssidLen (mStagingNetwork d) /\
    take (Z.to_nat (ssidLen (mStagingNetwork d))) (ssid (mSavedNetwork d1))
      = take (Z.to_nat (ssidLen (mStagingNetwork d))) (ssid (mStagingNetwork d)) /\
    credentialsLen (mSavedNetwork d1) = credentialsLen (mStagingNetwork d) /\
    take (Z.to_nat (credentialsLen (mStagingNetwork d))) (credentials (mSavedNetwork d1))
      = take (Z.to_nat (credentialsLen (mStagingNetwork d))) (credentials (mStagingNetwork d)) /\
    driver_wf kS kK d1 /\
    forall networkId : list byte,
      NetworkMatch (mStagingNetwork d1) networkId = NetworkMatch (mStagingNetwork d) networkId.
Proof.
  intros HkS HkK (_ & Hs1 & Hs2 & Hs3 & Hs4) ((H01 & H02 & _) & _).
  set (staging := mStagingNetwork d) in *.
  set (v1 := take (Z.to_nat (ssidLen staging)) (ssid staging)).
  set (v2 := take (Z.to_nat (credentialsLen staging)) (credentials staging)).
  assert (Hl1 : length v1 = Z.to_nat (ssidLen staging))
    by (unfold v1; rewrite length_take; lia).
  assert (Hl2 : length v2 = Z.to_nat (credentialsLen staging))
    by (unfold v2; rewrite length_take; lia).
  unfold CommitConfiguration. cbn [driver kvs Put Store_KeyValueStoreManager].
  fold staging. fold v1. fold v2.
  assert (Hput : forall key v st e st',
            store_put key v st = (e, st') -> e = CHIP_NO_ERROR ->
            st_entries st' = <[key := v]> (st_entries st)).
  { intros key v st e st'. unfold store_put.
    destruct (st_entries st !! key).
    - intros [= <- <-] _. reflexivity.
    - destruct (_ <=? _)%nat; intros [= <- <-] He; [discriminate He | reflexivity]. }
  destruct (store_put kWiFiSSIDKeyName v1 s) as [e1 st1] eqn:E1.
  destruct (bool_decide_reflect (e1 = CHIP_NO_ERROR)) as [->|Hn1]; cbn [negb].
  2:{ intros [= ? _]. contradiction. }
  destruct (store_put kWiFiCredentialsKeyName v2 st1) as [e2 st2] eqn:E2.
  destruct (bool_decide_reflect (e2 = CHIP_NO_ERROR)) as [->|Hn2]; cbn [negb].
  2:{ intros [= ? _]. contradiction. }
  intros [= <-]. cbn [kvs].
  pose proof (Hput _ _ _ _ _ E1 eq_refl) as Hst1.
  pose proof (Hput _ _ _ _ _ E2 eq_refl) as Hst2.
  assert (Hg2 : st_entries st2 !! kWiFiCredentialsKeyName = Some v2)
    by (rewrite Hst2; apply lookup_insert_eq).
  assert (Hg1 : st_entries st2 !! kWiFiSSIDKeyName = Some v1).
  { rewrite Hst2, lookup_insert_ne by discriminate. rewrite Hst1. apply lookup_insert_eq. }
  unfold Init. cbn [driver kvs Get Store_KeyValueStoreReader].
  unfold store_get at 1. rewrite Hg2.
  replace (kK <? length v2)%nat with false by (symmetry; apply Nat.ltb_ge; lia).
  rewrite bool_decide_eq_false_2 by discriminate.
  cbn [ssid]. unfold store_get. rewrite Hg1.
  replace (kS <? length v1)%nat with false by (symmetry; apply Nat.ltb_ge; lia).
  rewrite bool_decide_eq_false_2 by discriminate.
  eexists. split; [reflexivity|].
  cbn [mStagingNetwork mSavedNetwork ssid ssidLen credentials credentialsLen].
  rewrite !to_uint8_small by lia. rewrite Hl1, Hl2, !Z2Nat.id by lia.
  assert (Ht1 : take (Z.to_nat (ssidLen staging))
                  (memcpy (ssid (mSavedNetwork d0)) v1 (Z.to_nat (ssidLen staging)))
                = take (Z.to_nat (ssidLen staging)) (ssid staging)).
  { rewrite memcpy_take by lia. unfold v1. rewrite take_take. f_equal. lia. }
  split; [reflexivity|]. split; [reflexivity|]. split; [exact Ht1|].
  split; [reflexivity|].
  split.
  { rewrite memcpy_take by lia. unfold v2. rewrite take_take. f_equal. lia. }
  split.
  { assert (Hwf1 : network_wf kS kK
        (mkWiFiNetwork (memcpy (ssid (mSavedNetwork d0)) v1 (Z.to_nat (ssidLen staging)))
           (ssidLen staging)
           (memcpy (credentials (mSavedNetwork d0)) v2 (Z.to_nat (credentialsLen staging)))
           (credentialsLen staging))).
    { unfold network_wf. cbn [ssid credentials ssidLen credentialsLen].
      rewrite !memcpy_length by lia. lia. }
    split; exact Hwf1. }
  intros networkId. unfold NetworkMatch. cbn [ssid ssidLen].
  f_equal. f_equal. apply memcmp_take_r. exact Ht1.
Qed.

End WiFiRoundTrip.

(** ** The further statements at concrete inputs *)

Lemma blank_driver_wf : driver_wf 32 64 blank_driver.
Proof.
  repeat (apply conj); vm_compute; first [reflexivity | intro Hc; discriminate Hc].
Defined.

Lemma home_driver_wf : driver_wf 32 64 home_driver.
Proof.
  repeat (apply conj); vm_compute; first [reflexivity | intro Hc; discriminate Hc].
Defined.

Lemma reachable_opened (cfg : Config) (pipe_size : Z) :
  fst (Open cfg (world0 pipe_size)) = Ret CHIP_NO_ERROR ->
  reachable cfg (world0 pipe_size) (opened cfg pipe_size).
Proof.
  intros H. apply reach_open. unfold opened.
  destruct (Open cfg (world0 pipe_size)) as [r w1]. cbn in H |- *. rewrite H. reflexivity.
Defined.

(** X1 at a concrete input: [work] is added to a blank driver. *)
Lemma AddOrUpdateNetwork_stores_witness :
  exists d',
    AddOrUpdateNetwork 32 64 work_ssid pw_credentials EmptyString blank_driver
      = (kSuccess, EmptyString, 0, d') /\
    mSavedNetwork d' = mSavedNetwork blank_driver /\
    ssidLen (mStagingNetwork d') = Z.of_nat (length work_ssid) /\
    take (length work_ssid) (ssid (mStagingNetwork d')) = work_ssid /\
    credentialsLen (mStagingNetwork d') = Z.of_nat (length pw_credentials) /\
    take (length pw_credentials) (credentials (mStagingNetwork d')) = pw_credentials /\
    NetworkMatch (mStagingNetwork d') work_ssid = true /\
    Count d' = (if (length work_ssid =? 0)%nat then 0 else 1) /\
    driver_wf 32 64 d'.
Proof.
  assert (H1 : (32 <= 255)%nat) by lia.
  assert (H2 : (64 <= 255)%nat) by lia.
  assert (H3 : ssidLen (mStagingNetwork blank_driver) = 0 \/
               NetworkMatch (mStagingNetwork blank_driver) work_ssid = true)
    by (left; reflexivity).
  assert (H4 : (length work_ssid <= 32)%nat) by (vm_compute; lia).
  assert (H5 : (length pw_credentials <= 64)%nat) by (vm_compute; lia).
  exact (AddOrUpdateNetwork_stores 32 64 blank_driver work_ssid pw_credentials EmptyString
           H1 H2 blank_driver_wf H3 H4 H5).
Defined.

(** X2 at a concrete input: credentials of 65 bytes for an array of
    64. *)
Lemma AddOrUpdateNetwork_out_of_range_witness :
  AddOrUpdateNetwork 32 64 work_ssid (replicate 65 Byte.x00) EmptyString blank_driver
    = (kOutOfRange, EmptyString, 0, blank_driver).
Proof.
  assert (H1 : ssidLen (mStagingNetwork blank_driver) = 0 \/
               NetworkMatch (mStagingNetwork blank_driver) work_ssid = true)
    by (left; reflexivity).
  assert (H2 : (64 < length (replicate 65 Byte.x00))%nat \/ (32 < length work_ssid)%nat)
    by (left; vm_compute; lia).
  exact (AddOrUpdateNetwork_out_of_range 32 64 blank_driver work_ssid (replicate 65 Byte.x00)
           EmptyString H1 H2).
Defined.

(** X3 at a concrete input: the empty SSID with the password [pw]. *)
Lemma AddOrUpdateNetwork_empty_ssid_witness :
  exists d',
    AddOrUpdateNetwork 32 64 [] pw_credentials EmptyString blank_driver
      = (kSuccess, EmptyString, 0, d') /\
    take (length pw_credentials) (credentials (mStagingNetwork d')) = pw_credentials /\
    Count d' = 0 /\
    Next blank_item d' false blank_item = (false, blank_item, false).
Proof.
  assert (H1 : ssidLen (mStagingNetwork blank_driver) = 0) by reflexivity.
  assert (H2 : (length pw_credentials <= 64)%nat) by (vm_compute; lia).
  exact (AddOrUpdateNetwork_empty_ssid 32 64 blank_driver pw_credentials EmptyString
           blank_item blank_item H1 H2).
Defined.

(** X4 at a concrete input: the staged network [home] is removed. *)
Lemma RemoveNetwork_clears_length_only_witness :
  exists d',
    RemoveNetwork home_ssid EmptyString home_driver = (kSuccess, EmptyString, 0, d') /\
    Count d' = 0 /\
    mSavedNetwork d' = mSavedNetwork home_driver /\
    ssid (mStagingNetwork d') = ssid (mStagingNetwork home_driver) /\
    credentials (mStagingNetwork d') = credentials (mStagingNetwork home_driver) /\
    credentialsLen (mStagingNetwork d') = credentialsLen (mStagingNetwork home_driver) /\
    forall (s c : list byte) (t : string),
      (length s <= 32)%nat -> (length c <= 64)%nat ->
      fst (AddOrUpdateNetwork 32 64 s c t d') = (kSuccess, EmptyString, 0).
Proof.
  assert (H1 : NetworkMatch (mStagingNetwork home_driver) home_ssid = true)
    by (vm_compute; reflexivity).
  exact (RemoveNetwork_clears_length_only 32 64 home_driver home_ssid EmptyString H1).
Defined.

(** X6 at a concrete input: [work] is added to a blank driver and removed
    again. *)
Lemma driver_wf_preserved_witness :
  driver_wf 32 64
    (run_ops 32 64 add_then_remove (driver (mkDriverWorld blank_driver empty_store))) /\
  driver_wf 32 64
    (driver (snd (CommitConfiguration
                    (mkDriverWorld
                       (run_ops 32 64 add_then_remove
                          (driver (mkDriverWorld blank_driver empty_store)))
                       (kvs (mkDriverWorld blank_driver empty_store)))))) /\
  driver_wf 32 64
    (driver (snd (RevertConfiguration
                    (mkDriverWorld
                       (run_ops 32 64 add_then_remove
                          (driver (mkDriverWorld blank_driver empty_store)))
                       (kvs (mkDriverWorld blank_driver empty_store)))))).
Proof.
  assert (H1 : (32 <= 255)%nat) by lia.
  assert (H2 : (64 <= 255)%nat) by lia.
  assert (H3 : driver_wf 32 64 (driver (mkDriverWorld blank_driver empty_store)))
    by exact blank_driver_wf.
  exact (driver_wf_preserved 32 64 add_then_remove (mkDriverWorld blank_driver empty_store)
           H1 H2 H3).
Defined.

(** X7 at a concrete input: a store with no room refuses the first
    write. *)
Lemma CommitConfiguration_failure_witness :
  fst commit_refused <> CHIP_NO_ERROR /\
  driver (snd commit_refused) = driver (mkDriverWorld home_driver full_store) /\
  let staging := mStagingNetwork (driver (mkDriverWorld home_driver full_store)) in
  let r1 :=
    Put kWiFiSSIDKeyName (take (Z.to_nat (ssidLen staging)) (ssid staging))
      (kvs (mkDriverWorld home_driver full_store)) in
  let r2 :=
    Put kWiFiCredentialsKeyName
      (take (Z.to_nat (credentialsLen staging)) (credentials staging)) (snd r1) in
  (fst r1 = fst commit_refused /\ kvs (snd commit_refused) = snd r1) \/
  (fst r1 = CHIP_NO_ERROR /\ fst r2 = fst commit_refused /\ kvs (snd commit_refused) = snd r2).
Proof.
  assert (H1 : CommitConfiguration (mkDriverWorld home_driver full_store)
               = (fst commit_refused, snd commit_refused))
    by (vm_compute; reflexivity).
  assert (H2 : fst commit_refused <> CHIP_NO_ERROR)
    by (vm_compute; intro Hc; discriminate Hc).
  split; [exact H2|].
  exact (CommitConfiguration_failure (mkDriverWorld home_driver full_store)
           (snd commit_refused) (fst commit_refused) H1 H2).
Defined.

(** X8 at a concrete input: the staged network [home] is listed. *)
Lemma Next_lists_Count_witness :
  exists more item1 exhausted1,
    Next blank_item home_driver false blank_item = (more, item1, exhausted1) /\
    (if more then 1 else 0) = Count home_driver /\
    (more = true ->
     exhausted1 = true /\
     networkIDLen item1 = ssidLen (mStagingNetwork home_driver) /\
     take (Z.to_nat (ssidLen (mStagingNetwork home_driver))) (networkID item1)
       = take (Z.to_nat (ssidLen (mStagingNetwork home_driver)))
           (ssid (mStagingNetwork home_driver)) /\
     (networkIDLen blank_item = 0 -> connected item1 = false)) /\
    (more = false -> item1 = blank_item /\ exhausted1 = false) /\
    forall item' : Network, Next blank_item home_driver true item' = (false, item', true).
Proof.
  assert (H1 : (Z.to_nat (ssidLen (mStagingNetwork home_driver))
                <= length (ssid (mStagingNetwork home_driver)))%nat)
    by (vm_compute; lia).
  exact (Next_lists_Count blank_item home_driver blank_item H1).
Defined.

(** X9 at a concrete input: [home] is connected on a platform whose calls
    all succeed. *)
Lemma ConnectNetwork_reports_once_witness :
  ConnectNetwork 32 64 home_ssid true home_driver idle_platform = Some home_connected /\
  exists evs status,
    net_trace home_connected = net_trace idle_platform ++ evs ++ [NetOnResult status] /\
    forallb (fun e => negb (is_OnResult e)) evs = true /\
    (status = kNetworkIDNotFound <->
     NetworkMatch (mStagingNetwork home_driver) home_ssid = false) /\
    (status = kSuccess <-> existsb is_post evs = true) /\
    (status = kSuccess \/ status = kNetworkIDNotFound \/ status = kUnknownError).
Proof.
  assert (H1 : ConnectNetwork 32 64 home_ssid true home_driver idle_platform
               = Some home_connected)
    by (vm_compute; reflexivity).
  split; [exact H1|].
  exact (ConnectNetwork_reports_once 32 64 home_ssid home_driver idle_platform
           home_connected H1).
Defined.

(** X10 at a concrete input: the same connection, call by call. *)
Lemma ConnectNetwork_establishes_witness :
  ConnectNetwork 32 64 home_ssid true home_driver idle_platform = Some home_connected.
Proof.
  assert (H1 : NetworkMatch (mStagingNetwork home_driver) home_ssid = true)
    by (vm_compute; reflexivity).
  assert (H2 : (Z.to_nat (ssidLen (mStagingNetwork home_driver))
                <= length (ssid (mStagingNetwork home_driver)))%nat)
    by (vm_compute; lia).
  assert (H3 : (Z.to_nat (credentialsLen (mStagingNetwork home_driver))
                <= length (credentials (mStagingNetwork home_driver)))%nat)
    by (vm_compute; lia).
  assert (H4 : GetWiFiIfName (net idle_platform) = Some "wlan0"%string) by reflexivity.
  assert (H5 : 0 < ssidLen (mStagingNetwork home_driver)) by (vm_compute; reflexivity).
  assert (H6 : 0 <= fst (netlib_ifup "wlan0" (net idle_platform)))
    by (vm_compute; intro Hc; discriminate Hc).
  assert (H7 : 0 <= fst (wpa_driver_wext_associate
                           (association_request 32 64 "wlan0" (mStagingNetwork home_driver))
                           (snd (netlib_ifup "wlan0" (net idle_platform)))))
    by (vm_compute; intro Hc; discriminate Hc).
  exact (ConnectNetwork_establishes 32 64 home_ssid true home_driver idle_platform "wlan0"
           H1 H2 H3 H4 H5 H6 H7).
Defined.

(** X11 at a concrete input: [work] is asked for while [home] is
    staged. *)
Lemma ConnectNetwork_cannot_start_witness :
  exists evs,
    ConnectNetwork 32 64 work_ssid true home_driver idle_platform
      = Some (mkNetWorld (net idle_platform)
                (net_trace idle_platform ++ evs
                   ++ (if true then
                         [NetLog "Connect to WiFi network";
                          NetOnResult (if NetworkMatch (mStagingNetwork home_driver) work_ssid
                                       then kUnknownError else kNetworkIDNotFound)]
                       else []))) /\
    forallb (fun e => negb (is_platform_call e) && negb (is_OnResult e)) evs = true.
Proof.
  assert (H1 : NetworkMatch (mStagingNetwork home_driver) work_ssid = false \/
               ssidLen (mStagingNetwork home_driver) = 0)
    by (left; vm_compute; reflexivity).
  exact (ConnectNetwork_cannot_start 32 64 work_ssid true home_driver idle_platform H1).
Defined.

(** X12 at a concrete input: a blank driver and the identifier [work]. *)
Lemma empty_identifier_matches_empty_slot_witness :
  NetworkMatch (mStagingNetwork blank_driver) [] = true /\
  fst (RemoveNetwork [] EmptyString blank_driver) = (kSuccess, EmptyString, 0) /\
  Count (snd (RemoveNetwork [] EmptyString blank_driver)) = 0 /\
  ReorderNetwork [] 0 EmptyString blank_driver = (kSuccess, EmptyString, blank_driver) /\
  (NetworkMatch (mStagingNetwork blank_driver) work_ssid = false ->
   RemoveNetwork work_ssid EmptyString blank_driver
     = (kNetworkIDNotFound, EmptyString, 0, blank_driver) /\
   ReorderNetwork work_ssid 0 EmptyString blank_driver
     = (kNetworkIDNotFound, EmptyString, blank_driver)).
Proof.
  assert (H1 : ssidLen (mStagingNetwork blank_driver) = 0) by reflexivity.
  exact (empty_identifier_matches_empty_slot blank_driver work_ssid 0 EmptyString H1).
Defined.

(** X14 at a concrete input: [home] is committed to an empty store and
    read back by a blank driver. *)
Lemma Init_restores_committed_witness :
  exists d1,
    Init 32 64 (mkDriverWorld blank_driver (kvs home_committed))
      = (CHIP_NO_ERROR, mkDriverWorld d1 (kvs home_committed)) /\
    mStagingNetwork d1 = mSavedNetwork d1 /\
    ssidLen (mSavedNetwork d1) = ssidLen (mStagingNetwork home_driver) /\
    take (Z.to_nat (ssidLen (mStagingNetwork home_driver))) (ssid (mSavedNetwork d1))
      = take (Z.to_nat (ssidLen (mStagingNetwork home_driver)))
          (ssid (mStagingNetwork home_driver)) /\
    credentialsLen (mSavedNetwork d1) = credentialsLen (mStagingNetwork home_driver) /\
    take (Z.to_nat (credentialsLen (mStagingNetwork home_driver)))
        (credentials (mSavedNetwork d1))
      = take (Z.to_nat (credentialsLen (mStagingNetwork home_driver)))
          (credentials (mStagingNetwork home_driver)) /\
    driver_wf 32 64 d1 /\
    forall networkId : list byte,
      NetworkMatch (mStagingNetwork d1) networkId
        = NetworkMatch (mStagingNetwork home_driver) networkId.
Proof.
  assert (H1 : (32 <= 255)%nat) by lia.
  assert (H2 : (64 <= 255)%nat) by lia.
  assert (H3 : CommitConfiguration (mkDriverWorld home_driver empty_store)
               = (CHIP_NO_ERROR, home_committed))
    by (vm_compute; reflexivity).
  exact (Init_restores_committed 32 64 home_driver blank_driver empty_store home_committed
           H1 H2 home_driver_wf blank_driver_wf H3).
Defined.

(** X17 at a concrete input: the event counter after [Open]. *)
Lemma Notify_is_one_write_witness :
  exists r,
    trace (snd (Notify cfg_eventfd (opened cfg_eventfd 256)))
      = trace (opened cfg_eventfd 256)
        ++ [EvSys (notify_call cfg_eventfd (self (opened cfg_eventfd 256))) r] /\
    fst (Notify cfg_eventfd (opened cfg_eventfd 256)) =
      match r with
      | None => Halted Blocked
      | Some v =>
          if (v <? 0)
             && not_would_block (errno (os (snd (Notify cfg_eventfd (opened cfg_eventfd 256)))))
          then Ret (CHIP_ERROR_POSIX
                      (errno (os (snd (Notify cfg_eventfd (opened cfg_eventfd 256))))))
          else Ret CHIP_NO_ERROR
      end.
Proof.
  assert (H1 : CHIP_SYSTEM_CONFIG_USE_POSIX_PIPE cfg_eventfd
               && CHIP_SYSTEM_CONFIG_WAKE_EVENT_USE_FIFO cfg_eventfd = false)
    by reflexivity.
  exact (Notify_is_one_write cfg_eventfd (opened cfg_eventfd 256) H1).
Defined.

(** X18 at a concrete input: [Open] of the anonymous pipe on a freshly
    booted system. *)
Lemma Open_success_registers_witness :
  exists evs,
    trace (opened cfg_pipe 256)
      = trace (world0 256) ++ evs
        ++ registration (mReadFD (self (opened cfg_pipe 256)))
             (mReadWatch (self (opened cfg_pipe 256))) /\
    forallb is_returned_call evs = true.
Proof.
  assert (H1 : Open cfg_pipe (world0 256) = (Ret CHIP_NO_ERROR, opened cfg_pipe 256))
    by (vm_compute; reflexivity).
  exact (Open_success_registers cfg_pipe (world0 256) (opened cfg_pipe 256) H1).
Defined.

(** X19 at a concrete input: three bytes pending in the anonymous
    pipe. *)
Lemma Confirm_reads_counted_witness :
  fst (Confirm cfg_pipe 1 pipe_after_three) = Ret tt /\
  trace (snd (Confirm cfg_pipe 1 pipe_after_three))
    = trace pipe_after_three
      ++ replicate (Z.to_nat (signal pipe_after_three / sizeof_buffer))
           (full_read (mReadFD (self pipe_after_three)))
      ++ [EvSys (c_read (mReadFD (self pipe_after_three)) sizeof_buffer)
            (Some (if signal pipe_after_three mod sizeof_buffer =? 0 then -1
                   else signal pipe_after_three mod sizeof_buffer))].
Proof.
  assert (H0 : kernel_wf (os (world0 256))) by (apply kernel_wf_boot; lia).
  assert (H1 : CHIP_SYSTEM_CONFIG_USE_POSIX_PIPE cfg_pipe = true) by reflexivity.
  assert (H2 : channel cfg_pipe pipe_after_three).
  { apply (reachable_channel cfg_pipe (world0 256) pipe_after_three H0).
    apply reachable_run_notifies, reachable_opened. vm_compute. reflexivity. }
  assert (H3 : (Z.to_nat (signal pipe_after_three / sizeof_buffer) < 1)%nat)
    by (vm_compute; lia).
  exact (Confirm_reads_counted cfg_pipe 1 pipe_after_three H1 H2 H3).
Defined.

(** X20 at a concrete input: five notifications into a pipe of two
    bytes. *)
Lemma Notify_coalesces_witness :
  signal (run_notifies cfg_pipe 5 small_pipe)
    = Z.min (signal small_pipe + Z.of_nat 5) (k_pipe_size (os small_pipe)) /\
  fst (Notify cfg_pipe (run_notifies cfg_pipe 5 small_pipe)) = Ret CHIP_NO_ERROR.
Proof.
  assert (H0 : kernel_wf (os (world0 2))) by (apply kernel_wf_boot; lia).
  assert (H1 : CHIP_SYSTEM_CONFIG_USE_POSIX_PIPE cfg_pipe = true) by reflexivity.
  assert (H2 : channel cfg_pipe small_pipe).
  { apply (reachable_channel cfg_pipe (world0 2) small_pipe H0).
    apply reachable_opened. vm_compute. reflexivity. }
  assert (H3 : signal small_pipe <= k_pipe_size (os small_pipe))
    by (vm_compute; intro Hc; discriminate Hc).
  exact (Notify_coalesces cfg_pipe small_pipe 5 H1 H2 H3).
Defined.

(** X21 at a concrete input: the anonymous pipe is closed with three
    bytes pending. *)
Lemma Close_undoes_Open_witness :
  exists w',
    Close cfg_pipe pipe_after_three = (Ret tt, w') /\
    Forall (fun fd => file_of fd (os w') = None) (descriptors cfg_pipe (self pipe_after_three)) /\
    Forall (fun fd => fd = -1) (descriptors cfg_pipe (self w')) /\
    mReadWatch (self w') = InvalidSocketWatchToken /\
    l_pool (layer w') !! mReadWatch (self pipe_after_three) = None.
Proof.
  assert (H0 : kernel_wf (os (world0 256))) by (apply kernel_wf_boot; lia).
  assert (H1 : reachable cfg_pipe (world0 256) pipe_after_three).
  { apply reachable_run_notifies, reachable_opened. vm_compute. reflexivity. }
  exact (Close_undoes_Open cfg_pipe (world0 256) pipe_after_three H0 H1).
Defined.

(** X22 at a concrete input: the event counter after three
    notifications. *)
Lemma registration_armed_while_open_witness :
  l_pool (layer eventfd_after_three) !! mReadWatch (self eventfd_after_three)
    = Some (mkSocketWatch (mReadFD (self eventfd_after_three)) (Some ConfirmCallback) true).
Proof.
  assert (H1 : reachable cfg_eventfd (world0 256) eventfd_after_three).
  { apply reachable_run_notifies, reachable_opened. vm_compute. reflexivity. }
  exact (registration_armed_while_open cfg_eventfd (world0 256) eventfd_after_three H1).
Defined.

(** X23 at a concrete input: task 1 notifies through the FIFO that task 0
    opened. *)
Lemma Notify_from_another_task_witness :
  exists w',
    Notify cfg_fifo (from_task 1 fifo_opened) = (Ret CHIP_NO_ERROR, w') /\
    signal (from_task (k_task (os fifo_opened)) w') = signal fifo_opened + 1 /\
    file_of (k_next_fd (os fifo_opened)) (os w') = None /\
    trace w' = trace fifo_opened ++
      [EvSys (c_write (mWriteFD (self fifo_opened)) [byte_one]) (Some (-1));
       EvSys (c_open kChipEventFifoPath O_WRONLY) (Some (k_next_fd (os fifo_opened)));
       EvSys (c_write (k_next_fd (os fifo_opened)) [byte_one]) (Some 1);
       EvSys (c_close (k_next_fd (os fifo_opened))) (Some 0)].
Proof.
  assert (H0 : kernel_wf (os (world0 256))) by (apply kernel_wf_boot; lia).
  assert (H1 : CHIP_SYSTEM_CONFIG_USE_POSIX_PIPE cfg_fifo = true) by reflexivity.
  assert (H2 : CHIP_SYSTEM_CONFIG_WAKE_EVENT_USE_FIFO cfg_fifo = true) by reflexivity.
  assert (H3 : reachable cfg_fifo (world0 256) fifo_opened)
    by (apply reachable_opened; vm_compute; reflexivity).
  assert (H4 : 1%nat <> k_task (os fifo_opened)) by (vm_compute; intro Hc; discriminate Hc).
  assert (H5 : k_files (os fifo_opened) !! (1%nat, mWriteFD (self fifo_opened)) = None)
    by (vm_compute; reflexivity).
  assert (H6 : signal fifo_opened < k_pipe_size (os fifo_opened)) by (vm_compute; reflexivity).
  assert (H7 : k_next_fd (os fifo_opened) < k_fd_limit (os fifo_opened))
    by (vm_compute; reflexivity).
  assert (H8 : k_next_fd (os fifo_opened) <> -1) by (vm_compute; intro Hc; discriminate Hc).
  exact (Notify_from_another_task cfg_fifo (world0 256) fifo_opened 1
           H1 H2 H0 H3 H4 H5 H6 H7 H8).
Defined.
